(** * Scrollify: the frame-generation pipeline of [scrollify_core.py]

    A shallow embedding of [ScrollifyGenerator] (geometry, preprocessing,
    frame scheduling, encoding dispatch) and the properties of the
    specification that concern it.

    Conventions of the embedding.
    - Python [int] is [Z].  Python [float] is an IEEE-754 binary64 value,
      [spec_float] with precision 53 and maximal exponent 1024, and the
      float operations are those of [SpecFloat] (round to nearest, ties to
      even).
    - Python [str] is [string]; only ASCII text is interpreted (case
      mapping, white space, digits).
    - A method of the generator is a function from the generator state to an
      outcome and the state it leaves behind, so that what was written
      before an exception is still visible after it.
    - The two [while] loops of [generate_frames] take fuel; running out of
      fuel stands for a loop that is still running.
    - Pillow images are symbolic: a frame records the operations and the
      arguments that produce it.  Pillow's own argument checks are outside
      the model. *)

From Stdlib Require Import ZArith List String Ascii Bool Lia QArith Qround.
From Stdlib Require Import Floats.SpecFloat.
Import ListNotations.

Local Open Scope Z_scope.

(** ** Exceptions and outcomes *)

Inductive exn : Type :=
| FileNotFoundError                (* load_image: the path does not exist *)
| CannotOpenImage                  (* Image.open fails on the file *)
| AttributeError                   (* an attribute of None is read *)
| TypeError                        (* arithmetic on None *)
| ValueError                       (* int() / unpacking / float NaN to int *)
| ZeroDivisionError
| OverflowError
| IndexError
| ImportError
| NoFrames                         (* ValueError("没有生成任何帧") *)
| UnsupportedFormat (fmt : string) (* ValueError("不支持的输出格式: ...") *).

Inductive outcome (A : Type) : Type :=
| Ret (a : A)
| Raise (e : exn)
| OutOfFuel.

Arguments Ret {A} a.
Arguments Raise {A} e.
Arguments OutOfFuel {A}.

(** Pure, possibly raising computations (expressions). *)
Definition bindO {A B} (x : outcome A) (k : A -> outcome B) : outcome B :=
  match x with
  | Ret a => k a
  | Raise e => Raise e
  | OutOfFuel => OutOfFuel
  end.

(** [try: x except: h] with a bare [except], which catches every exception. *)
Definition try_except {A} (x : outcome A) (h : outcome A) : outcome A :=
  match x with
  | Raise _ => h
  | _ => x
  end.

(** ** Python numbers *)

Module Py.

Definition float := spec_float.

Definition prec : Z := 53.
Definition emax : Z := 1024.

Definition fmul (x y : float) : float := SFmul prec emax x y.

Definition is_infinite (x : float) : bool :=
  match x with S754_infinity _ => true | _ => false end.

(** [float(n)] for an int [n], as done implicitly by [n * x] and [x * n]:
    correctly rounded, [OverflowError] when out of range. *)
Definition float_of_int (n : Z) : outcome float :=
  let f := binary_normalize prec emax n 0 false in
  if is_infinite f then Raise OverflowError else Ret f.

(** [a / b] on two ints: the correctly rounded quotient. *)
Definition int_truediv (a b : Z) : outcome float :=
  if b =? 0 then Raise ZeroDivisionError
  else if a =? 0 then Ret (S754_zero (b <? 0))
  else
    let '(q, e, l) := SFdiv_core_binary prec emax (Z.abs a) 0 (Z.abs b) 0 in
    let f := binary_round_aux prec emax (xorb (a <? 0) (b <? 0)) q e l in
    if is_infinite f then Raise OverflowError else Ret f.

(** [int(x)] on a float: truncation toward zero. *)
Definition int_of_float (x : float) : outcome Z :=
  match x with
  | S754_zero _ => Ret 0
  | S754_finite s m e =>
      let a := if 0 <=? e then Zpos m * 2 ^ e else Zpos m / 2 ^ (- e) in
      Ret (if s then - a else a)
  | S754_infinity _ => Raise OverflowError
  | S754_nan => Raise ValueError
  end.

(** [int * float] and [float * int]. *)
Definition int_mul_float (n : Z) (x : float) : outcome float :=
  bindO (float_of_int n) (fun f => Ret (fmul f x)).

Definition float_mul_int (x : float) (n : Z) : outcome float :=
  bindO (float_of_int n) (fun f => Ret (fmul x f)).

(** The exact value of a finite float, for stating what the text of the
    specification says about real numbers. *)
Definition to_Q (x : float) : Q :=
  match x with
  | S754_finite s m e =>
      let v := if 0 <=? e then inject_Z (Zpos m * 2 ^ e)
               else Qmake (Zpos m) (Z.to_pos (2 ^ (- e))) in
      if s then Qopp v else v
  | _ => 0%Q
  end.

(** The float literal [n.0] of a small int, and the literal nearest to
    [a/b]. *)
Definition lit (n : Z) : float := binary_normalize prec emax n 0 false.

Definition lit_ratio (a b : Z) : float :=
  match int_truediv a b with Ret f => f | _ => S754_nan end.

End Py.

(** ** Python strings *)

Module Str.

Local Open Scope char_scope.

(** [s.split(sep)] for a one-character separator: always at least one
    field. *)
Fixpoint split (sep : ascii) (s : string) : list string :=
  match s with
  | EmptyString => [EmptyString]
  | String c r =>
      if Ascii.eqb c sep then EmptyString :: split sep r
      else match split sep r with
           | f :: fs => String c f :: fs
           | [] => [String c EmptyString]
           end
  end.

Definition is_space (c : ascii) : bool :=
  let n := nat_of_ascii c in
  orb (andb (9 <=? n)%nat (n <=? 13)%nat)
      (orb (andb (28 <=? n)%nat (n <=? 32)%nat) false).

Definition is_digit (c : ascii) : bool :=
  let n := nat_of_ascii c in andb (48 <=? n)%nat (n <=? 57)%nat.

Definition digit_value (c : ascii) : Z := Z.of_nat (nat_of_ascii c) - 48.

Fixpoint lstrip (s : string) : string :=
  match s with
  | String c r => if is_space c then lstrip r else s
  | EmptyString => s
  end.

Fixpoint rstrip (s : string) : string :=
  match s with
  | EmptyString => EmptyString
  | String c r =>
      match rstrip r with
      | EmptyString => if is_space c then EmptyString else String c EmptyString
      | r' => String c r'
      end
  end.

Definition strip (s : string) : string := rstrip (lstrip s).

(** The digits of an int literal: decimal digits, single underscores allowed
    between two digits. *)
Fixpoint scan_digits (acc : Z) (after_digit : bool) (s : string) : option Z :=
  match s with
  | EmptyString => if after_digit then Some acc else None
  | String c r =>
      if is_digit c then scan_digits (10 * acc + digit_value c) true r
      else if Ascii.eqb c "_" then
             (if after_digit then scan_digits acc false r else None)
      else None
  end.

(** [int(s)] on a string, base 10: surrounding white space, an optional
    sign, then the digits.  A failure is Python's [ValueError].  Digits and
    white space outside ASCII, and the interpreter's configurable limit on
    the number of digits, are not modelled. *)
Definition to_int (s : string) : option Z :=
  match strip s with
  | String "+" r => scan_digits 0 false r
  | String "-" r => option_map Z.opp (scan_digits 0 false r)
  | t => scan_digits 0 false t
  end.

Definition upper_char (c : ascii) : ascii :=
  let n := nat_of_ascii c in
  if andb (97 <=? n)%nat (n <=? 122)%nat then ascii_of_nat (n - 32) else c.

(** [s.upper()] *)
Fixpoint upper (s : string) : string :=
  match s with
  | EmptyString => EmptyString
  | String c r => String (upper_char c) (upper r)
  end.

(** [s.rfind(c)]: the index of the last occurrence, or -1. *)
Fixpoint rfind_from (c : ascii) (s : string) (i : Z) (last : Z) : Z :=
  match s with
  | EmptyString => last
  | String d r => rfind_from c r (i + 1) (if Ascii.eqb d c then i else last)
  end.

Definition rfind (c : ascii) (s : string) : Z := rfind_from c s 0 (-1).

(** [p[i:i+1] != c]; past the end the slice is empty, which differs from
    [c]. *)
Definition differs_at (p : string) (i : Z) (c : ascii) : bool :=
  match String.get (Z.to_nat i) p with
  | Some d => negb (Ascii.eqb d c)
  | None => true
  end.

(** The loop of [genericpath._splitext] that skips the leading dots of the
    file name: [n] iterations are left from index [i]. *)
Fixpoint has_non_dot (p : string) (i : Z) (n : nat) : bool :=
  match n with
  | O => false
  | S n' => if differs_at p i "." then true else has_non_dot p (i + 1) n'
  end.

(** [os.path.splitext(p)] of [posixpath]. *)
Definition splitext (p : string) : string * string :=
  let sepIndex := rfind "/" p in
  let dotIndex := rfind "." p in
  if andb (sepIndex <? dotIndex)%Z
          (has_non_dot p (sepIndex + 1) (Z.to_nat (dotIndex - (sepIndex + 1))))
  then (substring 0 (Z.to_nat dotIndex) p,
        substring (Z.to_nat dotIndex) (String.length p - Z.to_nat dotIndex) p)
  else (p, EmptyString).

End Str.

(** ** The data model *)

(** [ScrollifyConfig] *)
Record ScrollifyConfig : Type := {
  source_image : string;
  aspect_ratio : string;
  output_width : Z;
  output_height : option Z;
  scroll_speed : Z;
  framerate : Z;
  scroll_mode : string;
  pause_duration : Py.float;
  output_format : string;
  output_path : string;
  quality_factor : Py.float;
  add_watermark : bool;
  watermark_text : string
}.

(** A Pillow image as far as the pipeline looks at it: its size. *)
Record Image : Type := { width : Z; height : Z }.

(** A frame, by the Pillow calls that build it. *)
Inductive Picture : Type :=
| Crop (left upper right lower : Z)
    (* self.scaled_image.crop((left, upper, right, lower)) *)
| Padded (w h : Z) (p : Picture)
    (* Image.new('RGB', (w, h), white) with p pasted at (0, 0) *)
| Watermarked (text : string) (p : Picture)
    (* p with the translucent text box composited at the bottom right *).

(** The scroll offset of a frame: the upper edge of its crop box. *)
Fixpoint frame_offset (p : Picture) : Z :=
  match p with
  | Crop _ u _ _ => u
  | Padded _ _ q => frame_offset q
  | Watermarked _ q => frame_offset q
  end.

(** What the encoders are asked to write. *)
Inductive event : Type :=
| WriteGif (path : string) (first : Picture) (append_images : list Picture)
           (duration loop : Z)
    (* frames[0].save(path, save_all=True, append_images=frames[1:],
                      duration=.., loop=.., optimize=True, disposal=2) *)
| WriteMp4 (path : string) (images : list Picture) (fps : Z) (looped : bool)
    (* ImageSequenceClip(.., fps=..)[.loop()].write_videofile(path, ..) *).

(** What the run finds around it. *)
Record Env : Type := {
  path_exists : string -> bool;          (* os.path.exists *)
  image_file : string -> option Image;   (* Image.open; None: it raises *)
  moviepy_available : bool               (* the imports of _save_as_mp4 *)
}.

(** [ScrollifyGenerator]: the fields of [self], and the files written. *)
Record Generator : Type := {
  config : ScrollifyConfig;
  self_source_image : option Image;
  scaled_image : option Image;
  window_height : option Z;
  frames : list Picture;
  written : list event
}.

(** [ScrollifyGenerator.__init__] *)
Definition init (c : ScrollifyConfig) : Generator :=
  {| config := c; self_source_image := None; scaled_image := None;
     window_height := None; frames := []; written := [] |}.

Definition set_output_width (v : Z) (c : ScrollifyConfig) : ScrollifyConfig :=
  {| source_image := source_image c; aspect_ratio := aspect_ratio c;
     output_width := v; output_height := output_height c;
     scroll_speed := scroll_speed c; framerate := framerate c;
     scroll_mode := scroll_mode c; pause_duration := pause_duration c;
     output_format := output_format c; output_path := output_path c;
     quality_factor := quality_factor c; add_watermark := add_watermark c;
     watermark_text := watermark_text c |}.

Definition set_output_path (v : string) (c : ScrollifyConfig)
  : ScrollifyConfig :=
  {| source_image := source_image c; aspect_ratio := aspect_ratio c;
     output_width := output_width c; output_height := output_height c;
     scroll_speed := scroll_speed c; framerate := framerate c;
     scroll_mode := scroll_mode c; pause_duration := pause_duration c;
     output_format := output_format c; output_path := v;
     quality_factor := quality_factor c; add_watermark := add_watermark c;
     watermark_text := watermark_text c |}.

Definition set_config (v : ScrollifyConfig) (g : Generator) : Generator :=
  {| config := v; self_source_image := self_source_image g;
     scaled_image := scaled_image g; window_height := window_height g;
     frames := frames g; written := written g |}.

Definition set_source_image (v : Image) (g : Generator) : Generator :=
  {| config := config g; self_source_image := Some v;
     scaled_image := scaled_image g; window_height := window_height g;
     frames := frames g; written := written g |}.

Definition set_scaled_image (v : Image) (g : Generator) : Generator :=
  {| config := config g; self_source_image := self_source_image g;
     scaled_image := Some v; window_height := window_height g;
     frames := frames g; written := written g |}.

Definition set_window_height (v : Z) (g : Generator) : Generator :=
  {| config := config g; self_source_image := self_source_image g;
     scaled_image := scaled_image g; window_height := Some v;
     frames := frames g; written := written g |}.

Definition set_frames (v : list Picture) (g : Generator) : Generator :=
  {| config := config g; self_source_image := self_source_image g;
     scaled_image := scaled_image g; window_height := window_height g;
     frames := v; written := written g |}.

Definition add_written (v : event) (g : Generator) : Generator :=
  {| config := config g; self_source_image := self_source_image g;
     scaled_image := scaled_image g; window_height := window_height g;
     frames := frames g; written := written g ++ [v] |}.

(** ** Methods as state transformers *)

Definition M (A : Type) : Type := Generator -> outcome A * Generator.

Definition ret {A} (a : A) : M A := fun g => (Ret a, g).

Definition bind {A B} (m : M A) (k : A -> M B) : M B :=
  fun g => match m g with
           | (Ret a, g') => k a g'
           | (Raise e, g') => (Raise e, g')
           | (OutOfFuel, g') => (OutOfFuel, g')
           end.

Definition raise {A} (e : exn) : M A := fun g => (Raise e, g).
Definition out_of_fuel {A} : M A := fun g => (OutOfFuel, g).
Definition get : M Generator := fun g => (Ret g, g).
Definition modify (f : Generator -> Generator) : M unit :=
  fun g => (Ret tt, f g).

(** An expression evaluated in a method. *)
Definition eval {A} (x : outcome A) : M A := fun g => (x, g).

(** An attribute that is [None] until a method sets it. *)
Definition attr_of {A} (x : option A) (e : exn) : M A :=
  match x with Some a => ret a | None => raise e end.

Declare Scope method_scope.
Delimit Scope method_scope with method.
Notation "x <- m ;; k" := (bind m (fun x => k))
  (at level 61, m at next level, right associativity) : method_scope.
Notation "m ;; k" := (bind m (fun _ => k))
  (at level 61, right associativity) : method_scope.
Local Open Scope method_scope.

(** ** Python sequences *)

(** [[x] * n] *)
Definition list_times {A} (x : A) (n : Z) : list A := repeat x (Z.to_nat n).

(** [l[:stop]] *)
Definition slice_to {A} (l : list A) (stop : Z) : list A :=
  let n := Z.of_nat (List.length l) in
  let stop' := if stop <? 0 then Z.max (stop + n) 0 else Z.min stop n in
  firstn (Z.to_nat stop') l.

(** ** [ScrollifyGenerator] *)

Section Methods.

Variable env : Env.

(** [load_image] *)
Definition load_image : M unit :=
  g <- get ;;
  if negb (path_exists env (source_image (config g))) then
    raise FileNotFoundError
  else
    match image_file env (source_image (config g)) with
    | None => raise CannotOpenImage
    | Some img => modify (set_source_image img)
    end.

(** The body of the [try] of [calculate_dimensions]:
    [w_ratio, h_ratio = map(int, aspect_ratio.split(':'))] and
    [int(output_width * h_ratio / w_ratio)]. *)
Definition ratio_height (W : Z) (token : string) : outcome Z :=
  match Str.split ":" token with
  | [a; b] =>
      match Str.to_int a with
      | None => Raise ValueError
      | Some w_ratio =>
          match Str.to_int b with
          | None => Raise ValueError
          | Some h_ratio =>
              bindO (Py.int_truediv (W * h_ratio) w_ratio) Py.int_of_float
          end
      end
  | _ => Raise ValueError
  end.

(** The handler: [int(output_width * 9 / 16)]. *)
Definition default_height (W : Z) : outcome Z :=
  bindO (Py.int_truediv (W * 9) 16) Py.int_of_float.

(** [x and y] where [y] is an optional int tested for truth. *)
Definition truthy (x : option Z) : bool :=
  match x with
  | Some h => negb (h =? 0)
  | None => false
  end.

(** [calculate_dimensions] *)
Definition calculate_dimensions : M unit :=
  g <- get ;;
  let c := config g in
  if (aspect_ratio c =? "source")%string then
    img <- attr_of (self_source_image g) AttributeError ;;
    ratio <- eval (Py.int_truediv (height img) (width img)) ;;
    wh <- eval (bindO (Py.int_mul_float (output_width c) ratio)
                      Py.int_of_float) ;;
    modify (set_window_height wh)
  else if andb (aspect_ratio c =? "custom")%string (truthy (output_height c))
  then
    match output_height c with
    | Some h => modify (set_window_height h)
    | None => ret tt
    end
  else
    wh <- eval (try_except (ratio_height (output_width c) (aspect_ratio c))
                           (default_height (output_width c))) ;;
    modify (set_window_height wh).

(** [preprocess_image] *)
Definition preprocess_image : M unit :=
  g <- get ;;
  src <- attr_of (self_source_image g) AttributeError ;;
  scale_ratio <- eval (Py.int_truediv (output_width (config g)) (width src)) ;;
  let final_scale := Py.fmul scale_ratio (quality_factor (config g)) in
  new_width <- eval (bindO (Py.int_mul_float (width src) final_scale)
                           Py.int_of_float) ;;
  new_height <- eval (bindO (Py.int_mul_float (height src) final_scale)
                            Py.int_of_float) ;;
  modify (set_scaled_image {| width := new_width; height := new_height |}) ;;
  if negb (new_width =? output_width (config g)) then
    scale_window <- eval (Py.int_truediv new_width (output_width (config g))) ;;
    wh <- attr_of (window_height g) TypeError ;;
    wh' <- eval (bindO (Py.int_mul_float wh scale_window) Py.int_of_float) ;;
    modify (set_window_height wh') ;;
    modify (fun g' => set_config (set_output_width new_width (config g')) g')
  else ret tt.

(** [_crop_safe], its result as a function of what it reads from [self]:
    the height of the scaled image and the output width. *)
Definition crop_window (img : Image) (W y_start h : Z) : Picture :=
  let y_end := Z.min (y_start + h) (height img) in
  let actual_height := y_end - y_start in
  let cropped := Crop 0 y_start W y_end in
  if actual_height <? h then Padded W h cropped else cropped.

Definition _crop_safe (y_start h : Z) : M Picture :=
  g <- get ;;
  img <- attr_of (scaled_image g) AttributeError ;;
  ret (crop_window img (output_width (config g)) y_start h).

(** [self.frames.append(frame)] and [self.frames.extend(more)] *)
Definition frames_extend (more : list Picture) : M unit :=
  modify (fun g => set_frames (frames g ++ more) g).

(** [int(self.config.pause_duration * self.config.framerate)] *)
Definition pause_frame_count (c : ScrollifyConfig) : outcome Z :=
  bindO (Py.float_mul_int (pause_duration c) (framerate c)) Py.int_of_float.

(** [while y_position < max_y: ...] *)
Fixpoint scroll_down (fuel : nat) (max_y y_position : Z) : M Z :=
  if y_position <? max_y then
    match fuel with
    | O => out_of_fuel
    | S fuel' =>
        g <- get ;;
        let y_position := Z.min (y_position + scroll_speed (config g)) max_y in
        wh <- attr_of (window_height g) TypeError ;;
        frame <- _crop_safe y_position wh ;;
        frames_extend [frame] ;;
        scroll_down fuel' max_y y_position
    end
  else ret y_position.

(** [while y_position > 0: ...] *)
Fixpoint scroll_up (fuel : nat) (y_position : Z) : M Z :=
  if 0 <? y_position then
    match fuel with
    | O => out_of_fuel
    | S fuel' =>
        g <- get ;;
        let y_position := Z.max (y_position - scroll_speed (config g)) 0 in
        wh <- attr_of (window_height g) TypeError ;;
        frame <- _crop_safe y_position wh ;;
        frames_extend [frame] ;;
        scroll_up fuel' y_position
    end
  else ret y_position.

(** [_add_watermark_to_frames]: every frame is replaced by its composite
    with the text layer. *)
Definition _add_watermark_to_frames : M unit :=
  modify (fun g =>
    set_frames (map (Watermarked (watermark_text (config g))) (frames g)) g).

(** [generate_frames] *)
Definition generate_frames (fuel : nat) : M unit :=
  modify (set_frames []) ;;
  g <- get ;;
  img <- attr_of (scaled_image g) AttributeError ;;
  wh <- attr_of (window_height g) TypeError ;;
  if height img <=? wh then
    frame <- _crop_safe 0 wh ;;
    pause_frames <- eval (pause_frame_count (config g)) ;;
    modify (set_frames (list_times frame (Z.max pause_frames 30)))
  else
    pause_frames <- eval (pause_frame_count (config g)) ;;
    top_frame <- _crop_safe 0 wh ;;
    frames_extend (list_times top_frame pause_frames) ;;
    let max_y := height img - wh in
    y_position <- scroll_down fuel max_y 0 ;;
    bottom_frame <- _crop_safe max_y wh ;;
    frames_extend (list_times bottom_frame pause_frames) ;;
    (if (scroll_mode (config g) =? "down-up")%string then
       _ <- scroll_up fuel y_position ;; ret tt
     else if (scroll_mode (config g) =? "down-once")%string then
       modify (fun g' => set_frames (slice_to (frames g') (- pause_frames)) g')
     else ret tt) ;;
    if add_watermark (config g) then _add_watermark_to_frames else ret tt.

(** [int(1000 / self.config.framerate)] *)
Definition frame_duration_ms (c : ScrollifyConfig) : outcome Z :=
  bindO (Py.int_truediv 1000 (framerate c)) Py.int_of_float.

(** [_save_as_gif] *)
Definition _save_as_gif (duration_ms : Z) : M unit :=
  g <- get ;;
  let loop_count :=
    if negb (scroll_mode (config g) =? "down-once")%string then 0 else 1 in
  match frames g with
  | [] => raise IndexError
  | first :: rest =>
      modify (add_written
                (WriteGif (output_path (config g)) first rest
                          duration_ms loop_count))
  end.

(** [_save_as_mp4]: the [try] body when moviepy imports, the
    [except ImportError] handler when it does not. *)
Definition _save_as_mp4 : M unit :=
  g <- get ;;
  if moviepy_available env then
    modify (add_written
              (WriteMp4 (output_path (config g)) (frames g)
                        (framerate (config g))
                        (negb (scroll_mode (config g) =? "down-once")%string)))
  else
    let base_name := fst (Str.splitext (output_path (config g))) in
    modify (fun g' =>
      set_config (set_output_path (base_name ++ ".gif")%string (config g')) g') ;;
    duration_ms <- eval (frame_duration_ms (config g)) ;;
    _save_as_gif duration_ms.

(** [save_output].  The size of the file just written is only read to be
    printed and is left out, as are all the [print] calls. *)
Definition save_output : M unit :=
  g <- get ;;
  match frames g with
  | [] => raise NoFrames
  | _ :: _ =>
      duration_ms <- eval (frame_duration_ms (config g)) ;;
      if (Str.upper (output_format (config g)) =? "GIF")%string then
        _save_as_gif duration_ms
      else if (Str.upper (output_format (config g)) =? "MP4")%string then
        _save_as_mp4
      else raise (UnsupportedFormat (output_format (config g)))
  end.

(** The five stages of [run], in order. *)
Definition pipeline (fuel : nat) : M unit :=
  load_image ;;
  calculate_dimensions ;;
  preprocess_image ;;
  generate_frames fuel ;;
  save_output.

(** [run]: [True] when the pipeline ends, [False] when it raises. *)
Definition run (fuel : nat) (g : Generator) : outcome bool * Generator :=
  match pipeline fuel g with
  | (Ret _, g') => (Ret true, g')
  | (Raise _, g') => (Ret false, g')
  | (OutOfFuel, g') => (OutOfFuel, g')
  end.

End Methods.

(** ** Definitions used by the statements *)

(** The last step of [binary_round_aux], on the result of its second
    shift. *)
Definition finish (sx : bool) (r : shr_record * Z) : spec_float :=
  let '(mrs, e) := r in
  match shr_m mrs with
  | Z0 => S754_zero sx
  | Zpos m =>
      if e <=? Py.emax - Py.prec then S754_finite sx m e else S754_infinity sx
  | Zneg _ => S754_nan
  end.

(** [n] is an integer nearest to [x]: what "round(x)" can mean, whatever
    the rule for ties. *)
Definition is_nearest_integer (x : Q) (n : Z) : Prop :=
  (x - (1 # 2) <= inject_Z n)%Q /\ (inject_Z n <= x + (1 # 2))%Q.

(** The number of steps of a scroll over [max_y] pixels at [speed] pixels a
    frame: the quotient rounded up. *)
Definition scroll_steps (speed max_y : Z) : nat :=
  Z.to_nat ((max_y + speed - 1) / speed).

(** The offsets of the way down, and of the way back up. *)
Definition descent_offsets (speed max_y : Z) : list Z :=
  map (fun i => Z.min (Z.of_nat i * speed) max_y)
      (seq 1 (scroll_steps speed max_y)).

Definition ascent_offsets (speed max_y : Z) : list Z :=
  map (fun i => Z.max (max_y - Z.of_nat i * speed) 0)
      (seq 1 (scroll_steps speed max_y)).

(** The window of the generator [g] at offset [y]. *)
Definition window_at (g : Generator) (img : Image) (wh y : Z) : Picture :=
  crop_window img (output_width (config g)) y wh.

(** The watermark pass of [generate_frames]. *)
Definition watermark_pass (c : ScrollifyConfig) (fs : list Picture)
  : list Picture :=
  if add_watermark c then map (Watermarked (watermark_text c)) fs else fs.

(** A configuration and surroundings for the worked examples: a source
    image of the given size at [in.png], 16:9 unless said otherwise. *)
Definition example_config (ratio mode : string) (W speed fps : Z)
    (pause quality : Py.float) (fmt path : string) : ScrollifyConfig :=
  {| source_image := "in.png"; aspect_ratio := ratio; output_width := W;
     output_height := None; scroll_speed := speed; framerate := fps;
     scroll_mode := mode; pause_duration := pause; output_format := fmt;
     output_path := path; quality_factor := quality; add_watermark := false;
     watermark_text := "Created with Scrollify" |}.

Definition example_env (w h : Z) (moviepy : bool) : Env :=
  {| path_exists := fun p => (p =? "in.png")%string;
     image_file := fun _ => Some {| width := w; height := h |};
     moviepy_available := moviepy |}.

(** A generator after [preprocess_image]: scaled image and window known. *)
Definition prepared (c : ScrollifyConfig) (scaled : Image) (wh : Z)
  : Generator :=
  {| config := c; self_source_image := Some scaled;
     scaled_image := Some scaled; window_height := Some wh;
     frames := []; written := [] |}.

(** What [generate_frames] leaves in [self.frames] on the scrolling path,
    given the pause frame count [pf]: top hold, descent, bottom hold, then
    what the scroll mode asks for, then the watermark pass. *)
Definition hold_descent_hold (g : Generator) (img : Image) (wh pf : Z)
  : list Picture :=
  let max_y := height img - wh in
  list_times (window_at g img wh 0) pf ++
  map (window_at g img wh) (descent_offsets (scroll_speed (config g)) max_y) ++
  list_times (window_at g img wh max_y) pf.

Definition scheduled_frames (g : Generator) (img : Image) (wh pf : Z)
  : list Picture :=
  let max_y := height img - wh in
  let base := hold_descent_hold g img wh pf in
  watermark_pass (config g)
    (if (scroll_mode (config g) =? "down-up")%string then
       base ++ map (window_at g img wh)
                   (ascent_offsets (scroll_speed (config g)) max_y)
     else if (scroll_mode (config g) =? "down-once")%string then
       slice_to base (- pf)
     else base).

(** The end-to-end example: an 800x3000 source, width 800, 16:9, quality
    1.0, 8 pixels a frame, 24 frames a second. *)
Definition tall_image : Image := {| width := 800; height := 3000 |}.

Definition tall_config (mode : string) (pause : Py.float) : ScrollifyConfig :=
  example_config "16:9" mode 800 8 24 pause (Py.lit 1) "GIF" "out.gif".

(** The state of that run when [generate_frames] starts. *)
Definition tall_prepared (mode : string) (pause : Py.float) : Generator :=
  prepared (tall_config mode pause) tall_image 450.

(** The whole run of the end-to-end example, two seconds of pause. *)
Definition tall_run (mode : string) : outcome bool * Generator :=
  run (example_env 800 3000 false) 319 (init (tall_config mode (Py.lit 2))).

(** Truncation of a rational toward zero. *)
Definition Qtruncate (q : Q) : Z :=
  if Qle_bool 0 q then Qfloor q else Qceiling q.

(** A source shorter than any window: 800x300 under a window of 450, with a
    pause of 127/64 = 1.984375 seconds at 16 frames a second, that is 31.75
    frames. *)
Definition short_image : Image := {| width := 800; height := 300 |}.

Definition short_prepared : Generator :=
  prepared (example_config "16:9" "down" 800 8 16 (Py.lit_ratio 127 64)
              (Py.lit 1) "GIF" "out.gif")
           short_image 450.

(** A token that does not hold two integer fields with a non-zero first
    one: the body of the [try] of [calculate_dimensions] raises on it. *)
Definition unusable_token (t : string) : Prop :=
  forall a b w h,
    Str.split ":" t = [a; b] -> Str.to_int a = Some w ->
    Str.to_int b = Some h -> w = 0.

(** A fresh generator whose source image is already loaded. *)
Definition loaded (c : ScrollifyConfig) (src : Image) : Generator :=
  set_source_image src (init c).

Definition plain_config (ratio : string) (W : Z) : ScrollifyConfig :=
  example_config ratio "down" W 8 24 (Py.lit 2) (Py.lit 1) "GIF" "out.gif".

(** The loop count [_save_as_gif] passes to Pillow. *)
Definition gif_loop_count (c : ScrollifyConfig) : Z :=
  if negb (scroll_mode c =? "down-once")%string then 0 else 1.

(** A generator holding one frame, ready for [save_output]. *)
Definition one_frame (c : ScrollifyConfig) : Generator :=
  set_frames [Crop 0 0 800 450] (prepared c tall_image 450).

(** [int(n * final_scale)] with [final_scale = scale_ratio * quality]. *)
Definition scaled_dimension (n : Z) (scale_ratio quality : Py.float)
  : outcome Z :=
  bindO (Py.int_mul_float n (Py.fmul scale_ratio quality)) Py.int_of_float.

(** [int(window_height * (new_width / output_width))] *)
Definition rescaled_window (wh new_width W : Z) : outcome Z :=
  bindO (Py.int_truediv new_width W)
        (fun scale_window =>
           bindO (Py.int_mul_float wh scale_window) Py.int_of_float).

(** An 801x3001 source asked for at width 801 and quality 0.75, window
    450: the scaled size would be 600.75 x 2250.75. *)
Definition wide_loaded : Generator :=
  set_window_height 450
    (loaded (example_config "16:9" "down" 801 8 24 (Py.lit 2)
               (Py.lit_ratio 3 4) "GIF" "out.gif")
            {| width := 801; height := 3001 |}).

(** ** The rest of the module: frames, events, helpers and front ends *)

(** The size of a frame as Pillow gives it: a crop has the size of its box,
    a new canvas the size it is created with, and compositing the watermark
    layer keeps the size of the frame. *)
Fixpoint picture_size (p : Picture) : Z * Z :=
  match p with
  | Crop l u r d => (r - l, d - u)
  | Padded w h _ => (w, h)
  | Watermarked _ q => picture_size q
  end.

(** The box cut out of the scaled image for a frame. *)
Fixpoint crop_box (p : Picture) : Z * Z * Z * Z :=
  match p with
  | Crop l u r d => (l, u, r, d)
  | Padded _ _ q => crop_box q
  | Watermarked _ q => crop_box q
  end.

Fixpoint is_padded (p : Picture) : bool :=
  match p with
  | Crop _ _ _ _ => false
  | Padded _ _ _ => true
  | Watermarked _ q => is_padded q
  end.

Definition is_watermarked (p : Picture) : bool :=
  match p with
  | Watermarked _ _ => true
  | _ => false
  end.

(** The placement arithmetic of [_add_watermark_to_frames] for one frame:
    [bbox] is what [draw.textbbox((0, 0), text, font)] returns. *)
Record WatermarkLayout : Type := {
  wm_font_size : Z;          (* max(12, output_width // 50), not used *)
  wm_text_at : Z * Z;        (* draw.text((x, y), ...) *)
  wm_box : Z * Z * Z * Z     (* draw.rectangle([...], fill=(0, 0, 0, 128)) *)
}.

Definition watermark_layout (W frame_width frame_height : Z)
    (bbox : Z * Z * Z * Z) : WatermarkLayout :=
  let '(b0, b1, b2, b3) := bbox in
  let font_size := Z.max 12 (W / 50) in
  let text_width := b2 - b0 in
  let text_height := b3 - b1 in
  let x := frame_width - text_width - 10 in
  let y := frame_height - text_height - 10 in
  let padding := 5 in
  {| wm_font_size := font_size;
     wm_text_at := (x, y);
     wm_box := (x - padding, y - padding,
                x + text_width + padding, y + text_height + padding) |}.

(** Where an encoder call writes, and what. *)
Definition event_path (ev : event) : string :=
  match ev with
  | WriteGif path _ _ _ _ => path
  | WriteMp4 path _ _ _ => path
  end.

Definition event_frames (ev : event) : list Picture :=
  match ev with
  | WriteGif _ first rest _ _ => first :: rest
  | WriteMp4 _ images _ _ => images
  end.

Definition event_is_gif (ev : event) : bool :=
  match ev with
  | WriteGif _ _ _ _ _ => true
  | WriteMp4 _ _ _ _ => false
  end.

(** Two states of the generator that differ at most in [self.frames]. *)
Definition only_frames_differ (g g' : Generator) : Prop :=
  config g' = config g /\
  self_source_image g' = self_source_image g /\
  scaled_image g' = scaled_image g /\
  window_height g' = window_height g /\
  written g' = written g.

(** Two configurations that differ at most in [output_width]. *)
Definition same_but_width (c c' : ScrollifyConfig) : Prop :=
  set_output_width (output_width c) c' = c.

(** [os.path.exists(p)] once the run has written its files. *)
Definition file_present (env : Env) (g : Generator) (p : string) : bool :=
  orb (path_exists env p)
      (existsb (fun ev => (event_path ev =? p)%string) (written g)).

(** [parse_aspect_ratio]: [None] stands for the pair [(None, None)]. *)
Definition parse_aspect_ratio (ratio_str : string) : option (Z * Z) :=
  if (ratio_str =? "source")%string then None
  else
    match Str.split ":" ratio_str with
    | [a; b] =>
        match Str.to_int a, Str.to_int b with
        | Some w, Some h => Some (w, h)
        | _, _ => Some (16, 9)
        end
    | _ => Some (16, 9)
    end.

(** The configuration [create_scrolling_gif] builds: the fields it does not
    pass keep the defaults of [ScrollifyConfig]. *)
Definition create_scrolling_gif_config (image_path : string)
    (output_path : option string) (aspect_ratio : string)
    (width scroll_speed framerate : Z) (scroll_mode : string)
    (pause_duration : Py.float) : ScrollifyConfig :=
  let output_path :=
    match output_path with
    | None => (fst (Str.splitext image_path) ++ "_scroll.gif")%string
    | Some p => p
    end in
  {| source_image := image_path; aspect_ratio := aspect_ratio;
     output_width := width; output_height := None;
     scroll_speed := scroll_speed; framerate := framerate;
     scroll_mode := scroll_mode; pause_duration := pause_duration;
     output_format := "GIF"; output_path := output_path;
     quality_factor := Py.lit_ratio 4 5; add_watermark := false;
     watermark_text := "Created with Scrollify" |}.

(** [create_scrolling_gif] *)
Definition create_scrolling_gif (env : Env) (fuel : nat) (image_path : string)
    (output_path : option string) (aspect_ratio : string)
    (width scroll_speed framerate : Z) (scroll_mode : string)
    (pause_duration : Py.float) : outcome bool * Generator :=
  run env fuel
    (init (create_scrolling_gif_config image_path output_path aspect_ratio
             width scroll_speed framerate scroll_mode pause_duration)).

(** What [quick_convert] of the command line prints. *)
Inductive quick_message : Type :=
| QuickUsage
| QuickMissing (image_path : string)
| QuickDone (output_path : string)
| QuickFailed
| QuickRunning.

(** [quick_convert] on [sys.argv], with the files it leaves written. *)
Definition quick_convert (env : Env) (fuel : nat) (argv : list string)
  : quick_message * list event :=
  match argv with
  | _ :: image_path :: _ =>
      if negb (path_exists env image_path) then (QuickMissing image_path, [])
      else
        match create_scrolling_gif env fuel image_path None "16:9" 800 8 24
                "down" (Py.lit 2) with
        | (Ret true, g) =>
            (QuickDone (fst (Str.splitext image_path) ++ "_scroll.gif")%string,
             written g)
        | (Ret false, g) => (QuickFailed, written g)
        | (_, g) => (QuickRunning, written g)
        end
  | _ => (QuickUsage, [])
  end.

(** The arguments of the command line after [parser.parse_args()]. *)
Record Args : Type := {
  arg_image : string;
  arg_output : option string;
  arg_format : string;
  arg_width : Z;
  arg_ratio : string;
  arg_height : option Z;
  arg_speed : Z;
  arg_fps : Z;
  arg_mode : string;
  arg_pause : Py.float;
  arg_quality : Py.float;
  arg_watermark : bool;
  arg_watermark_text : string;
  arg_preview : bool
}.

(** How [main] of the command line ends. *)
Inductive cli_outcome : Type :=
| SysExit (code : Z)
| Previewed (c : ScrollifyConfig)
| Finished
| Uncaught (e : exn)
| StillRunning.

Section CommandLine.

Variable env : Env.

(** [str(Path(image).parent / f"{Path(image).stem}_scroll.{format.lower()}")]
    as a function of the image path and the format: pathlib is not
    modelled. *)
Variable auto_output : string -> string -> string.

(** [args.output] after the default has been filled in: an empty string
    counts as missing. *)
Definition cli_output (a : Args) : string :=
  match arg_output a with
  | None => auto_output (arg_image a) (arg_format a)
  | Some p =>
      match p with
      | EmptyString => auto_output (arg_image a) (arg_format a)
      | _ => p
      end
  end.

(** The configuration [main] builds. *)
Definition cli_config (a : Args) : ScrollifyConfig :=
  {| source_image := arg_image a; aspect_ratio := arg_ratio a;
     output_width := arg_width a; output_height := arg_height a;
     scroll_speed := arg_speed a; framerate := arg_fps a;
     scroll_mode := arg_mode a; pause_duration := arg_pause a;
     output_format := arg_format a; output_path := cli_output a;
     quality_factor := arg_quality a; add_watermark := arg_watermark a;
     watermark_text := arg_watermark_text a |}.

(** [main] of [scrollify_cli.py], from the parsed arguments on; the state of
    the generator is returned when one was created. *)
Definition main (fuel : nat) (a : Args) : cli_outcome * option Generator :=
  if negb (path_exists env (arg_image a)) then (SysExit 1, None)
  else if andb (arg_ratio a =? "custom")%string (negb (truthy (arg_height a)))
  then (SysExit 1, None)
  else if arg_preview a then (Previewed (cli_config a), None)
  else
    match run env fuel (init (cli_config a)) with
    | (Ret true, g) =>
        (* os.path.getsize(args.output) *)
        if file_present env g (cli_output a) then (Finished, Some g)
        else (Uncaught FileNotFoundError, Some g)
    | (Ret false, g) => (SysExit 1, Some g)
    | (_, g) => (StillRunning, Some g)
    end.

End CommandLine.

(** The variables of the window of [scrollify_gui.py] that the
    configuration is built from. *)
Record GuiVars : Type := {
  var_input_file : string;
  var_output_file : string;
  var_aspect_ratio : string;
  var_output_width : Z;
  var_output_height : Z;
  var_scroll_speed : Z;
  var_framerate : Z;
  var_scroll_mode : string;
  var_pause_duration : Py.float;
  var_quality_factor : Py.float;
  var_output_format : string;
  var_add_watermark : bool;
  var_watermark_text : string
}.

Definition set_var_output_height (h : Z) (v : GuiVars) : GuiVars :=
  {| var_input_file := var_input_file v;
     var_output_file := var_output_file v;
     var_aspect_ratio := var_aspect_ratio v;
     var_output_width := var_output_width v;
     var_output_height := h;
     var_scroll_speed := var_scroll_speed v;
     var_framerate := var_framerate v;
     var_scroll_mode := var_scroll_mode v;
     var_pause_duration := var_pause_duration v;
     var_quality_factor := var_quality_factor v;
     var_output_format := var_output_format v;
     var_add_watermark := var_add_watermark v;
     var_watermark_text := var_watermark_text v |}.

(** [ScrollifyGUI.on_width_change]: the height shown beside the width. *)
Definition on_width_change (v : GuiVars) : outcome GuiVars :=
  let ratio := var_aspect_ratio v in
  if (ratio =? "custom")%string then Ret v
  else
    let width := var_output_width v in
    bindO
      (if (ratio =? "16:9")%string then
         bindO (Py.int_truediv (width * 9) 16) Py.int_of_float
       else if (ratio =? "4:3")%string then
         bindO (Py.int_truediv (width * 3) 4) Py.int_of_float
       else if (ratio =? "1:1")%string then Ret width
       else Ret width)
      (fun height => Ret (set_var_output_height height v)).

(** [ScrollifyGUI.create_config] *)
Definition create_config (v : GuiVars) : ScrollifyConfig :=
  {| source_image := var_input_file v;
     aspect_ratio := var_aspect_ratio v;
     output_width := var_output_width v;
     output_height :=
       if (var_aspect_ratio v =? "custom")%string
       then Some (var_output_height v) else None;
     scroll_speed := var_scroll_speed v;
     framerate := var_framerate v;
     scroll_mode := var_scroll_mode v;
     pause_duration := var_pause_duration v;
     output_format := var_output_format v;
     output_path :=
       match var_output_file v with
       | EmptyString => "output_scroll.gif"
       | p => p
       end;
     quality_factor := var_quality_factor v;
     add_watermark := var_add_watermark v;
     watermark_text := var_watermark_text v |}.

(** A configuration in the manner of the examples, with every field
    chosen. *)
Definition full_config (ratio mode fmt path : string) (W speed fps : Z)
    (height : option Z) (pause quality : Py.float) (watermark : bool)
  : ScrollifyConfig :=
  {| source_image := "in.png"; aspect_ratio := ratio; output_width := W;
     output_height := height; scroll_speed := speed; framerate := fps;
     scroll_mode := mode; pause_duration := pause; output_format := fmt;
     output_path := path; quality_factor := quality;
     add_watermark := watermark; watermark_text := "Created with Scrollify" |}.

(** The variables of the GUI as it starts, with a ratio chosen. *)
Definition gui_defaults (ratio : string) : GuiVars :=
  {| var_input_file := "in.png"; var_output_file := EmptyString;
     var_aspect_ratio := ratio; var_output_width := 800;
     var_output_height := 450; var_scroll_speed := 8; var_framerate := 24;
     var_scroll_mode := "down"; var_pause_duration := Py.lit 2;
     var_quality_factor := Py.lit_ratio 4 5; var_output_format := "GIF";
     var_add_watermark := false;
     var_watermark_text := "Created with Scrollify" |}.

(** The exceptions of the arithmetic of the module: a division by zero, a
    float out of range, a NaN turned into an int. *)
Definition arith_error (e : exn) : Prop :=
  e = ZeroDivisionError \/ e = OverflowError \/ e = ValueError.

(** An expression that returns or raises one of them. *)
Definition arith_outcome {A : Type} (x : outcome A) : Prop :=
  match x with
  | Ret _ => True
  | Raise e => arith_error e
  | OutOfFuel => False
  end.

(** What [run] may catch: the failures the five stages can raise. *)
Definition run_failure (c : ScrollifyConfig) (e : exn) : Prop :=
  e = FileNotFoundError \/ e = CannotOpenImage \/ arith_error e \/
  e = NoFrames \/ e = UnsupportedFormat (output_format c).

(** The configuration [c'] is [c] but for [output_width] and, after the MP4
    fallback only, [output_path]. *)
Definition settings_kept (env : Env) (c c' : ScrollifyConfig) : Prop :=
  c' = set_output_width (output_width c') c \/
  (Str.upper (output_format c) = "MP4"%string /\
   moviepy_available env = false /\
   c' = set_output_path (fst (Str.splitext (output_path c)) ++ ".gif")%string
          (set_output_width (output_width c') c)).

(** Arguments of the command line with the defaults of the parser for all
    but the output path, the format, the ratio and the height. *)
Definition cli_args (output : option string) (fmt ratio : string)
    (height : option Z) : Args :=
  {| arg_image := "in.png"; arg_output := output; arg_format := fmt;
     arg_width := 800; arg_ratio := ratio; arg_height := height;
     arg_speed := 8; arg_fps := 24; arg_mode := "down";
     arg_pause := Py.lit 2; arg_quality := Py.lit_ratio 4 5;
     arg_watermark := false; arg_watermark_text := "Created with Scrollify";
     arg_preview := false |}.

(** A stand-in for the default output path of the command line. *)
Definition beside_image (image fmt : string) : string :=
  (fst (Str.splitext image) ++ "_scroll." ++ fmt)%string.

(** * Properties *)

(** ** Sanity checks of the embedding on concrete values *)

Example int_truediv_1_3 :
  Py.int_truediv 1 3 = Ret (SFdiv Py.prec Py.emax (Py.lit 1) (Py.lit 3)).
Proof. vm_compute. reflexivity. Qed.

Example int_truediv_800_9_16 :
  bindO (Py.int_truediv (800 * 9) 16) Py.int_of_float = Ret 450.
Proof. vm_compute. reflexivity. Qed.

Example int_2_0_times_24 :
  bindO (Py.float_mul_int (Py.lit 2) 24) Py.int_of_float = Ret 48.
Proof. vm_compute. reflexivity. Qed.

Example split_16_9 : Str.split ":" "16:9" = ["16"; "9"]%string.
Proof. reflexivity. Qed.

Example split_custom : Str.split ":" "custom" = ["custom"]%string.
Proof. reflexivity. Qed.

Example split_three : Str.split ":" "1:2:" = ["1"; "2"; ""]%string.
Proof. reflexivity. Qed.

Example to_int_examples :
  Str.to_int "16" = Some 16 /\ Str.to_int " -4_0 " = Some (-40) /\
  Str.to_int "custom" = None /\ Str.to_int "" = None /\
  Str.to_int "1__0" = None /\ Str.to_int "_1" = None /\
  Str.to_int "1_" = None /\ Str.to_int "+007" = Some 7 /\
  Str.to_int "1 6" = None.
Proof. repeat split; reflexivity. Qed.

Example splitext_examples :
  Str.splitext "out/video.mp4" = ("out/video", ".mp4")%string /\
  Str.splitext "a.b/movie" = ("a.b/movie", "")%string /\
  Str.splitext ".hidden" = (".hidden", "")%string /\
  Str.splitext "dir/..x.tar.mp4" = ("dir/..x.tar", ".mp4")%string /\
  Str.splitext "clip." = ("clip", ".")%string.
Proof. repeat split; reflexivity. Qed.

Example upper_example : Str.upper "Mp4" = "MP4"%string.
Proof. reflexivity. Qed.

Example slice_to_examples :
  slice_to [1; 2; 3; 4] (-1) = [1; 2; 3] /\
  slice_to [1; 2; 3; 4] (-0) = [] /\
  slice_to [1; 2; 3; 4] (-9) = [] /\
  slice_to [1; 2; 3; 4] 3 = [1; 2; 3].
Proof. repeat split; reflexivity. Qed.

(** ** Division of ints and truncation

    [int(a / b)] is the integer quotient as long as both ints are exactly
    representable: the correctly rounded quotient never reaches the next
    integer. *)

Lemma digits2_pos_bounds (p : positive) :
  2 ^ (Zpos (digits2_pos p) - 1) <= Zpos p < 2 ^ Zpos (digits2_pos p).
Proof.
  induction p as [p IH | p IH | ]; cbn [digits2_pos].
  - rewrite Pos2Z.inj_succ, Z.pow_succ_r by lia.
    replace (Z.succ (Zpos (digits2_pos p)) - 1) with (Z.succ (Zpos (digits2_pos p) - 1)) by lia.
    rewrite Z.pow_succ_r by lia. rewrite (Pos2Z.inj_xI p). lia.
  - rewrite Pos2Z.inj_succ, Z.pow_succ_r by lia.
    replace (Z.succ (Zpos (digits2_pos p)) - 1) with (Z.succ (Zpos (digits2_pos p) - 1)) by lia.
    rewrite Z.pow_succ_r by lia. rewrite (Pos2Z.inj_xO p). lia.
  - cbn. lia.
Qed.

Lemma Zdigits2_bounds (n : Z) :
  0 < n -> 0 < Zdigits2 n /\ 2 ^ (Zdigits2 n - 1) <= n < 2 ^ Zdigits2 n.
Proof.
  destruct n as [| p | p]; try lia. intros _. cbn [Zdigits2].
  split; [lia | apply digits2_pos_bounds].
Qed.

Lemma Zdigits2_between (n lo hi : Z) :
  0 <= lo -> 2 ^ lo <= n < 2 ^ hi -> lo < Zdigits2 n <= hi.
Proof.
  intros Hlo [H1 H2].
  assert (0 < n) by (pose proof (Z.pow_pos_nonneg 2 lo); lia).
  destruct (Zdigits2_bounds n H) as [Hd [B1 B2]].
  split.
  - destruct (Z_lt_le_dec lo (Zdigits2 n)) as [|Hc]; [assumption|].
    pose proof (Z.pow_le_mono_r 2 _ _ ltac:(lia) Hc). lia.
  - destruct (Z_le_gt_dec (Zdigits2 n) hi) as [|Hc]; [assumption|].
    assert (0 <= hi).
    { destruct (Z_le_gt_dec 0 hi); [assumption|]. rewrite Z.pow_neg_r in H2; lia. }
    pose proof (Z.pow_le_mono_r 2 hi (Zdigits2 n - 1) ltac:(lia) ltac:(lia)). lia.
Qed.

Lemma binary_round_aux_unfold sx mx ex lx :
  binary_round_aux Py.prec Py.emax sx mx ex lx =
  finish sx
    (shr_fexp Py.prec Py.emax
       (round_nearest_even
          (shr_m (fst (shr_fexp Py.prec Py.emax mx ex lx)))
          (loc_of_shr_record (fst (shr_fexp Py.prec Py.emax mx ex lx))))
       (snd (shr_fexp Py.prec Py.emax mx ex lx)) loc_Exact).
Proof.
  unfold binary_round_aux, finish.
  destruct (shr_fexp Py.prec Py.emax mx ex lx) as [mrs' e']. cbn [fst snd].
  destruct (shr_fexp _ _ _ e' loc_Exact) as [mrs'' e'']. reflexivity.
Qed.

Lemma fexp_normal (d e : Z) :
  -1021 <= d + e -> fexp Py.prec Py.emax (d + e) - e = d - 53.
Proof. unfold fexp, emin, Py.prec, Py.emax. lia. Qed.

(** Second stage: a mantissa of 53 bits, or 2^53 after a carry. *)
Lemma renormalize (sx : bool) (m1 e : Z) :
  2 ^ 52 <= m1 <= 2 ^ 53 -> -1074 <= e <= 970 ->
  exists m e2,
    finish sx (shr_fexp Py.prec Py.emax m1 e loc_Exact) = S754_finite sx m e2 /\
    e <= e2 <= e + 1 /\ Zpos m * 2 ^ (e2 - e) = m1.
Proof.
  intros Hm He.
  destruct (Z.eq_dec m1 (2 ^ 53)) as [-> | Hne].
  - exists (Z.to_pos (2 ^ 52)), (e + 1).
    unfold shr_fexp. change (Zdigits2 (2 ^ 53)) with 54.
    rewrite fexp_normal by lia. change (54 - 53) with 1.
    change (2 ^ 53) with 9007199254740992.
    cbn [shr iter_pos shr_1 shr_record_of_loc orb finish shr_m].
    unfold Py.emax, Py.prec.
    replace (e + 1 <=? 1024 - 53) with true by (symmetry; apply Z.leb_le; lia).
    split; [reflexivity|]. split; [lia|].
    replace (e + 1 - e) with 1 by lia. reflexivity.
  - assert (D : 52 < Zdigits2 m1 <= 53).
    { apply Zdigits2_between; lia. }
    assert (Zdigits2 m1 = 53) as E by lia.
    unfold shr_fexp. rewrite E, fexp_normal by lia. change (53 - 53) with 0.
    cbn [shr shr_record_of_loc finish shr_m].
    destruct m1 as [| p | p]; try (cbn in Hm; lia).
    exists p, e. unfold Py.emax, Py.prec.
    replace (e <=? 1024 - 53) with true by (symmetry; apply Z.leb_le; lia).
    split; [reflexivity|]. split; [lia|]. rewrite Z.sub_diag. cbn. lia.
Qed.

(** First stage: at most one bit is shifted out, then the mantissa is
    rounded to nearest, ties to even. *)
Lemma round_first_stage (q e : Z) (l : location) :
  2 ^ 52 <= q < 2 ^ 54 -> -1074 <= e ->
  let r := shr_fexp Py.prec Py.emax q e l in
  let m1 := round_nearest_even (shr_m (fst r)) (loc_of_shr_record (fst r)) in
  let e1 := snd r in
  2 ^ 52 <= m1 <= 2 ^ 53 /\ e <= e1 <= e + 1 /\
  (m1 * 2 ^ (e1 - e) = q \/ m1 * 2 ^ (e1 - e) = q + 1 \/
   (m1 * 2 ^ (e1 - e) = q - 1 /\ Z.odd q = true)).
Proof.
  intros Hq He.
  assert (D : 52 < Zdigits2 q <= 54) by (apply Zdigits2_between; lia).
  assert (P52 : 2 ^ 52 = 4503599627370496) by reflexivity.
  assert (P53 : 2 ^ 53 = 9007199254740992) by reflexivity.
  assert (P54 : 2 ^ 54 = 18014398509481984) by reflexivity.
  rewrite P52, P53, P54 in *.
  assert (Zdigits2 q = 53 \/ Zdigits2 q = 54) as [E | E] by lia.
  - assert (q < 9007199254740992).
    { destruct (Zdigits2_bounds q ltac:(lia)) as [_ [_ B]]. rewrite E, P53 in B. exact B. }
    unfold shr_fexp. rewrite E, fexp_normal by lia. change (53 - 53) with 0.
    cbn [shr fst snd]. rewrite Z.sub_diag, Z.pow_0_r.
    destruct l as [| [ | | ]]; cbn [shr_record_of_loc shr_m loc_of_shr_record round_nearest_even];
      try destruct (Z.even q); lia.
  - assert (9007199254740992 <= q).
    { destruct (Zdigits2_bounds q ltac:(lia)) as [_ [B _]]. rewrite E in B.
      change (2 ^ (54 - 1)) with 9007199254740992 in B. exact B. }
    unfold shr_fexp. rewrite E, fexp_normal by lia. change (54 - 53) with 1.
    cbn [shr fst snd iter_pos].
    replace (e + 1 - e) with 1 by lia. rewrite Z.pow_1_r.
    destruct q as [| p | p]; try lia.
    destruct p as [p | p | ].
    + assert (Hodd : Z.odd (Zpos p~1) = true) by reflexivity.
      pose proof (Pos2Z.inj_xI p) as X.
      destruct l as [| [ | | ]];
        cbn [shr_record_of_loc shr_1 orb shr_m loc_of_shr_record round_nearest_even];
        try destruct (Z.even (Zpos p));
        (split; [lia | split; [lia |]]);
        first [ left; lia | right; left; lia
              | right; right; split; [lia | exact Hodd] ].
    + pose proof (Pos2Z.inj_xO p) as X.
      destruct l as [| [ | | ]];
        cbn [shr_record_of_loc shr_1 orb shr_m loc_of_shr_record round_nearest_even];
        (split; [lia | split; [lia |]]); left; lia.
    + lia.
Qed.

Lemma binary_round_aux_near (sx : bool) (q e : Z) (l : location) :
  2 ^ 52 <= q < 2 ^ 54 -> -1074 <= e <= 969 ->
  exists m e2,
    binary_round_aux Py.prec Py.emax sx q e l = S754_finite sx m e2 /\
    e <= e2 <= e + 2 /\
    (Zpos m * 2 ^ (e2 - e) = q \/ Zpos m * 2 ^ (e2 - e) = q + 1 \/
     (Zpos m * 2 ^ (e2 - e) = q - 1 /\ Z.odd q = true)).
Proof.
  intros Hq He. rewrite binary_round_aux_unfold.
  destruct (round_first_stage q e l Hq ltac:(lia)) as (Hm1 & He1 & HF).
  set (r := shr_fexp Py.prec Py.emax q e l) in *.
  set (m1 := round_nearest_even (shr_m (fst r)) (loc_of_shr_record (fst r))) in *.
  set (e1 := snd r) in *.
  destruct (renormalize sx m1 e1 Hm1 ltac:(lia)) as (m & e2 & Hfin & He2 & Hval).
  exists m, e2. split; [exact Hfin|]. split; [lia|].
  replace (e2 - e) with ((e2 - e1) + (e1 - e)) by lia.
  rewrite Z.pow_add_r, Z.mul_assoc, Hval by lia. exact HF.
Qed.

Lemma div_eucl_div_mod (x y : Z) : Z.div_eucl x y = (x / y, x mod y).
Proof. unfold Z.div, Z.modulo. destruct (Z.div_eucl x y). reflexivity. Qed.

Lemma div_core (a b : Z) :
  0 < a < 2 ^ 53 -> 0 < b < 2 ^ 53 ->
  let k := 53 + Zdigits2 b - Zdigits2 a in
  SFdiv_core_binary Py.prec Py.emax a 0 b 0 =
    ((a * 2 ^ k) / b, - k, new_location b ((a * 2 ^ k) mod b)) /\
  1 <= k <= 105 /\ b < 2 ^ k /\ 2 ^ 52 <= (a * 2 ^ k) / b < 2 ^ 54.
Proof.
  intros Ha Hb k.
  destruct (Zdigits2_bounds a ltac:(lia)) as (Da & A1 & A2).
  destruct (Zdigits2_bounds b ltac:(lia)) as (Db & B1 & B2).
  assert (Zdigits2 a <= 53).
  { destruct (Z_le_gt_dec (Zdigits2 a) 53); [assumption|].
    pose proof (Z.pow_le_mono_r 2 53 (Zdigits2 a - 1) ltac:(lia) ltac:(lia)). lia. }
  assert (Zdigits2 b <= 53).
  { destruct (Z_le_gt_dec (Zdigits2 b) 53); [assumption|].
    pose proof (Z.pow_le_mono_r 2 53 (Zdigits2 b - 1) ltac:(lia) ltac:(lia)). lia. }
  assert (Hk : 1 <= k <= 105) by (unfold k; lia).
  assert (Hbk : b < 2 ^ k).
  { pose proof (Z.pow_le_mono_r 2 (Zdigits2 b) k ltac:(lia) ltac:(unfold k; lia)). lia. }
  assert (Hpow : 2 ^ (Zdigits2 a - 1) * 2 ^ k = 2 ^ 53 * 2 ^ (Zdigits2 b - 1)).
  { rewrite <- !Z.pow_add_r by lia. f_equal. unfold k. lia. }
  pose proof (Z.pow_pos_nonneg 2 k ltac:(lia) ltac:(lia)) as Pk.
  pose proof (Z.pow_pos_nonneg 2 (Zdigits2 a - 1) ltac:(lia) ltac:(lia)) as Pa.
  pose proof (Z.pow_pos_nonneg 2 (Zdigits2 b - 1) ltac:(lia) ltac:(lia)) as Pb.
  assert (Ea : 2 ^ Zdigits2 a = 2 * 2 ^ (Zdigits2 a - 1)).
  { rewrite <- Z.pow_succ_r by lia. f_equal. lia. }
  assert (Eb : 2 ^ Zdigits2 b = 2 * 2 ^ (Zdigits2 b - 1)).
  { rewrite <- Z.pow_succ_r by lia. f_equal. lia. }
  split; [| split; [exact Hk | split; [exact Hbk |]]].
  - unfold SFdiv_core_binary.
    replace (Z.min (fexp Py.prec Py.emax (Zdigits2 a + 0 - (Zdigits2 b + 0))) (0 - 0))
      with (- k) by (unfold fexp, emin, Py.prec, Py.emax, k; lia).
    replace (0 - 0 - - k) with k by lia.
    rewrite div_eucl_div_mod.
    destruct k as [| pk | pk] eqn:Ek; try lia.
    rewrite Z.shiftl_mul_pow2 by lia. reflexivity.
  - pose proof (Z_div_mod_eq_full (a * 2 ^ k) b) as Hdm.
    pose proof (Z.mod_pos_bound (a * 2 ^ k) b ltac:(lia)) as Hr.
    set (q := a * 2 ^ k / b) in *. set (r := (a * 2 ^ k) mod b) in *.
    change (2 ^ 52) with 4503599627370496 in *.
    change (2 ^ 53) with 9007199254740992 in *.
    change (2 ^ 54) with 18014398509481984 in *.
    split; nia.
Qed.

Lemma truediv_core_value (sx : bool) (a b : Z) :
  0 < a < 2 ^ 53 -> 0 < b < 2 ^ 53 ->
  exists m e,
    (let '(q, e', l) := SFdiv_core_binary Py.prec Py.emax a 0 b 0 in
     binary_round_aux Py.prec Py.emax sx q e' l) = S754_finite sx m e /\
    (if 0 <=? e then Zpos m * 2 ^ e else Zpos m / 2 ^ (- e)) = a / b.
Proof.
  intros Ha Hb.
  destruct (div_core a b Ha Hb) as (Hcore & Hk & Hbk & Hq).
  set (k := 53 + Zdigits2 b - Zdigits2 a) in *.
  rewrite Hcore.
  destruct (binary_round_aux_near sx (a * 2 ^ k / b) (- k)
              (new_location b ((a * 2 ^ k) mod b)) Hq ltac:(lia))
    as (m & e2 & Hround & He2 & HF).
  exists m, e2. split; [exact Hround|].
  set (q := a * 2 ^ k / b) in *.
  set (n := a / b).
  pose proof (Z.pow_pos_nonneg 2 k ltac:(lia) ltac:(lia)) as Pk.
  assert (Hn : n * b <= a < (n + 1) * b).
  { pose proof (Z_div_mod_eq_full a b). pose proof (Z.mod_pos_bound a b ltac:(lia)).
    unfold n. nia. }
  assert (Hqb : q * b <= a * 2 ^ k < (q + 1) * b).
  { pose proof (Z_div_mod_eq_full (a * 2 ^ k) b).
    pose proof (Z.mod_pos_bound (a * 2 ^ k) b ltac:(lia)). unfold q. nia. }
  assert (Hlo : n * 2 ^ k <= q) by nia.
  assert (Hhi : q + 1 < (n + 1) * 2 ^ k) by nia.
  assert (Heven : 2 ^ k = 2 * 2 ^ (k - 1)).
  { rewrite <- Z.pow_succ_r by lia. f_equal. lia. }
  assert (HFb : n * 2 ^ k <= Zpos m * 2 ^ (e2 - - k) < (n + 1) * 2 ^ k).
  { destruct HF as [-> | [-> | [-> Hodd]]]; try lia.
    apply Z.odd_spec in Hodd. destruct Hodd as [q' Hq'].
    assert (q <> n * 2 ^ k) by lia. lia. }
  destruct (Z.leb_spec 0 e2) as [Hpos | Hneg].
  - replace (e2 - - k) with (e2 + k) in HFb by lia.
    rewrite Z.pow_add_r in HFb by lia.
    pose proof (Z.pow_pos_nonneg 2 e2 ltac:(lia) ltac:(lia)). nia.
  - assert (E : 2 ^ k = 2 ^ (e2 - - k) * 2 ^ (- e2)).
    { rewrite <- Z.pow_add_r by lia. f_equal. lia. }
    pose proof (Z.pow_pos_nonneg 2 (e2 - - k) ltac:(lia) ltac:(lia)).
    pose proof (Z.pow_pos_nonneg 2 (- e2) ltac:(lia) ltac:(lia)).
    symmetry. apply Z.div_unique with (r := Zpos m - n * 2 ^ (- e2)); [| lia].
    left. nia.
Qed.

(** [int(a / b)] truncates the quotient toward zero. *)
Lemma int_truediv_quot (a b : Z) :
  Z.abs a < 2 ^ 53 -> 0 < Z.abs b < 2 ^ 53 ->
  bindO (Py.int_truediv a b) Py.int_of_float = Ret (a ÷ b).
Proof.
  intros Ha Hb. unfold Py.int_truediv.
  replace (b =? 0) with false by (symmetry; apply Z.eqb_neq; lia).
  destruct (Z.eqb_spec a 0) as [-> | Hne].
  { rewrite Z.quot_0_l by lia. reflexivity. }
  destruct (truediv_core_value (xorb (a <? 0) (b <? 0)) (Z.abs a) (Z.abs b)
              ltac:(lia) Hb) as (m & e & Hround & Hval).
  destruct (SFdiv_core_binary Py.prec Py.emax (Z.abs a) 0 (Z.abs b) 0)
    as [[q e'] l].
  rewrite Hround. cbn [Py.is_infinite bindO Py.int_of_float]. f_equal.
  rewrite Hval, (Z.quot_div a b) by lia.
  destruct (Z.ltb_spec a 0), (Z.ltb_spec b 0); cbn [xorb]; nia.
Qed.

Lemma int_truediv_floor (a b : Z) :
  0 <= a < 2 ^ 53 -> 0 < b < 2 ^ 53 ->
  bindO (Py.int_truediv a b) Py.int_of_float = Ret (a / b).
Proof.
  intros Ha Hb. rewrite int_truediv_quot by lia.
  rewrite Z.quot_div_nonneg by lia. reflexivity.
Qed.

(** ** The frame scheduler *)

Ltac method_unfold :=
  unfold frames_extend; unfold bind, get, modify, eval, attr_of, ret, raise.

Ltac method_simpl H1 H2 :=
  repeat (unfold set_frames;
          cbn beta iota zeta delta
            [scaled_image window_height config frames written
             self_source_image fst snd app];
          rewrite ?H1, ?H2).

Lemma set_frames_same (g : Generator) : set_frames (frames g) g = g.
Proof. destruct g; reflexivity. Qed.

Lemma crop_safe_run (g : Generator) (img : Image) (y h : Z) :
  scaled_image g = Some img ->
  _crop_safe y h g = (Ret (window_at g img h y), g).
Proof.
  intros H. unfold _crop_safe. method_unfold. rewrite H. reflexivity.
Qed.

Lemma frame_offset_crop_window (img : Image) (W y h : Z) :
  frame_offset (crop_window img W y h) = y.
Proof. unfold crop_window. destruct (_ <? _); reflexivity. Qed.

Lemma frame_offsets_windows (g : Generator) (img : Image) (wh : Z) (ys : list Z) :
  map frame_offset (map (window_at g img wh) ys) = ys.
Proof.
  rewrite map_map. rewrite <- (map_id ys) at 2. apply map_ext.
  intros y. apply frame_offset_crop_window.
Qed.

Lemma scroll_steps_spec (s M : Z) :
  0 < s -> 0 < M ->
  1 <= Z.of_nat (scroll_steps s M) /\
  (Z.of_nat (scroll_steps s M) - 1) * s < M <= Z.of_nat (scroll_steps s M) * s.
Proof.
  intros Hs HM. unfold scroll_steps.
  assert (0 <= (M + s - 1) / s) by (apply Z.div_pos; lia).
  rewrite Z2Nat.id by assumption.
  pose proof (Z_div_mod_eq_full (M + s - 1) s).
  pose proof (Z.mod_pos_bound (M + s - 1) s Hs).
  nia.
Qed.

(** The way down: from the [j]-th offset, with [r] steps left. *)
Lemma scroll_down_run (img : Image) (wh M : Z) :
  forall (r j fuel : nat) (g : Generator),
    scaled_image g = Some img -> window_height g = Some wh ->
    0 < scroll_speed (config g) -> 0 < M ->
    (j + r = scroll_steps (scroll_speed (config g)) M)%nat ->
    (r <= fuel)%nat ->
    scroll_down fuel M (Z.min (Z.of_nat j * scroll_speed (config g)) M) g =
    (Ret M,
     set_frames
       (frames g ++
        map (window_at g img wh)
          (map (fun i => Z.min (Z.of_nat i * scroll_speed (config g)) M)
               (seq (S j) r))) g).
Proof.
  induction r as [| r IH]; intros j fuel g Himg Hwh Hs HM Hj Hfuel.
  - destruct (scroll_steps_spec _ _ Hs HM) as (_ & _ & Hc).
    rewrite <- Hj, Nat.add_0_r in Hc.
    rewrite Z.min_r by lia. cbn [seq map]. rewrite app_nil_r, set_frames_same.
    destruct fuel; cbn [scroll_down]; rewrite Z.ltb_irrefl; reflexivity.
  - destruct fuel as [| fuel]; [lia |].
    destruct (scroll_steps_spec _ _ Hs HM) as (_ & Hc & _).
    assert (Hlt : Z.of_nat j * scroll_speed (config g) < M) by nia.
    rewrite Z.min_l by lia. cbn [scroll_down].
    replace (_ <? M) with true by (symmetry; apply Z.ltb_lt; exact Hlt).
    method_unfold. rewrite Hwh, (crop_safe_run g img _ _ Himg).
    replace (Z.of_nat j * scroll_speed (config g) + scroll_speed (config g))
      with (Z.of_nat (S j) * scroll_speed (config g)) by lia.
    set (g' := set_frames (frames g ++ [window_at g img wh (Z.min (Z.of_nat (S j) * scroll_speed (config g)) M)]) g).
    pose proof (IH (S j) fuel g' Himg Hwh Hs HM ltac:(cbn; lia) ltac:(lia)) as E.
    change (config g') with (config g) in E.
    change (window_at g') with (window_at g) in E.
    rewrite E. unfold g'. cbn [seq map frames set_frames].
    rewrite <- app_assoc. reflexivity.
Qed.

(** The way back up, symmetrically. *)
Lemma scroll_up_run (img : Image) (wh M : Z) :
  forall (r j fuel : nat) (g : Generator),
    scaled_image g = Some img -> window_height g = Some wh ->
    0 < scroll_speed (config g) -> 0 < M ->
    (j + r = scroll_steps (scroll_speed (config g)) M)%nat ->
    (r <= fuel)%nat ->
    scroll_up fuel (Z.max (M - Z.of_nat j * scroll_speed (config g)) 0) g =
    (Ret 0,
     set_frames
       (frames g ++
        map (window_at g img wh)
          (map (fun i => Z.max (M - Z.of_nat i * scroll_speed (config g)) 0)
               (seq (S j) r))) g).
Proof.
  induction r as [| r IH]; intros j fuel g Himg Hwh Hs HM Hj Hfuel.
  - destruct (scroll_steps_spec _ _ Hs HM) as (_ & _ & Hc).
    rewrite <- Hj, Nat.add_0_r in Hc.
    rewrite Z.max_r by lia. cbn [seq map]. rewrite app_nil_r, set_frames_same.
    destruct fuel; cbn [scroll_up]; rewrite Z.ltb_irrefl; reflexivity.
  - destruct fuel as [| fuel]; [lia |].
    destruct (scroll_steps_spec _ _ Hs HM) as (_ & Hc & _).
    assert (Hlt : Z.of_nat j * scroll_speed (config g) < M) by nia.
    rewrite Z.max_l by lia. cbn [scroll_up].
    replace (0 <? _) with true by (symmetry; apply Z.ltb_lt; lia).
    method_unfold. rewrite Hwh, (crop_safe_run g img _ _ Himg).
    replace (M - Z.of_nat j * scroll_speed (config g) - scroll_speed (config g))
      with (M - Z.of_nat (S j) * scroll_speed (config g)) by lia.
    set (g' := set_frames (frames g ++ [window_at g img wh (Z.max (M - Z.of_nat (S j) * scroll_speed (config g)) 0)]) g).
    pose proof (IH (S j) fuel g' Himg Hwh Hs HM ltac:(cbn; lia) ltac:(lia)) as E.
    change (config g') with (config g) in E.
    change (window_at g') with (window_at g) in E.
    rewrite E. unfold g'. cbn [seq map frames set_frames].
    rewrite <- app_assoc. reflexivity.
Qed.

Lemma scroll_down_from_top (g : Generator) (img : Image) (wh M : Z) (fuel : nat) :
  scaled_image g = Some img -> window_height g = Some wh ->
  0 < scroll_speed (config g) -> 0 < M ->
  (scroll_steps (scroll_speed (config g)) M <= fuel)%nat ->
  scroll_down fuel M 0 g =
  (Ret M,
   set_frames
     (frames g ++
      map (window_at g img wh) (descent_offsets (scroll_speed (config g)) M))
     g).
Proof.
  intros Himg Hwh Hs HM Hfuel.
  pose proof (scroll_down_run img wh M _ 0%nat fuel g Himg Hwh Hs HM
                eq_refl Hfuel) as E.
  cbn [Z.of_nat Z.mul] in E. rewrite Z.min_l in E by lia. exact E.
Qed.

Lemma scroll_up_from_bottom (g : Generator) (img : Image) (wh M : Z) (fuel : nat) :
  scaled_image g = Some img -> window_height g = Some wh ->
  0 < scroll_speed (config g) -> 0 < M ->
  (scroll_steps (scroll_speed (config g)) M <= fuel)%nat ->
  scroll_up fuel M g =
  (Ret 0,
   set_frames
     (frames g ++
      map (window_at g img wh) (ascent_offsets (scroll_speed (config g)) M))
     g).
Proof.
  intros Himg Hwh Hs HM Hfuel.
  pose proof (scroll_up_run img wh M _ 0%nat fuel g Himg Hwh Hs HM
                eq_refl Hfuel) as E.
  cbn [Z.of_nat Z.mul] in E. rewrite Z.sub_0_r, Z.max_l in E by lia. exact E.
Qed.

(** [generate_frames] when there is no room to scroll. *)
Lemma generate_frames_static (g : Generator) (img : Image) (wh pf : Z)
    (fuel : nat) :
  scaled_image g = Some img -> window_height g = Some wh ->
  height img <= wh ->
  pause_frame_count (config g) = Ret pf ->
  generate_frames fuel g =
  (Ret tt, set_frames (list_times (window_at g img wh 0) (Z.max pf 30)) g).
Proof.
  intros Himg Hwh Hle Hpf. unfold generate_frames, _crop_safe. method_unfold.
  cbn [set_frames scaled_image window_height config frames].
  rewrite Himg, Hwh.
  replace (height img <=? wh) with true by (symmetry; apply Z.leb_le; exact Hle).
  rewrite Hpf. cbn [set_frames scaled_image window_height config frames].
  rewrite Himg. reflexivity.
Qed.

(** [generate_frames] when there is room to scroll. *)
Lemma generate_frames_scrolling (g : Generator) (img : Image) (wh pf : Z)
    (fuel : nat) :
  scaled_image g = Some img -> window_height g = Some wh ->
  wh < height img -> 0 < scroll_speed (config g) ->
  pause_frame_count (config g) = Ret pf ->
  (scroll_steps (scroll_speed (config g)) (height img - wh) <= fuel)%nat ->
  generate_frames fuel g =
  (Ret tt, set_frames (scheduled_frames g img wh pf) g).
Proof.
  intros Himg Hwh Hlt Hs Hpf Hfuel.
  unfold generate_frames, _crop_safe, _add_watermark_to_frames. method_unfold.
  method_simpl Himg Hwh.
  replace (height img <=? wh) with false by (symmetry; apply Z.leb_gt; exact Hlt).
  rewrite Hpf. method_simpl Himg Hwh.
  match goal with |- context [scroll_down _ _ _ ?st] => set (g1 := st) end.
  rewrite (scroll_down_from_top g1 img wh (height img - wh) fuel eq_refl
             eq_refl Hs ltac:(lia) Hfuel).
  unfold g1. method_simpl Himg Hwh.
  unfold scheduled_frames, hold_descent_hold, watermark_pass, window_at.
  destruct (scroll_mode (config g) =? "down-up")%string.
  - match goal with |- context [scroll_up _ _ ?st] => set (g2 := st) end.
    rewrite (scroll_up_from_bottom g2 img wh (height img - wh) fuel eq_refl
               eq_refl Hs ltac:(lia) Hfuel).
    unfold g2, window_at. method_simpl Himg Hwh.
    rewrite <- !app_assoc.
    destruct (add_watermark (config g)); reflexivity.
  - destruct (scroll_mode (config g) =? "down-once")%string;
      method_simpl Himg Hwh; rewrite <- ?app_assoc;
      destruct (add_watermark (config g)); reflexivity.
Qed.

(** ** The offsets of a scroll *)

Lemma descent_offsets_length (s M : Z) :
  List.length (descent_offsets s M) = scroll_steps s M.
Proof. unfold descent_offsets. rewrite length_map, length_seq. reflexivity. Qed.

Lemma ascent_offsets_length (s M : Z) :
  List.length (ascent_offsets s M) = scroll_steps s M.
Proof. unfold ascent_offsets. rewrite length_map, length_seq. reflexivity. Qed.

Lemma descent_offsets_nth (s M : Z) (i : nat) :
  (i < scroll_steps s M)%nat ->
  nth i (descent_offsets s M) 0 = Z.min (Z.of_nat (S i) * s) M.
Proof.
  intros Hi. unfold descent_offsets.
  set (f := fun k : nat => Z.min (Z.of_nat k * s) M).
  rewrite (nth_indep _ 0 (f 0%nat))
    by (rewrite length_map, length_seq; exact Hi).
  rewrite map_nth, seq_nth by exact Hi. reflexivity.
Qed.

Lemma ascent_offsets_nth (s M : Z) (i : nat) :
  (i < scroll_steps s M)%nat ->
  nth i (ascent_offsets s M) M = Z.max (M - Z.of_nat (S i) * s) 0.
Proof.
  intros Hi. unfold ascent_offsets.
  set (f := fun k : nat => Z.max (M - Z.of_nat k * s) 0).
  rewrite (nth_indep _ M (f 0%nat))
    by (rewrite length_map, length_seq; exact Hi).
  rewrite map_nth, seq_nth by exact Hi. reflexivity.
Qed.

Lemma descent_offsets_bounds (s M : Z) :
  0 < s -> 0 < M -> Forall (fun o => 0 < o <= M) (descent_offsets s M).
Proof.
  intros Hs HM. apply Forall_forall. intros o Ho.
  unfold descent_offsets in Ho. apply in_map_iff in Ho.
  destruct Ho as (i & <- & Hi). apply in_seq in Hi. nia.
Qed.

Lemma ascent_offsets_bounds (s M : Z) :
  0 < s -> 0 < M -> Forall (fun o => 0 <= o < M) (ascent_offsets s M).
Proof.
  intros Hs HM. apply Forall_forall. intros o Ho.
  unfold ascent_offsets in Ho. apply in_map_iff in Ho.
  destruct Ho as (i & <- & Hi). apply in_seq in Hi. nia.
Qed.

Lemma scroll_steps_succ (s M : Z) :
  0 < s -> 0 < M -> exists k, scroll_steps s M = S k.
Proof.
  intros Hs HM. destruct (scroll_steps_spec s M Hs HM) as (H1 & _).
  destruct (scroll_steps s M) as [| k]; [lia | exists k; reflexivity].
Qed.

Lemma descent_offsets_last (s M d : Z) :
  0 < s -> 0 < M -> last (descent_offsets s M) d = M.
Proof.
  intros Hs HM. destruct (scroll_steps_spec s M Hs HM) as (_ & _ & Hc).
  destruct (scroll_steps_succ s M Hs HM) as [k Hk].
  unfold descent_offsets. rewrite Hk in *.
  rewrite seq_S, map_app. cbn [map]. rewrite last_last. lia.
Qed.

Lemma ascent_offsets_last (s M d : Z) :
  0 < s -> 0 < M -> last (ascent_offsets s M) d = 0.
Proof.
  intros Hs HM. destruct (scroll_steps_spec s M Hs HM) as (_ & _ & Hc).
  destruct (scroll_steps_succ s M Hs HM) as [k Hk].
  unfold ascent_offsets. rewrite Hk in *.
  rewrite seq_S, map_app. cbn [map]. rewrite last_last. lia.
Qed.

(** Before its last step the way up is still above the top. *)
Lemma ascent_offsets_positive_before_last (s M : Z) :
  0 < s -> 0 < M -> Forall (fun o => 0 < o) (removelast (ascent_offsets s M)).
Proof.
  intros Hs HM. destruct (scroll_steps_spec s M Hs HM) as (_ & Hc & _).
  destruct (scroll_steps_succ s M Hs HM) as [k Hk].
  unfold ascent_offsets. rewrite Hk in *.
  rewrite seq_S, map_app. cbn [map]. rewrite removelast_last.
  apply Forall_forall. intros o Ho. apply in_map_iff in Ho.
  destruct Ho as (i & <- & Hi). apply in_seq in Hi. nia.
Qed.

Lemma map_frame_offset_list_times (p : Picture) (n : Z) :
  map frame_offset (list_times p n) = repeat (frame_offset p) (Z.to_nat n).
Proof. unfold list_times. apply map_repeat. Qed.

Lemma frame_offsets_watermark_pass (c : ScrollifyConfig) (fs : list Picture) :
  map frame_offset (watermark_pass c fs) = map frame_offset fs.
Proof.
  unfold watermark_pass. destruct (add_watermark c); [| reflexivity].
  rewrite map_map. reflexivity.
Qed.

Lemma watermark_pass_length (c : ScrollifyConfig) (fs : list Picture) :
  List.length (watermark_pass c fs) = List.length fs.
Proof.
  unfold watermark_pass. destruct (add_watermark c); [| reflexivity].
  apply length_map.
Qed.

Lemma frame_offsets_hold_descent_hold (g : Generator) (img : Image) (wh pf : Z) :
  map frame_offset (hold_descent_hold g img wh pf) =
  repeat 0 (Z.to_nat pf) ++
  descent_offsets (scroll_speed (config g)) (height img - wh) ++
  repeat (height img - wh) (Z.to_nat pf).
Proof.
  unfold hold_descent_hold. cbn zeta.
  rewrite !map_app, !map_frame_offset_list_times, frame_offsets_windows.
  unfold window_at. rewrite !frame_offset_crop_window. reflexivity.
Qed.

Lemma last_app_nonempty {A : Type} (l1 l2 : list A) (d : A) :
  l2 <> [] -> last (l1 ++ l2) d = last l2 d.
Proof.
  intros H. induction l1 as [| a l1 IH]; [reflexivity |].
  cbn [app last]. destruct (l1 ++ l2) eqn:E; [| exact IH].
  apply app_eq_nil in E. destruct E as [_ E]. contradiction.
Qed.

Lemma ascent_offsets_nonempty (s M : Z) :
  0 < s -> 0 < M -> ascent_offsets s M <> [].
Proof.
  intros Hs HM. destruct (scroll_steps_succ s M Hs HM) as [k Hk].
  unfold ascent_offsets. rewrite Hk. discriminate.
Qed.

Lemma descent_offsets_nonempty (s M : Z) :
  0 < s -> 0 < M -> descent_offsets s M <> [].
Proof.
  intros Hs HM. destruct (scroll_steps_succ s M Hs HM) as [k Hk].
  unfold descent_offsets. rewrite Hk. discriminate.
Qed.

(** ** The claims on the frame scheduler *)

(** C1. With a positive scroll speed and a scaled image taller than the
    window, the descent loop ends, and the offsets of the frames it appends
    are: each one is the previous one (0 before the first) advanced by the
    scroll speed and clamped to the maximal offset [max_y = scaled height -
    window height]; all of them lie in [0, max_y]; the last one is exactly
    [max_y], whether or not the speed divides it. *)
Theorem descent_offsets_within_bounds
    (g : Generator) (img : Image) (wh : Z) (fuel : nat) :
  scaled_image g = Some img -> window_height g = Some wh ->
  0 < scroll_speed (config g) -> wh < height img ->
  (scroll_steps (scroll_speed (config g)) (height img - wh) <= fuel)%nat ->
  exists fs : list Picture,
    scroll_down fuel (height img - wh) 0 g =
      (Ret (height img - wh), set_frames (frames g ++ fs) g) /\
    fs <> [] /\
    Forall (fun o => 0 <= o <= height img - wh) (map frame_offset fs) /\
    (forall i, (i < List.length fs)%nat ->
       nth i (map frame_offset fs) 0 =
       Z.min (nth i (0 :: map frame_offset fs) 0 + scroll_speed (config g))
             (height img - wh)) /\
    last (map frame_offset fs) 0 = height img - wh.
Proof.
  intros Himg Hwh Hs Hlt Hfuel.
  set (s := scroll_speed (config g)) in *. set (M := height img - wh) in *.
  assert (HM : 0 < M) by (unfold M; lia).
  exists (map (window_at g img wh) (descent_offsets s M)).
  rewrite frame_offsets_windows, length_map, descent_offsets_length.
  split; [| split; [| split; [| split]]].
  - apply scroll_down_from_top; assumption.
  - destruct (scroll_steps_succ s M Hs HM) as [k Hk].
    unfold descent_offsets. rewrite Hk. discriminate.
  - eapply Forall_impl; [| apply (descent_offsets_bounds s M Hs HM)].
    cbn beta. intros o Ho. lia.
  - intros i Hi. rewrite descent_offsets_nth by exact Hi.
    destruct i as [| i]; cbn [nth].
    + replace (Z.of_nat 1 * s) with (0 + s) by lia. reflexivity.
    + rewrite descent_offsets_nth by lia. nia.
  - apply descent_offsets_last; assumption.
Qed.

Lemma descent_offsets_within_bounds_witness :
  exists fs : list Picture,
    scroll_down 319 2550 0 (tall_prepared "down" (Py.lit 2)) =
      (Ret 2550,
       set_frames (frames (tall_prepared "down" (Py.lit 2)) ++ fs)
         (tall_prepared "down" (Py.lit 2))) /\
    fs <> [] /\
    Forall (fun o => 0 <= o <= 2550) (map frame_offset fs) /\
    (forall i, (i < List.length fs)%nat ->
       nth i (map frame_offset fs) 0 =
       Z.min (nth i (0 :: map frame_offset fs) 0 + 8) 2550) /\
    last (map frame_offset fs) 0 = 2550.
Proof.
  apply (descent_offsets_within_bounds
           (tall_prepared "down" (Py.lit 2)) tall_image 450 319%nat).
  - reflexivity.
  - reflexivity.
  - reflexivity.
  - reflexivity.
  - vm_compute. apply le_n.
Defined.

(** C4. In round-trip mode ([down-up]) the scheduler appends, after the
    bottom hold, the frames of the way back up: each offset is the previous
    one (the maximal offset before the first) lowered by the scroll speed
    and clamped at 0; every offset before the last is still positive and the
    last frame is at offset 0, so no pause follows the return.  On the
    end-to-end example (source 800x3000, width 800, 16:9, quality 1.0,
    speed 8, 24 frames a second, pause 2.0) the window is 450 high, the
    pause is 48 frames, the descent 319 frames, and the run yields 415
    frames in [down] mode and 734 in [down-up] mode. *)
Theorem round_trip_returns_to_top :
  (forall (g : Generator) (img : Image) (wh pf : Z) (fuel : nat),
     scaled_image g = Some img -> window_height g = Some wh ->
     0 < scroll_speed (config g) -> wh < height img ->
     pause_frame_count (config g) = Ret pf ->
     scroll_mode (config g) = "down-up"%string ->
     (scroll_steps (scroll_speed (config g)) (height img - wh) <= fuel)%nat ->
     let s := scroll_speed (config g) in
     let M := height img - wh in
     exists fs : list Picture,
       generate_frames fuel g = (Ret tt, set_frames fs g) /\
       map frame_offset fs =
         repeat 0 (Z.to_nat pf) ++ descent_offsets s M ++
         repeat M (Z.to_nat pf) ++ ascent_offsets s M /\
       (forall i, (i < List.length (ascent_offsets s M))%nat ->
          nth i (ascent_offsets s M) M =
          Z.max (nth i (M :: ascent_offsets s M) M - s) 0) /\
       Forall (fun o => 0 < o) (removelast (ascent_offsets s M)) /\
       last (map frame_offset fs) 1 = 0) /\
  (fst (tall_run "down") = Ret true /\
   window_height (snd (tall_run "down")) = Some 450 /\
   scaled_image (snd (tall_run "down")) = Some tall_image /\
   pause_frame_count (tall_config "down" (Py.lit 2)) = Ret 48 /\
   scroll_steps 8 2550 = 319%nat /\
   List.length (frames (snd (tall_run "down"))) = (48 + 319 + 48)%nat /\
   List.length (frames (snd (tall_run "down"))) = 415%nat) /\
  (fst (tall_run "down-up") = Ret true /\
   List.length (frames (snd (tall_run "down-up"))) = (415 + 319)%nat /\
   List.length (frames (snd (tall_run "down-up"))) = 734%nat).
Proof.
  split; [| split; [repeat split; vm_compute; reflexivity
                   | repeat split; vm_compute; reflexivity]].
  intros g img wh pf fuel Himg Hwh Hs Hlt Hpf Hmode Hfuel s M.
  assert (HM : 0 < M) by (unfold M; lia).
  exists (scheduled_frames g img wh pf).
  split; [apply generate_frames_scrolling; assumption |].
  assert (Hoff : map frame_offset (scheduled_frames g img wh pf) =
                 repeat 0 (Z.to_nat pf) ++ descent_offsets s M ++
                 repeat M (Z.to_nat pf) ++ ascent_offsets s M).
  { unfold scheduled_frames. cbn zeta. rewrite Hmode. cbn [String.eqb].
    rewrite !Ascii.eqb_refl.
    rewrite frame_offsets_watermark_pass, map_app,
      frame_offsets_hold_descent_hold, frame_offsets_windows.
    rewrite <- !app_assoc. reflexivity. }
  split; [exact Hoff |]. split; [| split].
  - intros i Hi. rewrite ascent_offsets_length in Hi.
    rewrite ascent_offsets_nth by exact Hi.
    destruct i as [| i]; cbn [nth].
    + replace (Z.of_nat 1 * s) with s by lia. reflexivity.
    + rewrite ascent_offsets_nth by lia. nia.
  - apply ascent_offsets_positive_before_last; assumption.
  - rewrite Hoff, !app_assoc.
    rewrite last_app_nonempty by (apply ascent_offsets_nonempty; assumption).
    apply ascent_offsets_last; assumption.
Qed.

Lemma round_trip_returns_to_top_witness :
  exists fs : list Picture,
    generate_frames 319 (tall_prepared "down-up" (Py.lit 2)) =
      (Ret tt, set_frames fs (tall_prepared "down-up" (Py.lit 2))) /\
    map frame_offset fs =
      repeat 0 48 ++ descent_offsets 8 2550 ++
      repeat 2550 48 ++ ascent_offsets 8 2550 /\
    (forall i, (i < List.length (ascent_offsets 8 2550))%nat ->
       nth i (ascent_offsets 8 2550) 2550 =
       Z.max (nth i (2550 :: ascent_offsets 8 2550) 2550 - 8) 0) /\
    Forall (fun o => 0 < o) (removelast (ascent_offsets 8 2550)) /\
    last (map frame_offset fs) 1 = 0.
Proof.
  apply (proj1 round_trip_returns_to_top
           (tall_prepared "down-up" (Py.lit 2)) tall_image 450 48 319%nat).
  - reflexivity.
  - reflexivity.
  - reflexivity.
  - reflexivity.
  - vm_compute. reflexivity.
  - reflexivity.
  - vm_compute. apply le_n.
Defined.

Lemma slice_to_drop_tail {A : Type} (l1 l2 : list A) (n : Z) :
  0 < n -> Z.of_nat (List.length l2) = n -> slice_to (l1 ++ l2) (- n) = l1.
Proof.
  intros Hn Hl. unfold slice_to.
  replace (- n <? 0) with true by (symmetry; apply Z.ltb_lt; lia).
  rewrite length_app, Nat2Z.inj_add, Hl.
  replace (Z.max (- n + (Z.of_nat (List.length l1) + n)) 0)
    with (Z.of_nat (List.length l1)) by lia.
  rewrite Nat2Z.id, firstn_app, firstn_all, Nat.sub_diag, firstn_O.
  apply app_nil_r.
Qed.

(** With a positive pause the single-pass slice removes the bottom hold and
    nothing else. *)
Lemma down_once_drops_bottom_hold
    (g : Generator) (img : Image) (wh pf : Z) (fuel : nat) :
  scaled_image g = Some img -> window_height g = Some wh ->
  0 < scroll_speed (config g) -> wh < height img ->
  pause_frame_count (config g) = Ret pf -> 0 < pf ->
  scroll_mode (config g) = "down-once"%string ->
  (scroll_steps (scroll_speed (config g)) (height img - wh) <= fuel)%nat ->
  exists fs : list Picture,
    generate_frames fuel g = (Ret tt, set_frames fs g) /\
    map frame_offset fs =
      repeat 0 (Z.to_nat pf) ++
      descent_offsets (scroll_speed (config g)) (height img - wh) /\
    last (map frame_offset fs) (-1) = height img - wh.
Proof.
  intros Himg Hwh Hs Hlt Hpf Hpos Hmode Hfuel.
  exists (scheduled_frames g img wh pf).
  split; [apply generate_frames_scrolling; assumption |].
  assert (Hoff : map frame_offset (scheduled_frames g img wh pf) =
                 repeat 0 (Z.to_nat pf) ++
                 descent_offsets (scroll_speed (config g)) (height img - wh)).
  { unfold scheduled_frames. cbn zeta. rewrite Hmode. cbn [String.eqb].
    rewrite !Ascii.eqb_refl. cbn [Ascii.eqb Bool.eqb andb].
    rewrite frame_offsets_watermark_pass.
    unfold hold_descent_hold. cbn zeta. rewrite app_assoc.
    rewrite slice_to_drop_tail
      by (unfold list_times; rewrite ?repeat_length; lia).
    rewrite map_app, map_frame_offset_list_times, frame_offsets_windows.
    unfold window_at. rewrite frame_offset_crop_window. reflexivity. }
  split; [exact Hoff |].
  rewrite Hoff, last_app_nonempty
    by (apply descent_offsets_nonempty; lia).
  apply descent_offsets_last; lia.
Qed.

(** C3, what the code does when the pause frame count is 0.  Single-pass
    mode ([down-once]) slices [self.frames[:-pause_frames]]; with
    [pause_frames = 0] the slice is [self.frames[:0]], the empty list: the
    top hold and every descent frame are dropped, although the descent was
    not empty, and [save_output] then fails for lack of frames. *)
Theorem down_once_without_pause_drops_every_frame
    (g : Generator) (img : Image) (wh : Z) (fuel : nat) :
  scaled_image g = Some img -> window_height g = Some wh ->
  0 < scroll_speed (config g) -> wh < height img ->
  pause_frame_count (config g) = Ret 0 ->
  scroll_mode (config g) = "down-once"%string ->
  (scroll_steps (scroll_speed (config g)) (height img - wh) <= fuel)%nat ->
  generate_frames fuel g = (Ret tt, set_frames [] g) /\
  descent_offsets (scroll_speed (config g)) (height img - wh) <> [] /\
  forall env, save_output env (set_frames [] g) =
              (Raise NoFrames, set_frames [] g).
Proof.
  intros Himg Hwh Hs Hlt Hpf Hmode Hfuel. split; [| split].
  - rewrite (generate_frames_scrolling g img wh 0 fuel) by assumption.
    unfold scheduled_frames. cbn zeta. rewrite Hmode. cbn [String.eqb].
    rewrite !Ascii.eqb_refl. cbn [Ascii.eqb Bool.eqb andb].
    unfold slice_to. cbn [Z.opp Z.ltb Z.compare].
    rewrite Z.min_l by lia. cbn [Z.to_nat firstn].
    unfold watermark_pass. destruct (add_watermark (config g)); reflexivity.
  - apply descent_offsets_nonempty; lia.
  - intros env. reflexivity.
Qed.

Lemma down_once_without_pause_drops_every_frame_witness :
  generate_frames 319 (tall_prepared "down-once" (Py.lit 0)) =
    (Ret tt, set_frames [] (tall_prepared "down-once" (Py.lit 0))) /\
  descent_offsets 8 2550 <> [] /\
  forall env, save_output env (set_frames [] (tall_prepared "down-once" (Py.lit 0))) =
              (Raise NoFrames,
               set_frames [] (tall_prepared "down-once" (Py.lit 0))).
Proof.
  apply (down_once_without_pause_drops_every_frame
           (tall_prepared "down-once" (Py.lit 0)) tall_image 450 319%nat).
  - reflexivity.
  - reflexivity.
  - reflexivity.
  - reflexivity.
  - vm_compute. reflexivity.
  - reflexivity.
  - vm_compute. apply le_n.
Defined.

(** [int(x)] is the exact value of [x] truncated toward zero. *)
Lemma Ret_inj {A : Type} (x y : A) : Ret x = Ret y -> x = y.
Proof. intros H. injection H. trivial. Qed.

Lemma int_of_float_truncates (x : Py.float) (n : Z) :
  Py.int_of_float x = Ret n -> n = Qtruncate (Py.to_Q x).
Proof.
  destruct x as [s | s | | s m e]; unfold Py.int_of_float; try discriminate.
  - intros H. injection H as <-. reflexivity.
  - intros H. apply Ret_inj in H. subst n. unfold Py.to_Q, Qtruncate.
    destruct (Z.leb_spec 0 e) as [He | He].
    + pose proof (Z.pow_pos_nonneg 2 e ltac:(lia) He) as P.
      assert (Ha : 0 < Zpos m * 2 ^ e) by lia.
      set (a := Zpos m * 2 ^ e) in *.
      destruct s.
      * change (- inject_Z a)%Q with (inject_Z (- a)).
        destruct (Qle_bool 0 (inject_Z (- a))); symmetry;
          [apply Qfloor_Z | apply Qceiling_Z].
      * destruct (Qle_bool 0 (inject_Z a)); symmetry;
          [apply Qfloor_Z | apply Qceiling_Z].
    + pose proof (Z.pow_pos_nonneg 2 (- e) ltac:(lia) ltac:(lia)) as P.
      assert (Hd : Zpos (Z.to_pos (2 ^ (- e))) = 2 ^ (- e))
        by (apply Z2Pos.id; exact P).
      destruct s.
      * unfold Qle_bool, Qceiling, Qfloor, Qopp. cbn [Qnum Qden Z.opp Z.mul].
        rewrite Hd. reflexivity.
      * unfold Qle_bool, Qfloor. cbn [Qnum Qden Z.mul].
        rewrite Hd. reflexivity.
Qed.

(** C2, as the code has it.  When the scaled image is not taller than the
    window, [generate_frames] leaves exactly [max(pf, 30)] frames, all of
    them the window at offset 0, where [pf = int(pause_duration *
    framerate)] is the double-precision product truncated toward zero (not
    rounded to nearest).  The scrolling path has no such floor: in [down]
    mode it leaves [pf + steps + pf] frames. *)
Theorem static_image_frame_count :
  (forall (g : Generator) (img : Image) (wh pf : Z) (fuel : nat),
     scaled_image g = Some img -> window_height g = Some wh ->
     height img <= wh ->
     pause_frame_count (config g) = Ret pf ->
     generate_frames fuel g =
       (Ret tt,
        set_frames (repeat (window_at g img wh 0) (Z.to_nat (Z.max pf 30))) g) /\
     frame_offset (window_at g img wh 0) = 0 /\
     Z.of_nat (List.length
                 (repeat (window_at g img wh 0) (Z.to_nat (Z.max pf 30)))) =
       Z.max pf 30 /\
     exists x : Py.float,
       Py.float_mul_int (pause_duration (config g)) (framerate (config g)) =
         Ret x /\
       pf = Qtruncate (Py.to_Q x)) /\
  (forall (g : Generator) (img : Image) (wh pf : Z) (fuel : nat),
     scaled_image g = Some img -> window_height g = Some wh ->
     0 < scroll_speed (config g) -> wh < height img ->
     pause_frame_count (config g) = Ret pf ->
     scroll_mode (config g) = "down"%string ->
     (scroll_steps (scroll_speed (config g)) (height img - wh) <= fuel)%nat ->
     exists fs : list Picture,
       generate_frames fuel g = (Ret tt, set_frames fs g) /\
       List.length fs =
         (Z.to_nat pf +
          scroll_steps (scroll_speed (config g)) (height img - wh) +
          Z.to_nat pf)%nat).
Proof.
  split.
  - intros g img wh pf fuel Himg Hwh Hle Hpf.
    split; [apply generate_frames_static; assumption |].
    split; [apply frame_offset_crop_window |].
    split; [rewrite repeat_length; lia |].
    unfold pause_frame_count in Hpf.
    destruct (Py.float_mul_int (pause_duration (config g))
                (framerate (config g))) as [x | e |]; try discriminate.
    exists x. split; [reflexivity |].
    apply int_of_float_truncates. exact Hpf.
  - intros g img wh pf fuel Himg Hwh Hs Hlt Hpf Hmode Hfuel.
    exists (scheduled_frames g img wh pf).
    split; [apply generate_frames_scrolling; assumption |].
    unfold scheduled_frames. cbn zeta. rewrite Hmode.
    rewrite watermark_pass_length.
    change (("down" =? "down-up")%string) with false.
    change (("down" =? "down-once")%string) with false.
    unfold hold_descent_hold, list_times. cbn zeta.
    rewrite !length_app, !repeat_length, length_map, descent_offsets_length.
    lia.
Qed.

Lemma static_image_frame_count_witness :
  generate_frames 0 short_prepared =
    (Ret tt,
     set_frames (repeat (window_at short_prepared short_image 450 0)
                        (Z.to_nat (Z.max 31 30))) short_prepared) /\
  frame_offset (window_at short_prepared short_image 450 0) = 0 /\
  Z.of_nat (List.length
              (repeat (window_at short_prepared short_image 450 0)
                      (Z.to_nat (Z.max 31 30)))) = Z.max 31 30 /\
  exists x : Py.float,
    Py.float_mul_int (pause_duration (config short_prepared))
                     (framerate (config short_prepared)) = Ret x /\
    31 = Qtruncate (Py.to_Q x).
Proof.
  apply (proj1 static_image_frame_count short_prepared short_image 450 31 0%nat).
  - reflexivity.
  - reflexivity.
  - vm_compute. discriminate.
  - vm_compute. reflexivity.
Defined.

(** C2 as written fails: with a pause of 1.984375 s at 16 frames a second
    (31.75 frames) the static path leaves 31 frames, whereas rounding 31.75
    to a nearest integer gives 32. *)
Lemma static_frame_count_not_rounded :
  generate_frames 0 short_prepared =
    (Ret tt,
     set_frames (repeat (window_at short_prepared short_image 450 0) 31)
                short_prepared) /\
  ~ (exists n : Z,
       is_nearest_integer
         (Py.to_Q (pause_duration (config short_prepared)) *
          inject_Z (framerate (config short_prepared))) n /\
       Z.max (Z.max n 0) 30 = 31).
Proof.
  split; [vm_compute; reflexivity |].
  intros (n & [H1 H2] & H3).
  set (x := (Py.to_Q (pause_duration (config short_prepared)) *
             inject_Z (framerate (config short_prepared)))%Q) in *.
  vm_compute in x. subst x.
  unfold Qle, Qminus, Qplus, Qopp, Qmult, inject_Z in H1, H2.
  cbn [Qnum Qden] in H1, H2. lia.
Qed.

(** ** The claims on the geometry resolver *)

Lemma two_fields_not_keyword (t a b : string) :
  Str.split ":" t = [a; b] ->
  (t =? "source")%string = false /\ (t =? "custom")%string = false.
Proof.
  intros H. split.
  - destruct (String.eqb_spec t "source") as [-> | _]; [discriminate H | reflexivity].
  - destruct (String.eqb_spec t "custom") as [-> | _]; [discriminate H | reflexivity].
Qed.

Lemma default_height_floor (W : Z) :
  0 <= W * 9 < 2 ^ 53 -> default_height W = Ret (W * 9 / 16).
Proof.
  intros H. unfold default_height. apply int_truediv_floor; [exact H |].
  split; [lia | reflexivity].
Qed.

Lemma unusable_token_raises (W : Z) (t : string) :
  unusable_token t -> exists e, ratio_height W t = Raise e.
Proof.
  intros H. unfold ratio_height.
  destruct (Str.split ":" t) as [| a [| b [| c l]]] eqn:Es;
    try (eexists; reflexivity).
  destruct (Str.to_int a) as [w |] eqn:Ea; [| eexists; reflexivity].
  destruct (Str.to_int b) as [h |] eqn:Eb; [| eexists; reflexivity].
  rewrite (H a b w h Es Ea Eb). unfold Py.int_truediv. cbn.
  eexists; reflexivity.
Qed.

(** C5, as the code has it.  A token with two integer fields [w:h]
    (as [int()] reads them), [w] not 0, gives the window height
    [int(W * h / w)]: the quotient truncated toward zero, which is the
    floor of [W * h / w] for positive [w], [h] and [W] (not its rounding to
    nearest), provided [W * h] and [w] are below 2^53.  A token without two
    integer fields, or with [w = 0], gives the 16:9 default
    [int(W * 9 / 16)] and no exception escapes. *)
Theorem ratio_token_height :
  (forall (g : Generator) (a b : string) (w h : Z),
     Str.split ":" (aspect_ratio (config g)) = [a; b] ->
     Str.to_int a = Some w -> Str.to_int b = Some h ->
     0 < w < 2 ^ 53 -> 0 < h -> 0 < output_width (config g) ->
     output_width (config g) * h < 2 ^ 53 ->
     calculate_dimensions g =
       (Ret tt, set_window_height (output_width (config g) * h / w) g)) /\
  (forall (g : Generator) (a b : string) (w h : Z),
     Str.split ":" (aspect_ratio (config g)) = [a; b] ->
     Str.to_int a = Some w -> Str.to_int b = Some h ->
     0 < Z.abs w < 2 ^ 53 -> Z.abs (output_width (config g) * h) < 2 ^ 53 ->
     calculate_dimensions g =
       (Ret tt, set_window_height (output_width (config g) * h ÷ w) g)) /\
  (forall g : Generator,
     aspect_ratio (config g) <> "source"%string ->
     (aspect_ratio (config g) = "custom"%string ->
      truthy (output_height (config g)) = false) ->
     unusable_token (aspect_ratio (config g)) ->
     0 <= output_width (config g) * 9 < 2 ^ 53 ->
     calculate_dimensions g =
       (Ret tt, set_window_height (output_width (config g) * 9 / 16) g)).
Proof.
  assert (General : forall (g : Generator) (a b : string) (w h : Z),
     Str.split ":" (aspect_ratio (config g)) = [a; b] ->
     Str.to_int a = Some w -> Str.to_int b = Some h ->
     0 < Z.abs w < 2 ^ 53 -> Z.abs (output_width (config g) * h) < 2 ^ 53 ->
     calculate_dimensions g =
       (Ret tt, set_window_height (output_width (config g) * h ÷ w) g)).
  { intros g a b w h Hs Ha Hb Hw HWh.
    destruct (two_fields_not_keyword _ _ _ Hs) as [E1 E2].
    unfold calculate_dimensions. method_unfold. rewrite E1, E2. cbn [andb].
    unfold ratio_height. rewrite Hs, Ha, Hb.
    rewrite int_truediv_quot by assumption. reflexivity. }
  split; [| split; [exact General |]].
  - intros g a b w h Hs Ha Hb Hw Hh HW HWh.
    rewrite (General g a b w h Hs Ha Hb) by nia.
    rewrite Z.quot_div_nonneg by nia. reflexivity.
  - intros g Hsrc Hcustom Hbad HW.
    unfold calculate_dimensions. method_unfold.
    destruct (String.eqb_spec (aspect_ratio (config g)) "source") as [E | _];
      [contradiction |].
    assert (andb (aspect_ratio (config g) =? "custom")%string
                 (truthy (output_height (config g))) = false) as ->.
    { destruct (String.eqb_spec (aspect_ratio (config g)) "custom") as [E | _];
        [rewrite (Hcustom E) |]; reflexivity. }
    destruct (unusable_token_raises (output_width (config g)) _ Hbad) as [e He].
    rewrite He. cbn [try_except]. rewrite default_height_floor by exact HW.
    reflexivity.
Qed.

Lemma ratio_token_height_witness :
  calculate_dimensions (init (plain_config "4:3" 800)) =
    (Ret tt, set_window_height (800 * 3 / 4) (init (plain_config "4:3" 800))).
Proof.
  apply (proj1 ratio_token_height (init (plain_config "4:3" 800))
           "4" "3" 4 3)%string.
  - reflexivity.
  - reflexivity.
  - reflexivity.
  - split; reflexivity.
  - reflexivity.
  - reflexivity.
  - reflexivity.
Defined.

(** C5 as written fails twice.  Width 100 with the token 3:2 gives 66, and
    66 is not a nearest integer of 200/3.  The token -16:9 is not made of
    two positive integers, yet at width 800 it gives -450 and not the 16:9
    default 450. *)
Lemma ratio_height_not_rounded :
  (calculate_dimensions (init (plain_config "3:2" 100)) =
     (Ret tt, set_window_height 66 (init (plain_config "3:2" 100))) /\
   ~ is_nearest_integer (100 * 2 # 3) 66) /\
  (calculate_dimensions (init (plain_config "-16:9" 800)) =
     (Ret tt, set_window_height (-450) (init (plain_config "-16:9" 800))) /\
   default_height 800 = Ret 450).
Proof.
  split; split; try (vm_compute; reflexivity).
  intros [H1 H2]. unfold Qle in H1, H2. cbn in H1, H2. lia.
Qed.

(** C10.  With the aspect mode [custom] and no explicit height,
    [calculate_dimensions] neither fails nor reports anything: the test
    [aspect_ratio == "custom" and output_height] is false, the literal
    [custom] goes to the token parser, [int("custom")] raises, and the bare
    [except] yields the 16:9 default [int(W * 9 / 16)]. *)
Theorem custom_without_height_falls_back (g : Generator) :
  aspect_ratio (config g) = "custom"%string ->
  output_height (config g) = None ->
  0 <= output_width (config g) * 9 < 2 ^ 53 ->
  ratio_height (output_width (config g)) (aspect_ratio (config g)) =
    Raise ValueError /\
  default_height (output_width (config g)) =
    Ret (output_width (config g) * 9 / 16) /\
  calculate_dimensions g =
    (Ret tt, set_window_height (output_width (config g) * 9 / 16) g).
Proof.
  intros Hmode Hnone HW. split; [rewrite Hmode; reflexivity |].
  split; [apply default_height_floor; exact HW |].
  unfold calculate_dimensions. method_unfold. rewrite Hmode, Hnone.
  cbn [String.eqb Ascii.eqb Bool.eqb andb truthy].
  change (ratio_height (output_width (config g)) "custom")
    with (@Raise Z ValueError).
  cbn [try_except]. rewrite default_height_floor by exact HW. reflexivity.
Qed.

Lemma custom_without_height_falls_back_witness :
  ratio_height 800 "custom" = Raise ValueError /\
  default_height 800 = Ret (800 * 9 / 16) /\
  calculate_dimensions (init (plain_config "custom" 800)) =
    (Ret tt,
     set_window_height (800 * 9 / 16) (init (plain_config "custom" 800))).
Proof.
  apply (custom_without_height_falls_back (init (plain_config "custom" 800))).
  - reflexivity.
  - reflexivity.
  - split; [discriminate | reflexivity].
Defined.

(** ** The claims on the output encoder *)

Lemma frame_duration_floor (c : ScrollifyConfig) :
  0 < framerate c < 2 ^ 53 -> frame_duration_ms c = Ret (1000 / framerate c).
Proof.
  intros H. unfold frame_duration_ms. apply int_truediv_floor; [| exact H].
  split; [discriminate | reflexivity].
Qed.

Lemma int_truediv_raises (a b : Z) (e : exn) :
  bindO (Py.int_truediv a b) Py.int_of_float = Raise e ->
  e = ZeroDivisionError \/ e = OverflowError \/ e = ValueError.
Proof.
  unfold Py.int_truediv.
  destruct (b =? 0); [cbn; intros H; injection H as <-; auto |].
  destruct (a =? 0); [cbn; discriminate |].
  destruct (SFdiv_core_binary _ _ _ _ _ _) as [[q e'] l].
  destruct (binary_round_aux _ _ _ _ _ _) as [s | s | | s m e2]; cbn;
    intros H; try discriminate; injection H as <-; auto.
Qed.

Lemma frame_duration_never_no_frames (c : ScrollifyConfig) :
  frame_duration_ms c <> Raise NoFrames.
Proof.
  intros H. apply int_truediv_raises in H.
  destruct H as [H | [H | H]]; discriminate H.
Qed.

Lemma save_as_gif_run (g : Generator) (first : Picture) (rest : list Picture)
    (d : Z) :
  frames g = first :: rest ->
  _save_as_gif d g =
  (Ret tt,
   add_written (WriteGif (output_path (config g)) first rest d
                         (gif_loop_count (config g))) g).
Proof.
  intros H. unfold _save_as_gif. method_unfold. rewrite H. reflexivity.
Qed.

(** C7, as the code has it.  On the animated-image path every frame lasts
    [int(1000 / framerate)] milliseconds, that is [1000 / framerate]
    truncated (not rounded to nearest), and the loop count is 0, Pillow's
    "forever", unless the scroll mode is [down-once], where it is 1. *)
Theorem gif_duration_and_loop
    (env : Env) (g : Generator) (first : Picture) (rest : list Picture) :
  frames g = first :: rest ->
  0 < framerate (config g) < 2 ^ 53 ->
  Str.upper (output_format (config g)) = "GIF"%string ->
  save_output env g =
    (Ret tt,
     add_written (WriteGif (output_path (config g)) first rest
                           (1000 / framerate (config g))
                           (gif_loop_count (config g))) g) /\
  (scroll_mode (config g) = "down"%string -> gif_loop_count (config g) = 0) /\
  (scroll_mode (config g) = "down-up"%string -> gif_loop_count (config g) = 0) /\
  (scroll_mode (config g) = "down-once"%string -> gif_loop_count (config g) = 1).
Proof.
  intros Hf Hfps Hfmt. split.
  - unfold save_output. method_unfold. rewrite Hf.
    rewrite frame_duration_floor by exact Hfps. rewrite Hfmt.
    cbn [String.eqb Ascii.eqb Bool.eqb andb].
    apply save_as_gif_run. exact Hf.
  - unfold gif_loop_count. repeat split; intros ->; reflexivity.
Qed.

Lemma gif_duration_and_loop_witness :
  save_output (example_env 800 3000 true)
              (one_frame (tall_config "down-once" (Py.lit 2))) =
    (Ret tt,
     add_written (WriteGif "out.gif" (Crop 0 0 800 450) [] (1000 / 24) 1)
                 (one_frame (tall_config "down-once" (Py.lit 2)))) /\
  (scroll_mode (tall_config "down-once" (Py.lit 2)) = "down"%string ->
   gif_loop_count (tall_config "down-once" (Py.lit 2)) = 0) /\
  (scroll_mode (tall_config "down-once" (Py.lit 2)) = "down-up"%string ->
   gif_loop_count (tall_config "down-once" (Py.lit 2)) = 0) /\
  (scroll_mode (tall_config "down-once" (Py.lit 2)) = "down-once"%string ->
   gif_loop_count (tall_config "down-once" (Py.lit 2)) = 1).
Proof.
  apply (gif_duration_and_loop (example_env 800 3000 true)
           (one_frame (tall_config "down-once" (Py.lit 2)))
           (Crop 0 0 800 450) []).
  - reflexivity.
  - split; reflexivity.
  - reflexivity.
Defined.

(** C7 as written fails: at 24 frames a second a frame lasts 41 ms, and 41
    is not a nearest integer of 1000/24 = 41.67. *)
Lemma gif_duration_not_rounded :
  save_output (example_env 800 3000 true)
              (one_frame (tall_config "down" (Py.lit 2))) =
    (Ret tt,
     add_written (WriteGif "out.gif" (Crop 0 0 800 450) [] 41 0)
                 (one_frame (tall_config "down" (Py.lit 2)))) /\
  ~ is_nearest_integer (1000 # 24) 41.
Proof.
  split; [vm_compute; reflexivity |].
  intros [H1 H2]. unfold Qle in H1, H2. cbn in H1, H2. lia.
Qed.

(** C8.  [save_output] raises the missing-frames error exactly when the
    frame list is empty, and then nothing has been written; with frames and
    a frame rate in range, a format that is neither GIF nor MP4 (whatever
    the case of its letters) raises the unsupported-format error, again
    before anything is written. *)
Theorem save_output_failures (env : Env) (g : Generator) :
  (fst (save_output env g) = Raise NoFrames <-> frames g = []) /\
  (frames g = [] -> save_output env g = (Raise NoFrames, g)) /\
  (frames g <> [] ->
   0 < framerate (config g) < 2 ^ 53 ->
   Str.upper (output_format (config g)) <> "GIF"%string ->
   Str.upper (output_format (config g)) <> "MP4"%string ->
   save_output env g = (Raise (UnsupportedFormat (output_format (config g))), g)).
Proof.
  split; [| split].
  - split.
    + destruct (frames g) as [| first rest] eqn:Hf; [reflexivity |].
      intros H. exfalso. revert H.
      unfold save_output, _save_as_mp4, _save_as_gif. method_unfold.
      rewrite Hf.
      pose proof (frame_duration_never_no_frames (config g)) as Hd.
      destruct (frame_duration_ms (config g)) as [d | e |]; cbn [fst];
        try discriminate; [| congruence].
      destruct (Str.upper (output_format (config g)) =? "GIF")%string.
      { rewrite Hf. discriminate. }
      destruct (Str.upper (output_format (config g)) =? "MP4")%string;
        [| discriminate].
      destruct (moviepy_available env); [discriminate |].
      pose proof (frame_duration_never_no_frames (config g)) as Hd'.
      destruct (frame_duration_ms (config g)) as [d' | e' |]; cbn [fst];
        try discriminate; [| congruence].
      cbn [config set_config frames]. rewrite Hf. discriminate.
    + intros Hf. unfold save_output. method_unfold. rewrite Hf. reflexivity.
  - intros Hf. unfold save_output. method_unfold. rewrite Hf. reflexivity.
  - intros Hf Hfps Hgif Hmp4.
    unfold save_output. method_unfold.
    destruct (frames g) as [| first rest]; [contradiction |].
    rewrite frame_duration_floor by exact Hfps.
    destruct (String.eqb_spec (Str.upper (output_format (config g))) "GIF");
      [contradiction |].
    destruct (String.eqb_spec (Str.upper (output_format (config g))) "MP4");
      [contradiction |].
    reflexivity.
Qed.

Lemma save_output_failures_witness :
  save_output (example_env 800 3000 true)
    (one_frame (example_config "16:9" "down" 800 8 24 (Py.lit 2) (Py.lit 1)
                  "webm" "out.webm")) =
  (Raise (UnsupportedFormat "webm"),
   one_frame (example_config "16:9" "down" 800 8 24 (Py.lit 2) (Py.lit 1)
                "webm" "out.webm")).
Proof.
  apply (proj2 (proj2 (save_output_failures (example_env 800 3000 true)
           (one_frame (example_config "16:9" "down" 800 8 24 (Py.lit 2)
                         (Py.lit 1) "webm" "out.webm"))))).
  - discriminate.
  - split; reflexivity.
  - discriminate.
  - discriminate.
Defined.

(** ** Splitting a path at its extension *)

Lemma substring_all (s : string) : substring 0 (String.length s) s = s.
Proof. induction s as [| c s IH]; cbn; [reflexivity | rewrite IH; reflexivity]. Qed.

Lemma substring_split (s : string) :
  forall n : nat, (n <= String.length s)%nat ->
    (substring 0 n s ++ substring n (String.length s - n) s)%string = s.
Proof.
  induction s as [| c s IH]; intros n Hn.
  - destruct n; reflexivity.
  - destruct n as [| n].
    + cbn. rewrite substring_all. reflexivity.
    + cbn [String.length] in Hn. cbn. rewrite IH by lia. reflexivity.
Qed.

Lemma rfind_from_bound (c : ascii) (s : string) :
  forall i last : Z,
    last < i + Z.of_nat (String.length s) ->
    Str.rfind_from c s i last < i + Z.of_nat (String.length s).
Proof.
  induction s as [| d s IH]; intros i last H;
    cbn [Str.rfind_from String.length] in *.
  - exact H.
  - rewrite Nat2Z.inj_succ in *.
    replace (i + Z.succ (Z.of_nat (String.length s)))
      with ((i + 1) + Z.of_nat (String.length s)) by lia.
    apply IH. destruct (Ascii.eqb d c); lia.
Qed.

Lemma rfind_bound (c : ascii) (s : string) :
  Str.rfind c s < Z.of_nat (String.length s).
Proof.
  unfold Str.rfind.
  pose proof (rfind_from_bound c s 0 (-1) ltac:(lia)). lia.
Qed.

(** [os.path.splitext] cuts the path in two. *)
Lemma splitext_concat (p : string) :
  (fst (Str.splitext p) ++ snd (Str.splitext p))%string = p.
Proof.
  unfold Str.splitext.
  destruct (Z.ltb_spec (Str.rfind "/" p) (Str.rfind "." p)) as [Hlt | Hge];
    cbn [andb].
  - destruct (Str.has_non_dot _ _ _); cbn [fst snd].
    + apply substring_split.
      pose proof (rfind_bound "." p). lia.
    + clear. induction p as [| c p IH]; cbn; [reflexivity | rewrite IH; reflexivity].
  - cbn [fst snd]. clear.
    induction p as [| c p IH]; cbn; [reflexivity | rewrite IH; reflexivity].
Qed.

Lemma rfind_from_get (c : ascii) (s : string) :
  forall i last : Z,
    Str.rfind_from c s i last <> last ->
    i <= Str.rfind_from c s i last /\
    String.get (Z.to_nat (Str.rfind_from c s i last - i)) s = Some c.
Proof.
  induction s as [| d s IH]; intros i last H; cbn [Str.rfind_from] in *.
  - contradiction.
  - set (last' := if Ascii.eqb d c then i else last) in *.
    destruct (Z.eq_dec (Str.rfind_from c s (i + 1) last') last') as [E | E].
    + rewrite E in *. unfold last' in *.
      destruct (Ascii.eqb_spec d c) as [-> | _]; [| contradiction].
      rewrite Z.sub_diag. split; [lia | reflexivity].
    + destruct (IH (i + 1) last' E) as [Hle Hget]. split; [lia |].
      replace (Z.to_nat (Str.rfind_from c s (i + 1) last' - i))
        with (S (Z.to_nat (Str.rfind_from c s (i + 1) last' - (i + 1))))
        by lia.
      exact Hget.
Qed.

Lemma substring_from_char (c : ascii) (s : string) :
  forall n m : nat,
    String.get n s = Some c -> exists r, substring n (S m) s = String c r.
Proof.
  induction s as [| d s IH]; intros n m H.
  - destruct n; discriminate H.
  - destruct n as [| n]; cbn in *.
    + injection H as ->. eexists; reflexivity.
    + apply IH. exact H.
Qed.

(** The extension that [os.path.splitext] cuts off is empty or starts with
    a dot. *)
Lemma splitext_extension_shape (p : string) :
  snd (Str.splitext p) = EmptyString \/
  exists r, snd (Str.splitext p) = String "." r.
Proof.
  unfold Str.splitext.
  destruct (Z.ltb_spec (Str.rfind "/" p) (Str.rfind "." p)) as [Hlt | Hge];
    cbn [andb]; [| left; reflexivity].
  destruct (Str.has_non_dot _ _ _); cbn [snd]; [| left; reflexivity].
  right. pose proof (rfind_bound "." p) as Hb.
  pose proof (rfind_bound "/" p) as Hs.
  assert (Hne : Str.rfind "." p <> -1).
  { unfold Str.rfind in *.
    pose proof (rfind_from_get "/" p 0 (-1)) as G.
    destruct (Z.eq_dec (Str.rfind_from "/" p 0 (-1)) (-1)); [lia |].
    destruct (G ltac:(assumption)). lia. }
  destruct (rfind_from_get "." p 0 (-1) Hne) as [Hle Hget].
  fold (Str.rfind "." p) in Hle, Hget. rewrite Z.sub_0_r in Hget.
  destruct (String.length p - Z.to_nat (Str.rfind "." p))%nat as [| m] eqn:Em;
    [lia |].
  apply substring_from_char. exact Hget.
Qed.

(** C9.  When MP4 output is requested and moviepy cannot be imported,
    [save_output] does not fail: the output path loses its extension (as
    [os.path.splitext] splits it: the path is the root followed by the
    extension, which is empty or starts with a dot) and gets [.gif]
    instead, the configuration keeps the new path, and the frames are
    written there as an animated image, with the duration and loop count of
    the GIF path. *)
Theorem mp4_without_moviepy_falls_back_to_gif
    (env : Env) (g : Generator) (first : Picture) (rest : list Picture) :
  moviepy_available env = false ->
  frames g = first :: rest ->
  0 < framerate (config g) < 2 ^ 53 ->
  Str.upper (output_format (config g)) = "MP4"%string ->
  let root := fst (Str.splitext (output_path (config g))) in
  let ext := snd (Str.splitext (output_path (config g))) in
  let gif_path := (root ++ ".gif")%string in
  save_output env g =
    (Ret tt,
     add_written (WriteGif gif_path first rest (1000 / framerate (config g))
                           (gif_loop_count (config g)))
       (set_config (set_output_path gif_path (config g)) g)) /\
  _save_as_mp4 env g = save_output env g /\
  (root ++ ext)%string = output_path (config g) /\
  (ext = EmptyString \/ exists r, ext = String "." r).
Proof.
  intros Hmp Hf Hfps Hfmt root ext gif_path.
  assert (Hmp4 : _save_as_mp4 env g =
    (Ret tt,
     add_written (WriteGif gif_path first rest (1000 / framerate (config g))
                           (gif_loop_count (config g)))
       (set_config (set_output_path gif_path (config g)) g))).
  { unfold _save_as_mp4. method_unfold. rewrite Hmp.
    rewrite frame_duration_floor by exact Hfps.
    rewrite (save_as_gif_run _ first rest) by exact Hf. reflexivity. }
  assert (Hsave : save_output env g = _save_as_mp4 env g).
  { unfold save_output. method_unfold. rewrite Hf.
    rewrite frame_duration_floor by exact Hfps. rewrite Hfmt. reflexivity. }
  split; [rewrite Hsave; exact Hmp4 |].
  split; [symmetry; exact Hsave |].
  split; [apply splitext_concat | apply splitext_extension_shape].
Qed.

Lemma mp4_without_moviepy_falls_back_to_gif_witness :
  save_output (example_env 800 3000 false)
    (one_frame (example_config "16:9" "down" 800 8 24 (Py.lit 2) (Py.lit 1)
                  "mp4" "clips/out.v2.mp4")) =
    (Ret tt,
     add_written (WriteGif "clips/out.v2.gif" (Crop 0 0 800 450) [] 41 0)
       (set_config
          (set_output_path "clips/out.v2.gif"
             (example_config "16:9" "down" 800 8 24 (Py.lit 2) (Py.lit 1)
                "mp4" "clips/out.v2.mp4"))
          (one_frame (example_config "16:9" "down" 800 8 24 (Py.lit 2)
                        (Py.lit 1) "mp4" "clips/out.v2.mp4")))).
Proof.
  apply (proj1 (mp4_without_moviepy_falls_back_to_gif
           (example_env 800 3000 false)
           (one_frame (example_config "16:9" "down" 800 8 24 (Py.lit 2)
                         (Py.lit 1) "mp4" "clips/out.v2.mp4"))
           (Crop 0 0 800 450) [] eq_refl eq_refl (conj eq_refl eq_refl)
           eq_refl)).
Defined.

(** ** The claim on the image preprocessor *)

Lemma outcome_truncates (x : outcome Py.float) (n : Z) :
  bindO x Py.int_of_float = Ret n ->
  exists f, x = Ret f /\ n = Qtruncate (Py.to_Q f).
Proof.
  destruct x as [f | e |]; cbn [bindO]; try discriminate.
  intros H. exists f. split; [reflexivity |].
  apply int_of_float_truncates. exact H.
Qed.

(** C6, as the code has it.  [preprocess_image] resizes the source to
    [new_width = int(source width * scale)] and
    [new_height = int(source height * scale)], with
    [scale = (output_width / source width) * quality_factor] in double
    precision and [int] truncating toward zero (not rounding to nearest).
    When [new_width] differs from the output width the window height
    becomes [int(window_height * (new_width / output_width))] and the
    output width becomes [new_width]; otherwise both stay.  Either way the
    output width then equals the width of the scaled image, and neither
    the frames nor the written files are touched. *)
Theorem preprocess_image_reconciles
    (g : Generator) (src : Image) (wh : Z) (scale_ratio : Py.float)
    (new_width new_height wh' : Z) :
  self_source_image g = Some src -> window_height g = Some wh ->
  Py.int_truediv (output_width (config g)) (width src) = Ret scale_ratio ->
  scaled_dimension (width src) scale_ratio (quality_factor (config g)) =
    Ret new_width ->
  scaled_dimension (height src) scale_ratio (quality_factor (config g)) =
    Ret new_height ->
  (new_width <> output_width (config g) ->
   rescaled_window wh new_width (output_width (config g)) = Ret wh') ->
  exists g' : Generator,
    preprocess_image g = (Ret tt, g') /\
    scaled_image g' = Some {| width := new_width; height := new_height |} /\
    output_width (config g') = new_width /\
    window_height g' =
      Some (if new_width =? output_width (config g) then wh else wh') /\
    frames g' = frames g /\ written g' = written g /\
    (exists x, Py.int_mul_float (width src)
                 (Py.fmul scale_ratio (quality_factor (config g))) = Ret x /\
               new_width = Qtruncate (Py.to_Q x)) /\
    (exists y, Py.int_mul_float (height src)
                 (Py.fmul scale_ratio (quality_factor (config g))) = Ret y /\
               new_height = Qtruncate (Py.to_Q y)).
Proof.
  intros Hsrc Hwh Hratio Hw Hh Hre.
  destruct (Z.eqb_spec new_width (output_width (config g))) as [E | E].
  - exists (set_scaled_image {| width := new_width; height := new_height |} g).
    split.
    { unfold preprocess_image. method_unfold. rewrite Hsrc, Hratio.
      unfold scaled_dimension in Hw, Hh. rewrite Hw, Hh.
      replace (new_width =? output_width (config g)) with true
        by (symmetry; apply Z.eqb_eq; exact E).
      reflexivity. }
    cbn [set_scaled_image scaled_image config window_height frames written].
    repeat split; try reflexivity; try congruence.
    + apply outcome_truncates. exact Hw.
    + apply outcome_truncates. exact Hh.
  - specialize (Hre E). unfold rescaled_window in Hre.
    destruct (Py.int_truediv new_width (output_width (config g)))
      as [scale_window | e |] eqn:Esw; try discriminate.
    cbn [bindO] in Hre.
    exists (set_config (set_output_width new_width (config g))
              (set_window_height wh'
                 (set_scaled_image
                    {| width := new_width; height := new_height |} g))).
    split.
    { unfold preprocess_image. method_unfold. rewrite Hsrc, Hratio.
      unfold scaled_dimension in Hw, Hh. rewrite Hw, Hh.
      replace (new_width =? output_width (config g)) with false
        by (symmetry; apply Z.eqb_neq; exact E).
      cbn [negb]. rewrite Esw, Hwh, Hre. reflexivity. }
    cbn [set_config set_output_width set_window_height set_scaled_image
         scaled_image config window_height frames written output_width].
    repeat split; try reflexivity.
    + apply outcome_truncates. exact Hw.
    + apply outcome_truncates. exact Hh.
Qed.

Lemma preprocess_image_reconciles_witness :
  exists g' : Generator,
    preprocess_image wide_loaded = (Ret tt, g') /\
    scaled_image g' = Some {| width := 600; height := 2250 |} /\
    output_width (config g') = 600 /\
    window_height g' = Some (if 600 =? 801 then 450 else 337) /\
    frames g' = frames wide_loaded /\ written g' = written wide_loaded /\
    (exists x, Py.int_mul_float 801
                 (Py.fmul (Py.lit 1) (Py.lit_ratio 3 4)) = Ret x /\
               600 = Qtruncate (Py.to_Q x)) /\
    (exists y, Py.int_mul_float 3001
                 (Py.fmul (Py.lit 1) (Py.lit_ratio 3 4)) = Ret y /\
               2250 = Qtruncate (Py.to_Q y)).
Proof.
  apply (preprocess_image_reconciles wide_loaded
           {| width := 801; height := 3001 |} 450 (Py.lit 1) 600 2250 337).
  - reflexivity.
  - reflexivity.
  - vm_compute. reflexivity.
  - vm_compute. reflexivity.
  - vm_compute. reflexivity.
  - intros _. vm_compute. reflexivity.
Defined.

(** C6 as written fails: an 801x3001 source at width 801 and quality 0.75
    is resized to 600x2250, and 600 is not a nearest integer of
    801 * ((801 / 801) * 0.75) = 600.75. *)
Lemma scaled_size_not_rounded :
  (exists g' : Generator,
     preprocess_image wide_loaded = (Ret tt, g') /\
     scaled_image g' = Some {| width := 600; height := 2250 |}) /\
  ~ is_nearest_integer
      (inject_Z 801 * ((801 # 801) * Py.to_Q (Py.lit_ratio 3 4))) 600.
Proof.
  split.
  - eexists. split; vm_compute; reflexivity.
  - intros [H1 H2].
    set (x := (inject_Z 801 * ((801 # 801) * Py.to_Q (Py.lit_ratio 3 4)))%Q)
      in *.
    vm_compute in x. subst x.
    unfold Qle, Qminus, Qplus, Qopp, Qmult, inject_Z in H1, H2.
    cbn [Qnum Qden] in H1, H2. lia.
Qed.

(** ** Further checks *)

(** Why C1 asks for a positive scroll speed: with a speed of 0 or less the
    descent loop never reaches the maximal offset. *)
Lemma scroll_down_stalls (img : Image) (wh M : Z) :
  forall (fuel : nat) (y : Z) (g : Generator),
    scaled_image g = Some img -> window_height g = Some wh ->
    scroll_speed (config g) <= 0 -> y < M ->
    fst (scroll_down fuel M y g) = OutOfFuel.
Proof.
  induction fuel as [| fuel IH]; intros y g Himg Hwh Hs Hy; cbn [scroll_down];
    replace (y <? M) with true by (symmetry; apply Z.ltb_lt; exact Hy).
  - reflexivity.
  - method_unfold. rewrite Hwh, (crop_safe_run g img _ _ Himg).
    apply IH; cbn [set_frames scaled_image window_height config];
      first [assumption | lia].
Qed.

(** The failing run of C3 from start to end: single-pass mode with a pause
    of 0 seconds ends in the missing-frames error and [run] returns
    [False]. *)
Example down_once_zero_pause_run_fails :
  fst (pipeline (example_env 800 3000 false) 319
         (init (tall_config "down-once" (Py.lit 0)))) = Raise NoFrames /\
  fst (run (example_env 800 3000 false) 319
         (init (tall_config "down-once" (Py.lit 0)))) = Ret false /\
  written (snd (run (example_env 800 3000 false) 319
                  (init (tall_config "down-once" (Py.lit 0))))) = [].
Proof. repeat split; vm_compute; reflexivity. Qed.

(** With the default quality 0.8 the width is reconciled to 640 before the
    frames are cut: every frame of the run is 640 wide and 360 high. *)
Example frames_cut_at_reconciled_width :
  let g := snd (run (example_env 800 3000 false) 400
                  (init (example_config "16:9" "down" 800 8 24 (Py.lit 2)
                           (Py.lit_ratio 4 5) "GIF" "out.gif"))) in
  output_width (config g) = 640 /\ window_height g = Some 360 /\
  scaled_image g = Some {| width := 640; height := 2400 |} /\
  forallb (fun p => match p with
                    | Crop 0 u 640 l => l - u =? 360
                    | _ => false
                    end) (frames g) = true.
Proof. repeat split; vm_compute; reflexivity. Qed.

(** The static example of the specification: an 800x300 source under a
    window of 450 with no pause gives the 30 frames of the floor, all the
    same padded window. *)
Example short_source_thirty_frames :
  let g := snd (run (example_env 800 300 false) 0
                  (init (tall_config "down" (Py.lit 0)))) in
  frames g = repeat (Padded 800 450 (Crop 0 0 800 300)) 30.
Proof. vm_compute. reflexivity. Qed.

(** * Further properties of the module *)

(** ** Windows and frame sequences *)

(** The shape of the frame [_crop_safe] builds, for any offset and height. *)
Lemma crop_window_shape (img : Image) (W y h : Z) :
  picture_size (crop_window img W y h) = (W, h) /\
  crop_box (crop_window img W y h) = (0, y, W, Z.min (y + h) (height img)) /\
  Z.min (y + h) (height img) <= height img /\
  (is_padded (crop_window img W y h) = true <-> height img < y + h).
Proof.
  unfold crop_window.
  destruct (Z.ltb_spec (Z.min (y + h) (height img) - y) h) as [Hp | Hp];
    cbn [picture_size crop_box is_padded].
  - repeat split; try lia; try discriminate; try reflexivity;
      f_equal; lia.
  - repeat split; try lia; try discriminate; try reflexivity;
      f_equal; lia.
Qed.

(** X1.  Whatever the offset and the height asked for, the frame that
    [_crop_safe] returns has the width of the output and the height asked
    for; its crop box starts at the offset and never reaches below the
    scaled image; and it is padded exactly when the window would reach
    below the image. *)
Theorem crop_safe_geometry (img : Image) (W y h : Z) :
  picture_size (crop_window img W y h) = (W, h) /\
  crop_box (crop_window img W y h) = (0, y, W, Z.min (y + h) (height img)) /\
  Z.min (y + h) (height img) <= height img /\
  (is_padded (crop_window img W y h) = true <-> height img < y + h).
Proof. exact (crop_window_shape img W y h). Qed.

Lemma Forall_firstn {A : Type} (P : A -> Prop) (l : list A) :
  forall n, Forall P l -> Forall P (firstn n l).
Proof.
  induction l as [| a l IH]; intros n H; destruct n as [| n]; cbn;
    try constructor.
  - inversion H; assumption.
  - apply IH. inversion H; assumption.
Qed.

Lemma Forall_repeat {A : Type} (P : A -> Prop) (a : A) (n : nat) :
  P a -> Forall P (repeat a n).
Proof. intros H. induction n; cbn; constructor; assumption. Qed.

(** The frames of the scrolling path before the watermark pass: windows at
    offsets between 0 and the maximal offset. *)
Lemma scheduled_frames_shape (g : Generator) (img : Image) (wh pf : Z) :
  0 < scroll_speed (config g) -> wh < height img ->
  exists raw : list Picture,
    scheduled_frames g img wh pf = watermark_pass (config g) raw /\
    Forall (fun p => exists y, 0 <= y <= height img - wh /\
                               p = window_at g img wh y) raw.
Proof.
  intros Hs Hlt. unfold scheduled_frames. cbn zeta.
  assert (Hold : Forall (fun p => exists y, 0 <= y <= height img - wh /\
                                            p = window_at g img wh y)
                        (hold_descent_hold g img wh pf)).
  { unfold hold_descent_hold, list_times. cbn zeta.
    apply Forall_app; split; [| apply Forall_app; split].
    - apply Forall_repeat. exists 0. split; [lia | reflexivity].
    - apply Forall_forall. intros p Hp. apply in_map_iff in Hp.
      destruct Hp as (y & <- & Hy). exists y. split; [| reflexivity].
      pose proof (descent_offsets_bounds _ (height img - wh) Hs ltac:(lia)) as B.
      rewrite Forall_forall in B. specialize (B y Hy). lia.
    - apply Forall_repeat. exists (height img - wh). split; [lia | reflexivity]. }
  eexists. split; [reflexivity |].
  destruct (scroll_mode (config g) =? "down-up")%string.
  - apply Forall_app. split; [exact Hold |].
    apply Forall_forall. intros p Hp. apply in_map_iff in Hp.
    destruct Hp as (y & <- & Hy). exists y. split; [| reflexivity].
    pose proof (ascent_offsets_bounds _ (height img - wh) Hs ltac:(lia)) as B.
    rewrite Forall_forall in B. specialize (B y Hy). lia.
  - destruct (scroll_mode (config g) =? "down-once")%string; [| exact Hold].
    unfold slice_to. apply Forall_firstn. exact Hold.
Qed.

Lemma Forall_watermark_pass (P : Picture -> Prop) (c : ScrollifyConfig)
    (raw : list Picture) :
  Forall (fun p => P p /\ P (Watermarked (watermark_text c) p)) raw ->
  Forall P (watermark_pass c raw).
Proof.
  intros H. unfold watermark_pass. destruct (add_watermark c).
  - apply Forall_forall. intros p Hp. apply in_map_iff in Hp.
    destruct Hp as (q & <- & Hq). rewrite Forall_forall in H.
    apply (H q Hq).
  - eapply Forall_impl; [| exact H]. cbn beta. intros p [Hp _]. exact Hp.
Qed.

(** X2.  All the frames that [generate_frames] leaves have the same size,
    the output width by the window height, on the static path as on the
    scrolling path, in every scroll mode and with or without watermark.  On
    the scrolling path no frame is padded and every crop box lies inside
    the scaled image. *)
Theorem frames_have_window_size :
  (forall (g : Generator) (img : Image) (wh pf : Z) (fuel : nat),
     scaled_image g = Some img -> window_height g = Some wh ->
     height img <= wh ->
     pause_frame_count (config g) = Ret pf ->
     exists fs : list Picture,
       generate_frames fuel g = (Ret tt, set_frames fs g) /\
       Forall (fun p => picture_size p = (output_width (config g), wh)) fs) /\
  (forall (g : Generator) (img : Image) (wh pf : Z) (fuel : nat),
     scaled_image g = Some img -> window_height g = Some wh ->
     0 < scroll_speed (config g) -> wh < height img ->
     pause_frame_count (config g) = Ret pf ->
     (scroll_steps (scroll_speed (config g)) (height img - wh) <= fuel)%nat ->
     exists fs : list Picture,
       generate_frames fuel g = (Ret tt, set_frames fs g) /\
       Forall (fun p =>
                 picture_size p = (output_width (config g), wh) /\
                 is_padded p = false /\
                 exists y, crop_box p = (0, y, output_width (config g), y + wh) /\
                           0 <= y /\ y + wh <= height img) fs).
Proof.
  split.
  - intros g img wh pf fuel Himg Hwh Hle Hpf.
    eexists. split; [apply generate_frames_static; eassumption |].
    unfold list_times. apply Forall_repeat.
    apply (crop_window_shape img (output_width (config g)) 0 wh).
  - intros g img wh pf fuel Himg Hwh Hs Hlt Hpf Hfuel.
    exists (scheduled_frames g img wh pf).
    split; [apply generate_frames_scrolling; assumption |].
    destruct (scheduled_frames_shape g img wh pf Hs Hlt) as (raw & -> & Hraw).
    apply Forall_watermark_pass.
    eapply Forall_impl; [| exact Hraw]. cbn beta.
    intros p (y & Hy & ->). unfold window_at.
    destruct (crop_window_shape img (output_width (config g)) y wh)
      as (Hsize & Hbox & _ & Hpad).
    assert (Hnp : is_padded (crop_window img (output_width (config g)) y wh)
                  = false).
    { apply Bool.not_true_is_false. intros E. apply Hpad in E. lia. }
    cbn [picture_size is_padded crop_box]. rewrite Hsize, Hnp, Hbox.
    rewrite Z.min_l by lia.
    repeat split; exists y; (split; [reflexivity | lia]).
Qed.

Lemma frames_have_window_size_witness :
  exists fs : list Picture,
    generate_frames 319
      (prepared (full_config "16:9" "down-up" "GIF" "out.gif" 800 8 24 None
                   (Py.lit 2) (Py.lit 1) true) tall_image 450) =
      (Ret tt,
       set_frames fs
         (prepared (full_config "16:9" "down-up" "GIF" "out.gif" 800 8 24
                      None (Py.lit 2) (Py.lit 1) true) tall_image 450)) /\
    Forall (fun p =>
              picture_size p = (800, 450) /\
              is_padded p = false /\
              exists y, crop_box p = (0, y, 800, y + 450) /\
                        0 <= y /\ y + 450 <= 3000) fs.
Proof.
  apply (proj2 frames_have_window_size
           (prepared (full_config "16:9" "down-up" "GIF" "out.gif" 800 8 24
                        None (Py.lit 2) (Py.lit 1) true) tall_image 450)
           tall_image 450 48 319%nat).
  - reflexivity.
  - reflexivity.
  - reflexivity.
  - reflexivity.
  - vm_compute. reflexivity.
  - vm_compute. apply le_n.
Defined.

(** X3.  The watermark pass comes after the early return of the static
    path: when the scaled image is not taller than the window no frame is
    watermarked, even with [add_watermark] set; on the scrolling path every
    frame is watermarked when [add_watermark] is set and none otherwise. *)
Theorem watermark_only_when_scrolling :
  (forall (g : Generator) (img : Image) (wh pf : Z) (fuel : nat),
     scaled_image g = Some img -> window_height g = Some wh ->
     height img <= wh ->
     pause_frame_count (config g) = Ret pf ->
     exists fs : list Picture,
       generate_frames fuel g = (Ret tt, set_frames fs g) /\
       fs <> [] /\
       Forall (fun p => is_watermarked p = false) fs) /\
  (forall (g : Generator) (img : Image) (wh pf : Z) (fuel : nat),
     scaled_image g = Some img -> window_height g = Some wh ->
     0 < scroll_speed (config g) -> wh < height img ->
     pause_frame_count (config g) = Ret pf ->
     (scroll_steps (scroll_speed (config g)) (height img - wh) <= fuel)%nat ->
     exists fs : list Picture,
       generate_frames fuel g = (Ret tt, set_frames fs g) /\
       Forall (fun p => is_watermarked p = add_watermark (config g)) fs).
Proof.
  split.
  - intros g img wh pf fuel Himg Hwh Hle Hpf.
    eexists. split; [apply generate_frames_static; eassumption |].
    unfold list_times. split.
    + destruct (Z.to_nat (Z.max pf 30)) eqn:E; [lia | discriminate].
    + apply Forall_repeat. unfold window_at, crop_window.
      destruct (_ <? _); reflexivity.
  - intros g img wh pf fuel Himg Hwh Hs Hlt Hpf Hfuel.
    exists (scheduled_frames g img wh pf).
    split; [apply generate_frames_scrolling; assumption |].
    destruct (scheduled_frames_shape g img wh pf Hs Hlt) as (raw & -> & Hraw).
    unfold watermark_pass. destruct (add_watermark (config g)).
    + apply Forall_forall. intros p Hp. apply in_map_iff in Hp.
      destruct Hp as (q & <- & _). reflexivity.
    + eapply Forall_impl; [| exact Hraw]. cbn beta.
      intros p (y & _ & ->). unfold window_at, crop_window.
      destruct (_ <? _); reflexivity.
Qed.

Lemma watermark_only_when_scrolling_witness :
  exists fs : list Picture,
    generate_frames 0
      (prepared (full_config "16:9" "down" "GIF" "out.gif" 800 8 24 None
                   (Py.lit 2) (Py.lit 1) true) short_image 450) =
      (Ret tt,
       set_frames fs
         (prepared (full_config "16:9" "down" "GIF" "out.gif" 800 8 24 None
                      (Py.lit 2) (Py.lit 1) true) short_image 450)) /\
    fs <> [] /\
    Forall (fun p => is_watermarked p = false) fs.
Proof.
  apply (proj1 watermark_only_when_scrolling
           (prepared (full_config "16:9" "down" "GIF" "out.gif" 800 8 24 None
                        (Py.lit 2) (Py.lit 1) true) short_image 450)
           short_image 450 48 0%nat).
  - reflexivity.
  - reflexivity.
  - vm_compute. discriminate.
  - vm_compute. reflexivity.
Defined.

(** ** Scroll modes and offsets *)

(** X4.  Only [down-up] and [down-once] are told apart: with any other
    scroll mode ([down], or a string the module does not know) the frames
    are the top hold, the descent and the bottom hold; a pause frame count
    of 0 or below leaves the holds empty. *)
Theorem other_modes_scroll_down_once_and_hold
    (g : Generator) (img : Image) (wh pf : Z) (fuel : nat) :
  scaled_image g = Some img -> window_height g = Some wh ->
  0 < scroll_speed (config g) -> wh < height img ->
  pause_frame_count (config g) = Ret pf ->
  scroll_mode (config g) <> "down-up"%string ->
  scroll_mode (config g) <> "down-once"%string ->
  (scroll_steps (scroll_speed (config g)) (height img - wh) <= fuel)%nat ->
  exists fs : list Picture,
    generate_frames fuel g = (Ret tt, set_frames fs g) /\
    map frame_offset fs =
      repeat 0 (Z.to_nat pf) ++
      descent_offsets (scroll_speed (config g)) (height img - wh) ++
      repeat (height img - wh) (Z.to_nat pf) /\
    (pf <= 0 ->
     map frame_offset fs =
       descent_offsets (scroll_speed (config g)) (height img - wh)).
Proof.
  intros Himg Hwh Hs Hlt Hpf Hup Honce Hfuel.
  exists (scheduled_frames g img wh pf).
  split; [apply generate_frames_scrolling; assumption |].
  assert (Hoff : map frame_offset (scheduled_frames g img wh pf) =
                 repeat 0 (Z.to_nat pf) ++
                 descent_offsets (scroll_speed (config g)) (height img - wh) ++
                 repeat (height img - wh) (Z.to_nat pf)).
  { unfold scheduled_frames. cbn zeta.
    destruct (String.eqb_spec (scroll_mode (config g)) "down-up");
      [contradiction |].
    destruct (String.eqb_spec (scroll_mode (config g)) "down-once");
      [contradiction |].
    rewrite frame_offsets_watermark_pass.
    apply frame_offsets_hold_descent_hold. }
  split; [exact Hoff |].
  intros Hneg. rewrite Hoff.
  replace (Z.to_nat pf) with 0%nat by lia. cbn [repeat app].
  apply app_nil_r.
Qed.

Lemma other_modes_scroll_down_once_and_hold_witness :
  exists fs : list Picture,
    generate_frames 319 (tall_prepared "sideways" (Py.lit 2)) =
      (Ret tt, set_frames fs (tall_prepared "sideways" (Py.lit 2))) /\
    map frame_offset fs =
      repeat 0 (Z.to_nat 48) ++ descent_offsets 8 2550 ++
      repeat 2550 (Z.to_nat 48) /\
    (48 <= 0 -> map frame_offset fs = descent_offsets 8 2550).
Proof.
  apply (other_modes_scroll_down_once_and_hold
           (tall_prepared "sideways" (Py.lit 2)) tall_image 450 48 319%nat).
  - reflexivity.
  - reflexivity.
  - reflexivity.
  - reflexivity.
  - vm_compute. reflexivity.
  - discriminate.
  - discriminate.
  - vm_compute. apply le_n.
Defined.

Lemma ascent_mirrors_descent (s M : Z) :
  ascent_offsets s M = map (fun o => M - o) (descent_offsets s M).
Proof.
  unfold ascent_offsets, descent_offsets. rewrite map_map.
  apply map_ext. intros i. lia.
Qed.

Lemma rev_seq_mirror (n : nat) :
  rev (seq 0 n) = map (fun i => (n - i)%nat) (seq 1 n).
Proof.
  apply (nth_ext _ _ 0%nat ((fun i => (n - i)%nat) 0%nat)).
  - rewrite length_rev, length_map, !length_seq. reflexivity.
  - intros i Hi. rewrite length_rev, length_seq in Hi.
    set (f := fun i => (n - i)%nat).
    rewrite rev_nth by (rewrite length_seq; exact Hi).
    rewrite length_seq, (map_nth f), !seq_nth by lia.
    unfold f. lia.
Qed.

(** X5.  In round-trip mode the way up is the mirror image of the way
    down: the k-th offset of the ascent is the maximal offset minus the
    k-th offset of the descent.  The ascent replays the frames of the
    descent backwards (ending with the top frame) when the scroll speed
    divides the maximal offset. *)
Theorem ascent_is_mirror_of_descent
    (g : Generator) (img : Image) (wh pf : Z) (fuel : nat) :
  scaled_image g = Some img -> window_height g = Some wh ->
  0 < scroll_speed (config g) -> wh < height img ->
  pause_frame_count (config g) = Ret pf ->
  scroll_mode (config g) = "down-up"%string ->
  (scroll_steps (scroll_speed (config g)) (height img - wh) <= fuel)%nat ->
  exists (fs : list Picture) (down up : list Z),
    generate_frames fuel g = (Ret tt, set_frames fs g) /\
    map frame_offset fs =
      repeat 0 (Z.to_nat pf) ++ down ++
      repeat (height img - wh) (Z.to_nat pf) ++ up /\
    List.length up = List.length down /\
    up = map (fun o => height img - wh - o) down /\
    ((scroll_speed (config g) | height img - wh) ->
     up = rev (0 :: removelast down)).
Proof.
  intros Himg Hwh Hs Hlt Hpf Hmode Hfuel.
  set (s := scroll_speed (config g)) in *. set (M := height img - wh) in *.
  exists (scheduled_frames g img wh pf), (descent_offsets s M),
    (ascent_offsets s M).
  split; [apply generate_frames_scrolling; assumption |].
  split.
  { unfold scheduled_frames. cbn zeta. rewrite Hmode. cbn [String.eqb].
    rewrite !Ascii.eqb_refl.
    rewrite frame_offsets_watermark_pass, map_app,
      frame_offsets_hold_descent_hold, frame_offsets_windows.
    rewrite <- !app_assoc. reflexivity. }
  split; [rewrite ascent_offsets_length, descent_offsets_length; reflexivity |].
  split; [apply ascent_mirrors_descent |].
  intros [k Hk].
  assert (HM : 0 < M) by (unfold M; lia).
  assert (Hn : scroll_steps s M = Z.to_nat k).
  { unfold scroll_steps. rewrite Hk.
    replace (k * s + s - 1) with ((s - 1) + k * s) by lia.
    rewrite Z.div_add by lia. rewrite Z.div_small by lia. reflexivity. }
  assert (Hkpos : 0 < k) by nia.
  unfold ascent_offsets, descent_offsets. rewrite Hn.
  destruct (Z.to_nat k) as [| n] eqn:En; [lia |].
  set (d := fun i : nat => Z.min (Z.of_nat i * s) M).
  replace (removelast (map d (seq 1 (S n)))) with (map d (seq 1 n))
    by (rewrite seq_S, map_app; cbn [map]; rewrite removelast_last;
        reflexivity).
  assert (E0 : 0 :: map d (seq 1 n) = map d (seq 0 (S n))).
  { cbn [seq map]. f_equal. unfold d. cbn [Z.of_nat Z.mul]. lia. }
  rewrite E0, <- map_rev, rev_seq_mirror, map_map.
  apply map_ext_in. intros i Hi. apply in_seq in Hi. unfold d.
  rewrite Nat2Z.inj_sub by lia.
  assert (Ek : k = Z.of_nat (S n)) by lia.
  rewrite Z.max_l, Z.min_l by nia. nia.
Qed.

Lemma ascent_is_mirror_of_descent_witness :
  exists (fs : list Picture) (down up : list Z),
    generate_frames 319 (tall_prepared "down-up" (Py.lit 2)) =
      (Ret tt, set_frames fs (tall_prepared "down-up" (Py.lit 2))) /\
    map frame_offset fs =
      repeat 0 (Z.to_nat 48) ++ down ++ repeat (3000 - 450) (Z.to_nat 48) ++ up /\
    List.length up = List.length down /\
    up = map (fun o => 3000 - 450 - o) down /\
    ((8 | 3000 - 450) -> up = rev (0 :: removelast down)).
Proof.
  apply (ascent_is_mirror_of_descent
           (tall_prepared "down-up" (Py.lit 2)) tall_image 450 48 319%nat).
  - reflexivity.
  - reflexivity.
  - reflexivity.
  - reflexivity.
  - vm_compute. reflexivity.
  - reflexivity.
  - vm_compute. apply le_n.
Defined.

(** X6.  The offsets of the descent strictly increase, so no two frames of
    the descent are the same window, and the descent has
    [ceil(max_y / speed)] frames, at most one a pixel. *)
Theorem descent_strictly_increases
    (g : Generator) (img : Image) (wh : Z) (fuel : nat) :
  scaled_image g = Some img -> window_height g = Some wh ->
  0 < scroll_speed (config g) -> wh < height img ->
  (scroll_steps (scroll_speed (config g)) (height img - wh) <= fuel)%nat ->
  exists fs : list Picture,
    scroll_down fuel (height img - wh) 0 g =
      (Ret (height img - wh), set_frames (frames g ++ fs) g) /\
    (forall i, (S i < List.length fs)%nat ->
       nth i (map frame_offset fs) 0 < nth (S i) (map frame_offset fs) 0) /\
    List.length fs = scroll_steps (scroll_speed (config g)) (height img - wh) /\
    (Z.of_nat (List.length fs) - 1) * scroll_speed (config g)
      < height img - wh <= Z.of_nat (List.length fs) * scroll_speed (config g) /\
    Z.of_nat (List.length fs) <= height img - wh.
Proof.
  intros Himg Hwh Hs Hlt Hfuel.
  set (s := scroll_speed (config g)) in *. set (M := height img - wh) in *.
  assert (HM : 0 < M) by (unfold M; lia).
  exists (map (window_at g img wh) (descent_offsets s M)).
  rewrite frame_offsets_windows, length_map, descent_offsets_length.
  destruct (scroll_steps_spec s M Hs HM) as (H1 & H2 & H3).
  split; [apply scroll_down_from_top; assumption |].
  split; [| split; [reflexivity | split; [lia | nia]]].
  intros i Hi. rewrite !descent_offsets_nth by lia.
  assert (Z.of_nat (S i) * s < M) by nia.
  lia.
Qed.

Lemma descent_strictly_increases_witness :
  exists fs : list Picture,
    scroll_down 319 (3000 - 450) 0 (tall_prepared "down" (Py.lit 2)) =
      (Ret (3000 - 450),
       set_frames (frames (tall_prepared "down" (Py.lit 2)) ++ fs)
         (tall_prepared "down" (Py.lit 2))) /\
    (forall i, (S i < List.length fs)%nat ->
       nth i (map frame_offset fs) 0 < nth (S i) (map frame_offset fs) 0) /\
    List.length fs = scroll_steps 8 (3000 - 450) /\
    (Z.of_nat (List.length fs) - 1) * 8
      < 3000 - 450 <= Z.of_nat (List.length fs) * 8 /\
    Z.of_nat (List.length fs) <= 3000 - 450.
Proof.
  apply (descent_strictly_increases
           (tall_prepared "down" (Py.lit 2)) tall_image 450 319%nat).
  - reflexivity.
  - reflexivity.
  - reflexivity.
  - reflexivity.
  - vm_compute. apply le_n.
Defined.

(** X7.  A scroll speed of 0 or less on an image taller than the window
    makes [generate_frames] loop for ever: whatever the fuel, the descent
    is still running when it runs out. *)
Theorem non_positive_speed_never_ends
    (g : Generator) (img : Image) (wh pf : Z) :
  scaled_image g = Some img -> window_height g = Some wh ->
  scroll_speed (config g) <= 0 -> wh < height img ->
  pause_frame_count (config g) = Ret pf ->
  forall fuel : nat, fst (generate_frames fuel g) = OutOfFuel.
Proof.
  intros Himg Hwh Hs Hlt Hpf fuel.
  unfold generate_frames, _crop_safe. method_unfold.
  method_simpl Himg Hwh.
  replace (height img <=? wh) with false by (symmetry; apply Z.leb_gt; exact Hlt).
  rewrite Hpf. method_simpl Himg Hwh.
  match goal with |- context [scroll_down _ _ _ ?st] => set (g1 := st) end.
  pose proof (scroll_down_stalls img wh (height img - wh) fuel 0 g1
                eq_refl eq_refl Hs ltac:(lia)) as E.
  destruct (scroll_down fuel (height img - wh) 0 g1) as [o g2].
  cbn [fst] in E. subst o. reflexivity.
Qed.

Lemma non_positive_speed_never_ends_witness :
  fst (generate_frames 1000
         (prepared (full_config "16:9" "down" "GIF" "out.gif" 800 0 24 None
                      (Py.lit 2) (Py.lit 1) false) tall_image 450))
  = OutOfFuel.
Proof.
  apply (non_positive_speed_never_ends
           (prepared (full_config "16:9" "down" "GIF" "out.gif" 800 0 24 None
                        (Py.lit 2) (Py.lit 1) false) tall_image 450)
           tall_image 450 48).
  - reflexivity.
  - reflexivity.
  - discriminate.
  - reflexivity.
  - vm_compute. reflexivity.
Defined.

(** ** Durations, geometry and the helpers around it *)

(** X8.  For a frame rate between 1 and 2^53 the frame duration [d] that
    [save_output] computes is the floor of [1000 / framerate]: [d] frames a
    second never last longer than a second and fall short of it by less
    than one frame rate in milliseconds; [d] is between 0 and 1000, and it
    is 0 exactly when the frame rate is above 1000. *)
Theorem frame_duration_bounds (c : ScrollifyConfig) :
  0 < framerate c < 2 ^ 53 ->
  exists d : Z,
    frame_duration_ms c = Ret d /\
    d * framerate c <= 1000 < (d + 1) * framerate c /\
    0 <= d <= 1000 /\
    (d = 0 <-> 1000 < framerate c).
Proof.
  intros H. exists (1000 / framerate c).
  split; [apply frame_duration_floor; exact H |].
  pose proof (Z_div_mod_eq_full 1000 (framerate c)) as E.
  pose proof (Z.mod_pos_bound 1000 (framerate c) ltac:(lia)) as B.
  set (d := 1000 / framerate c) in *.
  assert (0 <= d) by (apply Z.div_pos; lia).
  repeat split; try nia.
Qed.

Lemma frame_duration_bounds_witness :
  exists d : Z,
    frame_duration_ms (tall_config "down" (Py.lit 2)) = Ret d /\
    d * 24 <= 1000 < (d + 1) * 24 /\
    0 <= d <= 1000 /\
    (d = 0 <-> 1000 < 24).
Proof.
  apply (frame_duration_bounds (tall_config "down" (Py.lit 2))).
  split; reflexivity.
Defined.

(** X9.  In [custom] mode [calculate_dimensions] takes the explicit height
    as it is, whatever the width, when that height is not 0 (a negative one
    included); an explicit height of 0 counts as no height at all and the
    16:9 default [int(W * 9 / 16)] is used instead. *)
Theorem custom_height_used_unless_zero (g : Generator) (h : Z) :
  aspect_ratio (config g) = "custom"%string ->
  output_height (config g) = Some h ->
  (h <> 0 -> calculate_dimensions g = (Ret tt, set_window_height h g)) /\
  (h = 0 -> 0 <= output_width (config g) * 9 < 2 ^ 53 ->
   calculate_dimensions g =
     (Ret tt, set_window_height (output_width (config g) * 9 / 16) g)).
Proof.
  intros Hmode Hh. split.
  - intros Hne. unfold calculate_dimensions. method_unfold.
    rewrite Hmode, Hh. cbn [String.eqb Ascii.eqb Bool.eqb andb truthy].
    replace (h =? 0) with false by (symmetry; apply Z.eqb_neq; exact Hne).
    reflexivity.
  - intros -> HW. unfold calculate_dimensions. method_unfold.
    rewrite Hmode, Hh. cbn [String.eqb Ascii.eqb Bool.eqb andb truthy Z.eqb negb].
    change (ratio_height (output_width (config g)) "custom")
      with (@Raise Z ValueError).
    cbn [try_except]. rewrite default_height_floor by exact HW. reflexivity.
Qed.

Lemma custom_height_used_unless_zero_witness :
  (-7 <> 0 ->
   calculate_dimensions
     (init (full_config "custom" "down" "GIF" "out.gif" 800 8 24 (Some (-7))
              (Py.lit 2) (Py.lit 1) false)) =
   (Ret tt,
    set_window_height (-7)
      (init (full_config "custom" "down" "GIF" "out.gif" 800 8 24 (Some (-7))
               (Py.lit 2) (Py.lit 1) false)))) /\
  (-7 = 0 -> 0 <= 800 * 9 < 2 ^ 53 ->
   calculate_dimensions
     (init (full_config "custom" "down" "GIF" "out.gif" 800 8 24 (Some (-7))
              (Py.lit 2) (Py.lit 1) false)) =
   (Ret tt,
    set_window_height (800 * 9 / 16)
      (init (full_config "custom" "down" "GIF" "out.gif" 800 8 24 (Some (-7))
               (Py.lit 2) (Py.lit 1) false)))).
Proof.
  apply (custom_height_used_unless_zero
           (init (full_config "custom" "down" "GIF" "out.gif" 800 8 24
                    (Some (-7)) (Py.lit 2) (Py.lit 1) false)) (-7)).
  - reflexivity.
  - reflexivity.
Defined.

Lemma default_height_quot (W : Z) :
  Z.abs (W * 9) < 2 ^ 53 -> default_height W = Ret (W * 9 ÷ 16).
Proof.
  intros H. unfold default_height. apply int_truediv_quot; [exact H |].
  split; reflexivity.
Qed.

(** X10.  [parse_aspect_ratio] never fails: it gives no pair for [source]
    and otherwise always a pair, (16, 9) when the token does not hold two
    integers.  It agrees with [calculate_dimensions]: for a token other
    than [source] (and not [custom] with a height) parsed as [(w, h)] with
    [w] not 0, the window height is [W * h / w] truncated toward zero.
    With [w = 0] they part: the pair is [(0, h)], the window height is the
    16:9 default. *)
Theorem parse_aspect_ratio_agrees :
  (forall t : string,
     (t = "source"%string -> parse_aspect_ratio t = None) /\
     (t <> "source"%string -> exists w h, parse_aspect_ratio t = Some (w, h))) /\
  (forall (g : Generator) (w h : Z),
     (aspect_ratio (config g) = "custom"%string ->
      truthy (output_height (config g)) = false) ->
     parse_aspect_ratio (aspect_ratio (config g)) = Some (w, h) ->
     0 < Z.abs w < 2 ^ 53 ->
     Z.abs (output_width (config g) * h) < 2 ^ 53 ->
     Z.abs (output_width (config g) * 9) < 2 ^ 53 ->
     calculate_dimensions g =
       (Ret tt, set_window_height (output_width (config g) * h ÷ w) g)) /\
  (forall (g : Generator) (h : Z),
     (aspect_ratio (config g) = "custom"%string ->
      truthy (output_height (config g)) = false) ->
     parse_aspect_ratio (aspect_ratio (config g)) = Some (0, h) ->
     Z.abs (output_width (config g) * 9) < 2 ^ 53 ->
     calculate_dimensions g =
       (Ret tt, set_window_height (output_width (config g) * 9 ÷ 16) g)).
Proof.
  assert (Calc : forall g : Generator,
     (aspect_ratio (config g) = "custom"%string ->
      truthy (output_height (config g)) = false) ->
     (aspect_ratio (config g) =? "source")%string = false ->
     calculate_dimensions g =
       match try_except
               (ratio_height (output_width (config g)) (aspect_ratio (config g)))
               (default_height (output_width (config g))) with
       | Ret wh => (Ret tt, set_window_height wh g)
       | Raise e => (Raise e, g)
       | OutOfFuel => (OutOfFuel, g)
       end).
  { intros g Hc Hs. unfold calculate_dimensions. method_unfold. rewrite Hs.
    assert (andb (aspect_ratio (config g) =? "custom")%string
                 (truthy (output_height (config g))) = false) as ->.
    { destruct (String.eqb_spec (aspect_ratio (config g)) "custom") as [E | _];
        [rewrite (Hc E) |]; reflexivity. }
    destruct (try_except _ _); reflexivity. }
  split; [| split].
  - intros t. unfold parse_aspect_ratio. split.
    + intros ->. reflexivity.
    + intros Hne.
      destruct (String.eqb_spec t "source") as [E | _]; [contradiction |].
      destruct (Str.split ":" t) as [| a [| b [| c l]]];
        try (exists 16, 9; reflexivity).
      destruct (Str.to_int a) as [w |]; [| exists 16, 9; reflexivity].
      destruct (Str.to_int b) as [h |]; [| exists 16, 9; reflexivity].
      exists w, h. reflexivity.
  - intros g w h Hc Hp Hw HWh HW9.
    unfold parse_aspect_ratio in Hp.
    destruct (aspect_ratio (config g) =? "source")%string eqn:Es;
      [discriminate |].
    rewrite (Calc g Hc Es). unfold ratio_height.
    assert (Hdef : forall x : outcome Z,
              (forall v, x <> Ret v) -> x <> OutOfFuel -> Some (w, h) = Some (16, 9) ->
              match try_except x (default_height (output_width (config g))) with
              | Ret wh => (Ret tt, set_window_height wh g)
              | Raise e => (Raise e, g)
              | OutOfFuel => (OutOfFuel, g)
              end = (Ret tt, set_window_height (output_width (config g) * h ÷ w) g)).
    { intros x Hx1 Hx2 E. injection E as -> ->.
      destruct x as [v | e |]; [exfalso; apply (Hx1 v); reflexivity | | contradiction].
      cbn [try_except]. rewrite default_height_quot by exact HW9. reflexivity. }
    destruct (Str.split ":" (aspect_ratio (config g))) as [| a [| b [| c l]]];
      try (apply Hdef; [intros v; discriminate | discriminate | congruence]).
    destruct (Str.to_int a) as [w0 |];
      [| apply Hdef; [intros v; discriminate | discriminate | congruence]].
    destruct (Str.to_int b) as [h0 |];
      [| apply Hdef; [intros v; discriminate | discriminate | congruence]].
    injection Hp as -> ->.
    rewrite int_truediv_quot by assumption. reflexivity.
  - intros g h Hc Hp HW9.
    unfold parse_aspect_ratio in Hp.
    destruct (aspect_ratio (config g) =? "source")%string eqn:Es;
      [discriminate |].
    rewrite (Calc g Hc Es). unfold ratio_height.
    destruct (Str.split ":" (aspect_ratio (config g))) as [| a [| b [| c l]]];
      try discriminate Hp.
    destruct (Str.to_int a) as [w0 |]; [| discriminate Hp].
    destruct (Str.to_int b) as [h0 |]; [| discriminate Hp].
    injection Hp as -> ->.
    unfold Py.int_truediv. cbn [Z.eqb bindO try_except].
    rewrite default_height_quot by exact HW9. reflexivity.
Qed.

Lemma parse_aspect_ratio_agrees_witness :
  calculate_dimensions (init (plain_config "4:3" 800)) =
    (Ret tt, set_window_height (800 * 3 ÷ 4) (init (plain_config "4:3" 800))).
Proof.
  apply (proj1 (proj2 parse_aspect_ratio_agrees)
           (init (plain_config "4:3" 800)) 4 3).
  - discriminate.
  - reflexivity.
  - split; reflexivity.
  - reflexivity.
  - reflexivity.
Defined.

(** X11.  The background box that [_add_watermark_to_frames] draws always
    ends 5 pixels before the right and the bottom edge of the frame,
    whatever the text; it contains the rectangle reserved for the text with
    5 pixels to spare on every side; and it starts inside the frame exactly
    when the text is at most 15 pixels narrower and lower than the frame.
    The font size computed from the output width is at least 12. *)
Theorem watermark_box_margins (W fw fh b0 b1 b2 b3 : Z) :
  let lay := watermark_layout W fw fh (b0, b1, b2, b3) in
  let '(x, y) := wm_text_at lay in
  let '(x0, y0, x1, y1) := wm_box lay in
  x1 = fw - 5 /\ y1 = fh - 5 /\
  x0 = x - 5 /\ y0 = y - 5 /\
  x1 = x + (b2 - b0) + 5 /\ y1 = y + (b3 - b1) + 5 /\
  (0 <= x0 <-> b2 - b0 <= fw - 15) /\
  (0 <= y0 <-> b3 - b1 <= fh - 15) /\
  12 <= wm_font_size lay /\
  (600 <= W -> wm_font_size lay = W / 50).
Proof.
  cbn. repeat split; try lia.
  intros H. apply Z.max_r.
  apply Z.div_le_lower_bound; lia.
Qed.

(** X12.  The height that the window of the GUI shows beside the width is
    the window height [calculate_dimensions] will compute from the
    configuration the GUI builds, for the ratios 16:9, 4:3 and 1:1 and for
    [custom] with a height other than 0. *)
Theorem gui_height_is_window_height (v : GuiVars) :
  0 <= var_output_width v -> var_output_width v * 9 < 2 ^ 53 ->
  (var_aspect_ratio v = "16:9"%string \/ var_aspect_ratio v = "4:3"%string \/
   var_aspect_ratio v = "1:1"%string \/
   (var_aspect_ratio v = "custom"%string /\ var_output_height v <> 0)) ->
  exists v' : GuiVars,
    on_width_change v = Ret v' /\
    create_config v' = create_config v /\
    forall g : Generator,
      config g = create_config v' ->
      calculate_dimensions g =
        (Ret tt, set_window_height (var_output_height v') g).
Proof.
  intros HW HW9 Hr.
  assert (Calc : forall (g : Generator) (a b : string) (w h : Z),
     Str.split ":" (aspect_ratio (config g)) = [a; b] ->
     Str.to_int a = Some w -> Str.to_int b = Some h ->
     0 < w < 2 ^ 53 -> 0 <= output_width (config g) * h < 2 ^ 53 ->
     calculate_dimensions g =
       (Ret tt, set_window_height (output_width (config g) * h / w) g)).
  { intros g a b w h Hs Ha Hb Hw HWh.
    destruct (two_fields_not_keyword _ _ _ Hs) as [E1 E2].
    unfold calculate_dimensions. method_unfold. rewrite E1, E2. cbn [andb].
    unfold ratio_height. rewrite Hs, Ha, Hb.
    rewrite int_truediv_floor by assumption. reflexivity. }
  destruct Hr as [Hr | [Hr | [Hr | [Hr Hh]]]].
  - exists (set_var_output_height (var_output_width v * 9 / 16) v).
    split; [| split].
    + unfold on_width_change. rewrite Hr. cbn [String.eqb Ascii.eqb Bool.eqb].
      rewrite int_truediv_floor;
        [reflexivity | lia | split; [lia | reflexivity]].
    + unfold create_config. cbn. rewrite Hr. reflexivity.
    + intros g Hg.
      rewrite (Calc g "16" "9" 16 9)%string;
        rewrite ?Hg; cbn; rewrite ?Hr; try reflexivity; try lia;
        try (split; [lia | reflexivity]).
  - exists (set_var_output_height (var_output_width v * 3 / 4) v).
    split; [| split].
    + unfold on_width_change. rewrite Hr. cbn [String.eqb Ascii.eqb Bool.eqb].
      rewrite int_truediv_floor;
        [reflexivity | lia | split; [lia | reflexivity]].
    + unfold create_config. cbn. rewrite Hr. reflexivity.
    + intros g Hg.
      rewrite (Calc g "4" "3" 4 3)%string;
        rewrite ?Hg; cbn; rewrite ?Hr; try reflexivity; try lia;
        try (split; [lia | reflexivity]).
  - exists (set_var_output_height (var_output_width v) v).
    split; [| split].
    + unfold on_width_change. rewrite Hr. reflexivity.
    + unfold create_config. cbn. rewrite Hr. reflexivity.
    + intros g Hg.
      rewrite (Calc g "1" "1" 1 1)%string;
        rewrite ?Hg; cbn; rewrite ?Hr; rewrite ?Z.mul_1_r, ?Z.div_1_r;
        try reflexivity; try lia; try (split; [lia | reflexivity]).
  - exists v. split; [| split].
    + unfold on_width_change. rewrite Hr. reflexivity.
    + reflexivity.
    + intros g Hg. unfold calculate_dimensions. method_unfold.
      rewrite Hg. cbn. rewrite Hr. cbn.
      replace (var_output_height v =? 0) with false
        by (symmetry; apply Z.eqb_neq; exact Hh).
      reflexivity.
Qed.

Lemma gui_height_is_window_height_witness :
  exists v' : GuiVars,
    on_width_change (gui_defaults "4:3") = Ret v' /\
    create_config v' = create_config (gui_defaults "4:3") /\
    forall g : Generator,
      config g = create_config v' ->
      calculate_dimensions g =
        (Ret tt, set_window_height (var_output_height v') g).
Proof.
  apply (gui_height_is_window_height (gui_defaults "4:3")).
  - discriminate.
  - reflexivity.
  - right. left. reflexivity.
Defined.

Example gui_shows_600_for_4_3 :
  on_width_change (gui_defaults "4:3") =
  Ret (set_var_output_height 600 (gui_defaults "4:3")).
Proof. vm_compute. reflexivity. Qed.

(** ** The stages of a run, one by one *)

Lemma arith_outcome_bindO {A B : Type} (x : outcome A) (k : A -> outcome B) :
  arith_outcome x -> (forall a, arith_outcome (k a)) ->
  arith_outcome (bindO x k).
Proof. destruct x as [a | e |]; cbn; auto. Qed.

Lemma arith_outcome_float_of_int (n : Z) : arith_outcome (Py.float_of_int n).
Proof.
  unfold Py.float_of_int. destruct (Py.is_infinite _); cbn; [| exact I].
  right. left. reflexivity.
Qed.

Lemma arith_outcome_int_of_float (x : Py.float) :
  arith_outcome (Py.int_of_float x).
Proof.
  destruct x; cbn; try exact I.
  - right. left. reflexivity.
  - right. right. reflexivity.
Qed.

Lemma arith_outcome_int_truediv (a b : Z) : arith_outcome (Py.int_truediv a b).
Proof.
  unfold Py.int_truediv.
  destruct (b =? 0); [left; reflexivity |].
  destruct (a =? 0); [exact I |].
  destruct (SFdiv_core_binary _ _ _ _ _ _) as [[q e] l].
  destruct (Py.is_infinite _); cbn; [| exact I].
  right. left. reflexivity.
Qed.

Lemma arith_outcome_int_mul_float (n : Z) (x : Py.float) :
  arith_outcome (bindO (Py.int_mul_float n x) Py.int_of_float).
Proof.
  unfold Py.int_mul_float. repeat apply arith_outcome_bindO.
  - apply arith_outcome_float_of_int.
  - intros f. exact I.
  - intros f. apply arith_outcome_int_of_float.
Qed.

Lemma arith_outcome_truediv_int (a b : Z) :
  arith_outcome (bindO (Py.int_truediv a b) Py.int_of_float).
Proof.
  apply arith_outcome_bindO;
    [apply arith_outcome_int_truediv | intros f; apply arith_outcome_int_of_float].
Qed.

Lemma arith_outcome_pause_frame_count (c : ScrollifyConfig) :
  arith_outcome (pause_frame_count c).
Proof.
  unfold pause_frame_count, Py.float_mul_int. repeat apply arith_outcome_bindO.
  - apply arith_outcome_float_of_int.
  - intros f. exact I.
  - intros f. apply arith_outcome_int_of_float.
Qed.

Lemma arith_outcome_default_height (W : Z) : arith_outcome (default_height W).
Proof. apply arith_outcome_truediv_int. Qed.

Lemma arith_outcome_frame_duration (c : ScrollifyConfig) :
  arith_outcome (frame_duration_ms c).
Proof. apply arith_outcome_truediv_int. Qed.

(** [load_image] either stores the opened image or raises and leaves the
    state alone. *)
Lemma load_image_effect (env : Env) (g : Generator) :
  match load_image env g with
  | (Ret _, g') => exists img, g' = set_source_image img g
  | (Raise e, g') =>
      g' = g /\ (e = FileNotFoundError \/ e = CannotOpenImage)
  | (OutOfFuel, _) => False
  end.
Proof.
  unfold load_image. method_unfold.
  destruct (path_exists env (source_image (config g))); cbn [negb].
  - destruct (image_file env (source_image (config g))) as [img |].
    + exists img. reflexivity.
    + split; [reflexivity | right; reflexivity].
  - split; [reflexivity | left; reflexivity].
Qed.

(** [calculate_dimensions] either sets the window height or raises and
    leaves the state alone; with the source image loaded it raises only
    arithmetic errors. *)
Lemma calculate_dimensions_effect (g : Generator) :
  match calculate_dimensions g with
  | (Ret _, g') => exists wh, g' = set_window_height wh g
  | (Raise e, g') =>
      g' = g /\ (self_source_image g <> None -> arith_error e)
  | (OutOfFuel, _) => False
  end.
Proof.
  unfold calculate_dimensions. method_unfold.
  destruct (aspect_ratio (config g) =? "source")%string.
  - destruct (self_source_image g) as [img |];
      [| split; [reflexivity | intros H; contradiction]].
    pose proof (arith_outcome_int_truediv (height img) (width img)) as H1.
    destruct (Py.int_truediv (height img) (width img)) as [ratio | e |];
      cbn in H1; [| split; [reflexivity | intros _; exact H1] | contradiction].
    pose proof (arith_outcome_int_mul_float (output_width (config g)) ratio)
      as H2.
    destruct (bindO (Py.int_mul_float (output_width (config g)) ratio)
                Py.int_of_float) as [wh | e |];
      cbn in H2; [| split; [reflexivity | intros _; exact H2] | contradiction].
    exists wh. reflexivity.
  - destruct (andb _ _) eqn:Ec.
    + apply andb_prop in Ec. destruct Ec as [_ Ht].
      destruct (output_height (config g)) as [h |]; [| discriminate Ht].
      exists h. reflexivity.
    + pose proof (arith_outcome_default_height (output_width (config g)))
        as H1.
      destruct (ratio_height (output_width (config g))
                  (aspect_ratio (config g))) as [wh | e |] eqn:Er;
        cbn [try_except].
      * exists wh. reflexivity.
      * destruct (default_height (output_width (config g))) as [wh | e' |];
          cbn in H1; [| split; [reflexivity | intros _; exact H1] | contradiction].
        exists wh. reflexivity.
      * exfalso. unfold ratio_height in Er.
        destruct (Str.split ":" (aspect_ratio (config g)))
          as [| a [| b [| c l]]]; try discriminate Er.
        destruct (Str.to_int a); [| discriminate Er].
        destruct (Str.to_int b); [| discriminate Er].
        pose proof (arith_outcome_truediv_int
                      (output_width (config g) * z0) z) as H2.
        rewrite Er in H2. exact H2.
Qed.

(** [preprocess_image] stores a scaled image whose width is the final
    [output_width]; of the configuration only [output_width] may change, and
    neither the source image, the frames nor the written files do. *)
Lemma preprocess_image_effect (g : Generator) :
  match preprocess_image g with
  | (Ret _, g') =>
      (exists img, scaled_image g' = Some img /\
                   output_width (config g') = width img) /\
      same_but_width (config g') (config g) /\
      self_source_image g' = self_source_image g /\
      (window_height g <> None -> window_height g' <> None) /\
      frames g' = frames g /\ written g' = written g
  | (Raise e, g') =>
      config g' = config g /\ written g' = written g /\
      (self_source_image g <> None -> window_height g <> None ->
       arith_error e)
  | (OutOfFuel, _) => False
  end.
Proof.
  unfold preprocess_image, same_but_width. method_unfold.
  destruct (self_source_image g) as [src |] eqn:Es;
    [| repeat split; intros H; contradiction].
  pose proof (arith_outcome_int_truediv (output_width (config g)) (width src))
    as H1.
  destruct (Py.int_truediv (output_width (config g)) (width src))
    as [scale_ratio | e |]; cbn in H1;
    [| repeat split; intros _ _; exact H1 | contradiction].
  set (final_scale := Py.fmul scale_ratio (quality_factor (config g))).
  pose proof (arith_outcome_int_mul_float (width src) final_scale) as H2.
  destruct (bindO (Py.int_mul_float (width src) final_scale) Py.int_of_float)
    as [new_width | e |]; cbn in H2;
    [| repeat split; intros _ _; exact H2 | contradiction].
  pose proof (arith_outcome_int_mul_float (height src) final_scale) as H3.
  destruct (bindO (Py.int_mul_float (height src) final_scale) Py.int_of_float)
    as [new_height | e |]; cbn in H3;
    [| repeat split; intros _ _; exact H3 | contradiction].
  cbn [fst snd].
  destruct (new_width =? output_width (config g)) eqn:Ew; cbn [negb].
  - apply Z.eqb_eq in Ew. cbn.
    split; [exists {| width := new_width; height := new_height |};
            split; [reflexivity | symmetry; exact Ew] |].
    split; [destruct (config g); reflexivity |].
    repeat split; auto.
  - pose proof (arith_outcome_int_truediv new_width (output_width (config g)))
      as H4.
    destruct (Py.int_truediv new_width (output_width (config g)))
      as [scale_window | e |]; cbn in H4;
      [| repeat split; intros _ _; exact H4 | contradiction].
    cbn [set_scaled_image window_height].
    destruct (window_height g) as [wh |];
      [| cbn; repeat split; intros _ H; contradiction].
    pose proof (arith_outcome_int_mul_float wh scale_window) as H5.
    destruct (bindO (Py.int_mul_float wh scale_window) Py.int_of_float)
      as [wh' | e |]; cbn in H5;
      [| cbn; repeat split; intros _ _; exact H5 | contradiction].
    cbn.
    split; [exists {| width := new_width; height := new_height |};
            split; reflexivity |].
    split; [reflexivity |].
    repeat split; auto. intros _. discriminate.
Qed.

Lemma only_frames_differ_refl (g : Generator) : only_frames_differ g g.
Proof. repeat split. Qed.

Lemma only_frames_differ_trans (g1 g2 g3 : Generator) :
  only_frames_differ g1 g2 -> only_frames_differ g2 g3 ->
  only_frames_differ g1 g3.
Proof.
  unfold only_frames_differ.
  intros (A1 & A2 & A3 & A4 & A5) (B1 & B2 & B3 & B4 & B5).
  repeat split; congruence.
Qed.

Lemma only_frames_differ_set_frames (fs : list Picture) (g : Generator) :
  only_frames_differ g (set_frames fs g).
Proof. repeat split. Qed.

(** Each loop touches nothing but [self.frames], and with the scaled image
    and the window height in place it does not raise. *)
Lemma scroll_down_effect (fuel : nat) (max_y : Z) :
  forall (y : Z) (g : Generator),
    only_frames_differ g (snd (scroll_down fuel max_y y g)) /\
    (forall e, fst (scroll_down fuel max_y y g) = Raise e ->
               scaled_image g = None \/ window_height g = None).
Proof.
  induction fuel as [| fuel IH]; intros y g; cbn [scroll_down].
  - destruct (y <? max_y); cbn;
      (split; [apply only_frames_differ_refl | intros e H; discriminate H]).
  - destruct (y <? max_y);
      [| cbn; split; [apply only_frames_differ_refl
                     | intros e H; discriminate H]].
    unfold _crop_safe. method_unfold.
    destruct (window_height g) as [wh |] eqn:Ew;
      [| cbn; split; [apply only_frames_differ_refl | intros; right; reflexivity]].
    destruct (scaled_image g) as [img |] eqn:Ei;
      [| cbn; split; [apply only_frames_differ_refl | intros; left; reflexivity]].
    cbn [fst snd].
    match goal with
    | |- context [scroll_down fuel max_y ?y' ?st] =>
        destruct (IH y' st) as [D R]; split;
          [eapply only_frames_differ_trans;
             [apply only_frames_differ_set_frames | exact D]
          | intros e H; destruct (R e H) as [C | C]; cbn in C; congruence]
    end.
Qed.

Lemma scroll_up_effect (fuel : nat) :
  forall (y : Z) (g : Generator),
    only_frames_differ g (snd (scroll_up fuel y g)) /\
    (forall e, fst (scroll_up fuel y g) = Raise e ->
               scaled_image g = None \/ window_height g = None).
Proof.
  induction fuel as [| fuel IH]; intros y g; cbn [scroll_up].
  - destruct (0 <? y); cbn;
      (split; [apply only_frames_differ_refl | intros e H; discriminate H]).
  - destruct (0 <? y);
      [| cbn; split; [apply only_frames_differ_refl
                     | intros e H; discriminate H]].
    unfold _crop_safe. method_unfold.
    destruct (window_height g) as [wh |] eqn:Ew;
      [| cbn; split; [apply only_frames_differ_refl | intros; right; reflexivity]].
    destruct (scaled_image g) as [img |] eqn:Ei;
      [| cbn; split; [apply only_frames_differ_refl | intros; left; reflexivity]].
    cbn [fst snd].
    match goal with
    | |- context [scroll_up fuel ?y' ?st] =>
        destruct (IH y' st) as [D R]; split;
          [eapply only_frames_differ_trans;
             [apply only_frames_differ_set_frames | exact D]
          | intros e H; destruct (R e H) as [C | C]; cbn in C; congruence]
    end.
Qed.

(** ** The run as a whole *)

(** [generate_frames] touches nothing but [self.frames], however it ends,
    and with the scaled image and the window height in place it raises
    only arithmetic errors. *)
Lemma generate_frames_effect (fuel : nat) (g : Generator) :
  only_frames_differ g (snd (generate_frames fuel g)) /\
  (forall e, fst (generate_frames fuel g) = Raise e ->
             scaled_image g <> None -> window_height g <> None ->
             arith_error e).
Proof.
  unfold generate_frames, _crop_safe. method_unfold.
  cbn [set_frames scaled_image window_height config fst snd].
  destruct (scaled_image g) as [img |] eqn:Ei;
    [| cbn; split; [repeat split | intros e _ H; contradiction]].
  destruct (window_height g) as [wh |] eqn:Ew;
    [| cbn; split; [repeat split | intros e _ _ H; contradiction]].
  pose proof (arith_outcome_pause_frame_count (config g)) as Hp.
  destruct (height img <=? wh).
  - cbn. rewrite Ei. cbn.
    destruct (pause_frame_count (config g)) as [pf | e |]; cbn in Hp |- *;
      [| | contradiction].
    + split; [repeat split; assumption | intros e H; discriminate H].
    + split; [repeat split; assumption
             | intros e' H _ _; injection H as <-; exact Hp].
  - destruct (pause_frame_count (config g)) as [pf | e |]; cbn in Hp;
      [| cbn; split; [repeat split; assumption
                     | intros e' H _ _; injection H as <-; exact Hp]
       | contradiction].
    cbn. rewrite Ei. cbn.
    match goal with
    | |- context [scroll_down fuel ?M 0 ?st] =>
        set (g1 := st);
        destruct (scroll_down_effect fuel M 0 g1) as [D1 R1];
        destruct (scroll_down fuel M 0 g1) as [o g2]
    end.
    cbn [fst snd] in D1, R1.
    assert (D2 : only_frames_differ g g2).
    { apply (only_frames_differ_trans g g1 g2); [repeat split | exact D1]. }
    destruct o as [y | e |]; cbn [fst snd].
    2: { split; [exact D2 |]. intros e' H _ _. injection H as <-.
         destruct (R1 e eq_refl) as [C | C]; cbn in C; congruence. }
    2: { split; [exact D2 | intros e H; discriminate H]. }
    replace (scaled_image g2) with (Some img)
      by (destruct D2 as (_ & _ & -> & _); symmetry; exact Ei).
    cbn [fst snd].
    match goal with
    | |- context [set_frames (frames g2 ++ ?l) g2] =>
        set (g3 := set_frames (frames g2 ++ l) g2)
    end.
    assert (D3 : only_frames_differ g g3).
    { apply (only_frames_differ_trans g g2 g3);
        [exact D2 | apply only_frames_differ_set_frames]. }
    assert (W : forall g4, only_frames_differ g g4 ->
      only_frames_differ g
        (snd ((if add_watermark (config g) then _add_watermark_to_frames
               else fun g0 => (Ret tt, g0)) g4)) /\
      (forall e,
         fst ((if add_watermark (config g) then _add_watermark_to_frames
               else fun g0 => (Ret tt, g0)) g4) = Raise e -> False)).
    { intros g4 D4. destruct (add_watermark (config g)); cbn.
      - split; [| intros e H; discriminate H].
        apply (only_frames_differ_trans g g4 _);
          [exact D4 | apply only_frames_differ_set_frames].
      - split; [exact D4 | intros e H; discriminate H]. }
    destruct (scroll_mode (config g) =? "down-up")%string.
    + destruct (scroll_up_effect fuel y g3) as [D4 R4].
      destruct (scroll_up fuel y g3) as [o g4]. cbn [fst snd] in D4, R4.
      assert (D5 : only_frames_differ g g4).
      { apply (only_frames_differ_trans g g3 g4); assumption. }
      destruct o as [y' | e |]; cbn [fst snd].
      * cbn beta iota. destruct (W g4 D5) as [Wa Wb].
        split; [exact Wa | intros e H; destruct (Wb e H)].
      * split; [exact D5 |]. intros e' H _ _. injection H as <-.
        destruct D3 as (_ & _ & Hs3 & Hw3 & _).
        destruct (R4 e eq_refl) as [C | C]; congruence.
      * split; [exact D5 | intros e H; discriminate H].
    + destruct (scroll_mode (config g) =? "down-once")%string.
      * cbn beta iota.
        match goal with
        | |- context [set_frames ?l g3] =>
            destruct (W (set_frames l g3)) as [Wa Wb];
              [apply (only_frames_differ_trans g g3 _);
                 [exact D3 | apply only_frames_differ_set_frames] |]
        end.
        split; [exact Wa | intros e H; destruct (Wb e H)].
      * cbn beta iota. destruct (W g3 D3) as [Wa Wb].
        split; [exact Wa | intros e H; destruct (Wb e H)].
Qed.

(** [save_output] either makes one encoder call, at the output path the
    configuration ends with and with all the frames, or raises and leaves
    the generator alone.  Only the MP4 fallback changes the
    configuration, and only its [output_path]. *)
Lemma save_output_effect (env : Env) (g : Generator) :
  match save_output env g with
  | (Ret _, g') =>
      exists ev : event,
        written g' = written g ++ [ev] /\
        event_path ev = output_path (config g') /\
        event_frames ev = frames g /\ frames g <> [] /\
        frames g' = frames g /\
        ((Str.upper (output_format (config g)) = "GIF"%string /\
          config g' = config g /\ event_is_gif ev = true) \/
         (Str.upper (output_format (config g)) = "MP4"%string /\
          moviepy_available env = true /\
          config g' = config g /\ event_is_gif ev = false) \/
         (Str.upper (output_format (config g)) = "MP4"%string /\
          moviepy_available env = false /\
          config g' =
            set_output_path
              (fst (Str.splitext (output_path (config g))) ++ ".gif")%string
              (config g) /\
          event_is_gif ev = true))
  | (Raise e, g') =>
      g' = g /\
      (e = NoFrames \/ arith_error e \/
       e = UnsupportedFormat (output_format (config g)))
  | (OutOfFuel, _) => False
  end.
Proof.
  unfold save_output, _save_as_mp4, _save_as_gif. method_unfold.
  destruct (frames g) as [| first rest] eqn:Ef;
    [split; [reflexivity | left; reflexivity] |].
  pose proof (arith_outcome_frame_duration (config g)) as Hd.
  destruct (frame_duration_ms (config g)) as [d | e |] eqn:Ed; cbn in Hd;
    [| split; [reflexivity | right; left; exact Hd] | contradiction].
  destruct (String.eqb_spec (Str.upper (output_format (config g))) "GIF")
    as [Hg | Hg].
  { rewrite Ef. cbn.
    eexists. split; [reflexivity |]. cbn.
    repeat split; try (symmetry; exact Ef); try discriminate; try exact Ef.
    left. repeat split. exact Hg. }
  destruct (String.eqb_spec (Str.upper (output_format (config g))) "MP4")
    as [Hm | Hm];
    [| split; [reflexivity | right; right; reflexivity]].
  destruct (moviepy_available env) eqn:Em.
  - cbn. eexists. split; [reflexivity |]. cbn.
    repeat split; try (symmetry; exact Ef); try discriminate; try exact Ef.
    right. left. repeat split. exact Hm.
  - cbn. rewrite Ed. cbn. rewrite Ef. cbn.
    eexists. split; [reflexivity |]. cbn.
    repeat split; try (symmetry; exact Ef); try discriminate; try exact Ef.
    right. right. repeat split. exact Hm.
Qed.

Lemma set_output_width_same (c : ScrollifyConfig) :
  set_output_width (output_width c) c = c.
Proof. destruct c; reflexivity. Qed.

(** The five stages in a row. *)
Lemma pipeline_effect (env : Env) (fuel : nat) (g : Generator) :
  settings_kept env (config g) (config (snd (pipeline env fuel g))) /\
  match pipeline env fuel g with
  | (Ret _, g') =>
      exists ev : event,
        written g' = written g ++ [ev] /\
        event_path ev = output_path (config g') /\
        event_frames ev = frames g' /\ frames g' <> [] /\
        (event_is_gif ev = true <->
         (Str.upper (output_format (config g)) = "GIF"%string \/
          moviepy_available env = false)) /\
        output_path (config g') =
          (if orb (Str.upper (output_format (config g)) =? "GIF")%string
                  (moviepy_available env)
           then output_path (config g)
           else (fst (Str.splitext (output_path (config g))) ++ ".gif")%string)
  | (Raise e, g') => written g' = written g /\ run_failure (config g) e
  | (OutOfFuel, g') => written g' = written g
  end.
Proof.
  unfold pipeline, bind, settings_kept, run_failure.
  pose proof (load_image_effect env g) as H1.
  destruct (load_image env g) as [[[] | e |] g1]; [| | contradiction].
  2: { destruct H1 as [-> H1]. cbn [snd]. split.
       - left. symmetry. apply set_output_width_same.
       - split; [reflexivity |]. destruct H1 as [-> | ->]; auto. }
  destruct H1 as [src ->].
  pose proof (calculate_dimensions_effect (set_source_image src g)) as H2.
  destruct (calculate_dimensions (set_source_image src g))
    as [[[] | e |] g2]; [| | contradiction].
  2: { destruct H2 as [-> H2]. cbn [snd]. split.
       - left. symmetry. apply set_output_width_same.
       - split; [reflexivity |]. right. right. left.
         apply H2. discriminate. }
  destruct H2 as [wh ->].
  set (g2 := set_window_height wh (set_source_image src g)).
  pose proof (preprocess_image_effect g2) as H3.
  destruct (preprocess_image g2) as [[[] | e |] g3]; [| | contradiction].
  2: { destruct H3 as (Hc & Hw & He). cbn [snd]. rewrite Hc, Hw. split.
       - left. symmetry. apply set_output_width_same.
       - split; [reflexivity |]. right. right. left.
         apply He; discriminate. }
  destruct H3 as ((img & Hi & Hwi) & Hc & _ & Hwh & _ & Hw).
  specialize (Hwh ltac:(discriminate)).
  change (config g2) with (config g) in Hc.
  change (written g2) with (written g) in Hw.
  unfold same_but_width in Hc.
  assert (Hfmt : output_format (config g3) = output_format (config g))
    by (rewrite <- Hc; reflexivity).
  assert (Hpath : output_path (config g3) = output_path (config g))
    by (rewrite <- Hc; reflexivity).
  destruct (generate_frames_effect fuel g3) as [D4 R4].
  destruct (generate_frames fuel g3) as [[[] | e |] g4];
    cbn [fst snd] in D4, R4; destruct D4 as (Dc & _ & _ & _ & Dw).
  2: { cbn [snd]. rewrite Dc, Dw, Hw. split.
       - left. symmetry. exact Hc.
       - split; [reflexivity |]. right. right. left.
         apply (R4 e eq_refl); [rewrite Hi; discriminate | exact Hwh]. }
  2: { cbn [snd]. rewrite Dc, Dw, Hw. split; [| reflexivity].
       left. symmetry. exact Hc. }
  pose proof (save_output_effect env g4) as H5.
  destruct (save_output env g4) as [[[] | e |] g5]; [| | contradiction].
  2: { destruct H5 as [-> H5]. cbn [snd]. rewrite Dc, Dw, Hw. split.
       - left. symmetry. exact Hc.
       - split; [reflexivity |]. rewrite Dc, Hfmt in H5.
         destruct H5 as [-> | [H5 | ->]]; auto. }
  destruct H5 as (ev & Hev & Hp & Hfr & Hne & Hf5 & Hcase).
  rewrite Dc, Hfmt in Hcase. cbn [snd].
  destruct Hcase as [(Hg & Hc5 & Hgif) | [(Hm & Hy & Hc5 & Hgif)
                                         | (Hm & Hy & Hc5 & Hgif)]].
  - split; [left; rewrite Hc5; symmetry; exact Hc |].
    exists ev. rewrite Hev, Dw, Hw, Hf5.
    split; [reflexivity |]. split; [exact Hp |].
    split; [exact Hfr |]. split; [exact Hne |].
    split; [split; auto |].
    rewrite Hg, Hc5. cbn. exact Hpath.
  - split; [left; rewrite Hc5; symmetry; exact Hc |].
    exists ev. rewrite Hev, Dw, Hw, Hf5.
    split; [reflexivity |]. split; [exact Hp |].
    split; [exact Hfr |]. split; [exact Hne |].
    split.
    + split; [congruence |]. intros [C | C]; [| congruence].
      rewrite Hm in C. discriminate C.
    + rewrite Hy, Bool.orb_true_r, Hc5. exact Hpath.
  - split.
    + right. rewrite Hc5, Hpath, <- Hc. cbn. repeat split; auto.
    + exists ev. rewrite Hev, Dw, Hw, Hf5.
      split; [reflexivity |]. split; [exact Hp |].
      split; [exact Hfr |]. split; [exact Hne |].
      split; [split; auto |].
      rewrite Hm, Hy, Hc5, Hpath. reflexivity.
Qed.

(** [run], from the effect of the stages. *)
Lemma run_effect (env : Env) (fuel : nat) (g : Generator) :
  settings_kept env (config g) (config (snd (run env fuel g))) /\
  match run env fuel g with
  | (Ret true, g') =>
      exists ev : event,
        written g' = written g ++ [ev] /\
        event_path ev = output_path (config g') /\
        event_frames ev = frames g' /\ frames g' <> [] /\
        (event_is_gif ev = true <->
         (Str.upper (output_format (config g)) = "GIF"%string \/
          moviepy_available env = false)) /\
        output_path (config g') =
          (if orb (Str.upper (output_format (config g)) =? "GIF")%string
                  (moviepy_available env)
           then output_path (config g)
           else (fst (Str.splitext (output_path (config g))) ++ ".gif")%string)
  | (_, g') => written g' = written g
  end.
Proof.
  unfold run. destruct (pipeline_effect env fuel g) as [K H].
  destruct (pipeline env fuel g) as [[[] | e |] g']; cbn [snd] in *.
  - split; assumption.
  - split; [exact K | apply H].
  - split; assumption.
Qed.

(** X13.  [generate_frames] starts from an empty frame list and changes
    nothing of the generator but [self.frames], however it ends: the frames
    left by an earlier call do not matter, and calling it again on the
    generator it has left gives the same result again. *)
Theorem generate_frames_touches_only_frames (fuel : nat) (g : Generator) :
  only_frames_differ g (snd (generate_frames fuel g)) /\
  (forall fs : list Picture,
     generate_frames fuel (set_frames fs g) = generate_frames fuel g) /\
  generate_frames fuel (snd (generate_frames fuel g)) = generate_frames fuel g.
Proof.
  assert (Reset : forall (g0 : Generator) (fs : list Picture),
            generate_frames fuel (set_frames fs g0) = generate_frames fuel g0)
    by (intros g0 fs; reflexivity).
  destruct (generate_frames_effect fuel g) as [D _].
  split; [exact D |]. split; [apply Reset |].
  replace (snd (generate_frames fuel g))
    with (set_frames (frames (snd (generate_frames fuel g))) g);
    [apply Reset |].
  destruct D as (Dc & Ds & Di & Dh & Dw).
  destruct (snd (generate_frames fuel g)), g. cbn in *. subst.
  reflexivity.
Qed.

(** X14.  A run that returns [True] has made exactly one encoder call: it
    wrote all the frames the generator holds, at least one, to the output
    path the configuration ends with; a GIF exactly when the format is GIF
    or moviepy is missing.  A run that returns [False], or is still
    running, has written nothing. *)
Theorem run_writes_one_file_or_none (env : Env) (fuel : nat) (g : Generator) :
  match run env fuel g with
  | (Ret true, g') =>
      exists ev : event,
        written g' = written g ++ [ev] /\
        event_path ev = output_path (config g') /\
        event_frames ev = frames g' /\ frames g' <> [] /\
        (event_is_gif ev = true <->
         (Str.upper (output_format (config g)) = "GIF"%string \/
          moviepy_available env = false))
  | (_, g') => written g' = written g
  end.
Proof.
  unfold run. destruct (pipeline_effect env fuel g) as [_ H].
  destruct (pipeline env fuel g) as [[[] | e |] g'].
  - destruct H as (ev & H1 & H2 & H3 & H4 & H5 & _).
    exists ev. repeat split; try assumption; apply H5.
  - apply H.
  - exact H.
Qed.



(** X16.  Of the configuration it was given, [run] changes [output_width]
    (to the width of the scaled image) and, when MP4 was asked for and
    moviepy is missing, [output_path] (to the path with the extension
    [.gif]); every other setting is as the caller gave it, whether the run
    succeeds, fails or is still running. *)
Theorem run_keeps_settings (env : Env) (fuel : nat) (g : Generator) :
  settings_kept env (config g) (config (snd (run env fuel g))).
Proof.
  unfold run. destruct (pipeline_effect env fuel g) as [H _].
  destruct (pipeline env fuel g) as [[[] | e |] g']; exact H.
Qed.

(** X17.  [create_scrolling_gif] always writes a GIF, with or without
    moviepy: when it returns [True] the one file written is a GIF at the
    given output path, or at the image path with its extension replaced by
    [_scroll.gif] when none was given. *)
Theorem create_scrolling_gif_writes_gif (env : Env) (fuel : nat)
    (image : string) (out : option string) (ratio : string)
    (W speed fps : Z) (mode : string) (pause : Py.float) :
  let r := create_scrolling_gif env fuel image out ratio W speed fps mode
             pause in
  fst r = Ret true ->
  exists ev : event,
    written (snd r) = [ev] /\ event_is_gif ev = true /\
    event_frames ev = frames (snd r) /\
    event_path ev =
      match out with
      | None => (fst (Str.splitext image) ++ "_scroll.gif")%string
      | Some p => p
      end.
Proof.
  unfold create_scrolling_gif. cbn zeta.
  set (c := create_scrolling_gif_config image out ratio W speed fps mode
              pause).
  destruct (run_effect env fuel (init c)) as [_ H].
  destruct (run env fuel (init c)) as [o g']. cbn [fst snd].
  intros ->. destruct H as (ev & Hw & Hp & Hf & _ & Hgif & Hpath).
  exists ev. split; [exact Hw |].
  split; [apply Hgif; left; reflexivity |].
  split; [exact Hf |].
  rewrite Hp, Hpath. reflexivity.
Qed.

Lemma create_scrolling_gif_writes_gif_witness :
  exists ev : event,
    written (snd (create_scrolling_gif (example_env 800 3000 false) 319
                    "in.png" None "16:9" 800 8 24 "down" (Py.lit 2))) = [ev] /\
    event_is_gif ev = true /\
    event_frames ev =
      frames (snd (create_scrolling_gif (example_env 800 3000 false) 319
                     "in.png" None "16:9" 800 8 24 "down" (Py.lit 2))) /\
    event_path ev = (fst (Str.splitext "in.png") ++ "_scroll.gif")%string.
Proof.
  apply (create_scrolling_gif_writes_gif (example_env 800 3000 false) 319%nat
           "in.png" None "16:9" 800 8 24 "down" (Py.lit 2)).
  vm_compute. reflexivity.
Defined.

(** X18.  What [quick_convert] prints matches what was written: when it
    reports a finished conversion, the path it prints is the path of the
    one file written, a GIF; in every other case (no argument, missing
    image, failed or unfinished conversion) no file was written. *)
Theorem quick_convert_reports_written_file (env : Env) (fuel : nat)
    (argv : list string) :
  match quick_convert env fuel argv with
  | (QuickDone p, files) =>
      exists ev : event,
        files = [ev] /\ event_is_gif ev = true /\ event_path ev = p
  | (_, files) => files = []
  end.
Proof.
  unfold quick_convert.
  destruct argv as [| prog [| image rest]]; try reflexivity.
  destruct (path_exists env image); cbn [negb]; [| reflexivity].
  unfold create_scrolling_gif.
  set (c := create_scrolling_gif_config image None "16:9" 800 8 24 "down"
              (Py.lit 2)).
  destruct (run_effect env fuel (init c)) as [_ H].
  destruct (run env fuel (init c)) as [[[|] | e |] g']; try exact H.
  destruct H as (ev & Hw & Hp & _ & _ & Hgif & Hpath).
  exists ev. split; [exact Hw |].
  split; [apply Hgif; left; reflexivity |].
  rewrite Hp, Hpath. reflexivity.
Qed.

(** ** The command line *)

(** X19.  When the command line gets as far as creating a generator with
    the ratio [custom], a height other than 0 was given and
    [calculate_dimensions] takes it as the window height: the 16:9 fallback
    of [custom] cannot be reached from the command line. *)
Theorem cli_custom_ratio_uses_given_height (env : Env)
    (auto_output : string -> string -> string) (fuel : nat) (a : Args) :
  snd (main env auto_output fuel a) <> None ->
  arg_ratio a = "custom"%string ->
  exists h : Z,
    arg_height a = Some h /\ h <> 0 /\
    forall g : Generator,
      config g = cli_config auto_output a ->
      calculate_dimensions g = (Ret tt, set_window_height h g).
Proof.
  unfold main. intros Hrun Hratio.
  destruct (path_exists env (arg_image a)); cbn [negb] in Hrun;
    [| contradiction].
  rewrite Hratio in Hrun. cbn [String.eqb Ascii.eqb Bool.eqb andb] in Hrun.
  destruct (arg_height a) as [h |] eqn:Eh; cbn [truthy negb] in Hrun;
    [| contradiction].
  destruct (Z.eqb_spec h 0) as [-> | Hne]; cbn [negb] in Hrun;
    [contradiction |].
  exists h. split; [reflexivity |]. split; [exact Hne |].
  intros g Hg. unfold calculate_dimensions. method_unfold.
  rewrite Hg. cbn [cli_config aspect_ratio output_height].
  rewrite Hratio, Eh. cbn [String.eqb Ascii.eqb Bool.eqb andb truthy].
  replace (h =? 0) with false by (symmetry; apply Z.eqb_neq; exact Hne).
  reflexivity.
Qed.

Lemma cli_custom_ratio_uses_given_height_witness :
  exists h : Z,
    arg_height (cli_args (Some "out.gif"%string) "GIF" "custom" (Some 300)) = Some h /\
    h <> 0 /\
    forall g : Generator,
      config g =
        cli_config beside_image
          (cli_args (Some "out.gif"%string) "GIF" "custom" (Some 300)) ->
      calculate_dimensions g = (Ret tt, set_window_height h g).
Proof.
  apply (cli_custom_ratio_uses_given_height (example_env 800 3000 false)
           beside_image 319%nat
           (cli_args (Some "out.gif"%string) "GIF" "custom" (Some 300))).
  - vm_compute. discriminate.
  - reflexivity.
Defined.

Lemma file_present_after_run (env : Env) (g : Generator) (ev : event)
    (p : string) :
  written g = [ev] ->
  file_present env g p =
    orb (path_exists env p) (event_path ev =? p)%string.
Proof.
  intros H. unfold file_present. rewrite H. cbn [existsb].
  rewrite Bool.orb_false_r. reflexivity.
Qed.

(** X20.  After the MP4 fallback the command line looks for the wrong
    file: when MP4 was asked for, moviepy is missing and the run succeeds,
    the GIF is written beside the requested path with the extension
    [.gif], and [main] then asks for the size of the requested path; if no
    file is there it ends with an uncaught [FileNotFoundError] although
    the conversion succeeded. *)
Theorem main_fails_after_mp4_fallback (env : Env)
    (auto_output : string -> string -> string) (fuel : nat) (a : Args) :
  path_exists env (arg_image a) = true ->
  (arg_ratio a = "custom"%string -> truthy (arg_height a) = true) ->
  arg_preview a = false ->
  arg_format a = "MP4"%string ->
  moviepy_available env = false ->
  fst (run env fuel (init (cli_config auto_output a))) = Ret true ->
  path_exists env (cli_output auto_output a) = false ->
  (fst (Str.splitext (cli_output auto_output a)) ++ ".gif")%string
    <> cli_output auto_output a ->
  fst (main env auto_output fuel a) = Uncaught FileNotFoundError /\
  exists ev : event,
    option_map written (snd (main env auto_output fuel a)) = Some [ev] /\
    event_is_gif ev = true /\
    event_path ev =
      (fst (Str.splitext (cli_output auto_output a)) ++ ".gif")%string.
Proof.
  intros Himg Hcustom Hprev Hfmt Hmovie Hrun Hout Hne.
  unfold main. rewrite Himg, Hprev. cbn [negb].
  replace (andb (arg_ratio a =? "custom")%string
                (negb (truthy (arg_height a)))) with false.
  2: { destruct (String.eqb_spec (arg_ratio a) "custom") as [E | E];
         [rewrite (Hcustom E) |]; reflexivity. }
  destruct (run_effect env fuel (init (cli_config auto_output a))) as [_ H].
  destruct (run env fuel (init (cli_config auto_output a))) as [o g'].
  cbn [fst] in Hrun. subst o.
  destruct H as (ev & Hw & Hp & _ & _ & Hgif & Hpath).
  cbn [init written app] in Hw.
  cbn [init config cli_config output_format output_path] in Hgif, Hpath.
  rewrite Hfmt, Hmovie in Hpath.
  replace (Str.upper "MP4" =? "GIF")%string with false in Hpath
    by reflexivity.
  cbn [orb] in Hpath.
  rewrite (file_present_after_run env g' ev _ Hw), Hout, Hp, Hpath.
  cbn [orb].
  destruct (String.eqb_spec
              (fst (Str.splitext (cli_output auto_output a)) ++ ".gif")
              (cli_output auto_output a)) as [E | _]; [contradiction |].
  cbn [fst snd option_map]. split; [reflexivity |].
  exists ev. rewrite Hw, Hp, Hpath.
  repeat split. apply Hgif. right. exact Hmovie.
Qed.

Lemma main_fails_after_mp4_fallback_witness :
  fst (main (example_env 800 3000 false) beside_image 319
         (cli_args (Some "video.mp4"%string) "MP4" "16:9" None))
    = Uncaught FileNotFoundError /\
  exists ev : event,
    option_map written
      (snd (main (example_env 800 3000 false) beside_image 319
              (cli_args (Some "video.mp4"%string) "MP4" "16:9" None))) = Some [ev] /\
    event_is_gif ev = true /\
    event_path ev =
      (fst (Str.splitext
              (cli_output beside_image
                 (cli_args (Some "video.mp4"%string) "MP4" "16:9" None)))
       ++ ".gif")%string.
Proof.
  apply (main_fails_after_mp4_fallback (example_env 800 3000 false)
           beside_image 319%nat
           (cli_args (Some "video.mp4"%string) "MP4" "16:9" None)).
  - reflexivity.
  - discriminate.
  - reflexivity.
  - reflexivity.
  - reflexivity.
  - vm_compute. reflexivity.
  - reflexivity.
  - vm_compute. discriminate.
Defined.

(** X21.  That is the only way [main] ends with an uncaught exception:
    with the formats the parser accepts, an exception escapes [main] only
    as the [FileNotFoundError] of the size lookup, after a run that
    succeeded by the MP4 fallback, with no file at the requested path. *)
Theorem main_uncaught_only_after_mp4_fallback (env : Env)
    (auto_output : string -> string -> string) (fuel : nat) (a : Args)
    (e : exn) :
  arg_format a = "GIF"%string \/ arg_format a = "MP4"%string ->
  fst (main env auto_output fuel a) = Uncaught e ->
  e = FileNotFoundError /\
  arg_format a = "MP4"%string /\ moviepy_available env = false /\
  fst (run env fuel (init (cli_config auto_output a))) = Ret true /\
  path_exists env (cli_output auto_output a) = false /\
  (fst (Str.splitext (cli_output auto_output a)) ++ ".gif")%string
    <> cli_output auto_output a.
Proof.
  intros Hfmt. unfold main.
  destruct (path_exists env (arg_image a)); cbn [negb fst];
    [| discriminate].
  destruct (andb _ _); cbn [fst]; [discriminate |].
  destruct (arg_preview a); cbn [fst]; [discriminate |].
  destruct (run_effect env fuel (init (cli_config auto_output a))) as [_ H].
  destruct (run env fuel (init (cli_config auto_output a)))
    as [[[|] | e' |] g']; cbn [fst]; try discriminate.
  destruct H as (ev & Hw & Hp & _ & _ & Hgif & Hpath).
  cbn [init written app] in Hw.
  cbn [init config cli_config output_format output_path] in Hgif, Hpath.
  rewrite (file_present_after_run env g' ev _ Hw), Hp, Hpath.
  destruct (path_exists env (cli_output auto_output a)); cbn [orb fst];
    [discriminate |].
  destruct (moviepy_available env).
  { rewrite Bool.orb_true_r, String.eqb_refl. discriminate. }
  destruct Hfmt as [F | F]; rewrite F.
  { replace (Str.upper "GIF" =? "GIF")%string with true by reflexivity.
    cbn [orb]. rewrite String.eqb_refl. discriminate. }
  replace (Str.upper "MP4" =? "GIF")%string with false by reflexivity.
  cbn [orb].
  destruct (String.eqb_spec
              (fst (Str.splitext (cli_output auto_output a)) ++ ".gif")
              (cli_output auto_output a)) as [E | E]; [discriminate |].
  intros H. injection H as <-. repeat split; auto.
Qed.

Lemma main_uncaught_only_after_mp4_fallback_witness :
  FileNotFoundError = FileNotFoundError /\
  arg_format (cli_args (Some "video.mp4"%string) "MP4" "16:9" None) = "MP4"%string /\
  moviepy_available (example_env 800 3000 false) = false /\
  fst (run (example_env 800 3000 false) 319
         (init (cli_config beside_image
                  (cli_args (Some "video.mp4"%string) "MP4" "16:9" None))))
    = Ret true /\
  path_exists (example_env 800 3000 false)
    (cli_output beside_image (cli_args (Some "video.mp4"%string) "MP4" "16:9" None))
    = false /\
  (fst (Str.splitext
          (cli_output beside_image
             (cli_args (Some "video.mp4"%string) "MP4" "16:9" None))) ++ ".gif")%string
    <> cli_output beside_image (cli_args (Some "video.mp4"%string) "MP4" "16:9" None).
Proof.
  apply (main_uncaught_only_after_mp4_fallback (example_env 800 3000 false)
           beside_image 319%nat
           (cli_args (Some "video.mp4"%string) "MP4" "16:9" None) FileNotFoundError).
  - right. reflexivity.
  - vm_compute. reflexivity.
Defined.
